(** * BotsV1Analyzer: the detection core of [src/main.py]

    A shallow embedding of the class [BotsV1Analyzer]: the pandas batches it
    keeps ([self.winevent_df], [self.dns_df]), the event-risk table, the two
    detectors ([analyze_winevent_logs], [analyze_dns_logs]), the DNS loader
    with its synthetic-data fallback, and the rest of the pipeline
    ([load_winevent_data], [visualize_results], [print_summary],
    [run_full_analysis], [main]).

    Conventions.
    - A [DataFrame] is its row count and its columns, a finite map from the
      column name to the list of cells; Python dictionaries are [gmap]s
      (equality of dictionaries in Python ignores the insertion order).
    - Python exceptions are values: a method of the analyzer is a function
      from the analyzer's state to an outcome ([Ok] or [Raise]) and the new
      state.
    - [print] calls are dropped: they do not touch the state.  The one
      exception is the format [f"{hour:02d}"] of [print_summary], which can
      raise and is kept.
    - What the code calls outside the repository (files, random numbers,
      [pd.to_numeric], [pd.to_datetime], matplotlib) is a variable of a
      section: the results hold for every behaviour of these.
    - An exception is one of class [Exception], those that
      [except Exception] catches.
    - Float arithmetic ([Series.mean], [Series.std]) is exact rational
      arithmetic here; NaN is [None].  Rounding of float64 is not modelled.
    - A string is the sequence of the bytes of its UTF-8 encoding: [len]
      counts its characters (code points), that is the bytes that are not
      continuation bytes.  The patterns that the code looks for (the dot of
      [split], the suffixes of [endswith]) are ASCII, so that searching the
      bytes and searching the characters agree. *)

From Stdlib Require Import Ascii String QArith Qabs Qreals Reals Lra.
From stdpp Require Import gmap strings list fin_maps pretty sorting.

Close Scope Q_scope.
Close Scope R_scope.
Open Scope string_scope.

(** ** Cells and batches *)

(** What a cell of an object column holds after [json.load]/[pd.read_csv]:
    a missing value ([None] or the float NaN), a string, or an integer. *)
Inductive cell :=
  | CNone
  | CNaN
  | CStr (s : string)
  | CInt (z : Z).

Global Instance cell_eq_dec : EqDecision cell.
Proof. solve_decision. Defined.

(** [pd.isna] *)
Definition isna (c : cell) : bool :=
  match c with
  | CNone | CNaN => true
  | _ => false
  end.

(** [str(c)] *)
Definition str (c : cell) : string :=
  match c with
  | CNone => "None"
  | CNaN => "nan"
  | CStr s => s
  | CInt z => pretty z
  end.

Record DataFrame := {
  nrows : nat;                         (* len(df) *)
  columns : gmap string (list cell)    (* df.columns, df[name] *)
}.

(** Every column of a frame has one cell per row. *)
Definition wf_frame (df : DataFrame) : Prop :=
  ∀ name col, columns df !! name = Some col → length col = nrows df.

(** [df[name] = col] *)
Definition set_column (name : string) (col : list cell) (df : DataFrame) : DataFrame :=
  {| nrows := nrows df; columns := <[name := col]> (columns df) |}.

(** Selection of the rows of a column by a boolean mask: [col[mask]]. *)
Fixpoint select (mask : list bool) (col : list cell) : list cell :=
  match mask, col with
  | b :: mask', c :: col' => if b then c :: select mask' col' else select mask' col'
  | _, _ => []
  end.

(** [df[mask]] *)
Definition select_rows (mask : list bool) (df : DataFrame) : DataFrame :=
  {| nrows := length (filter (λ b, b = true) mask);
     columns := select mask <$> columns df |}.

(** ** Exceptions and the analyzer's state *)

Inductive exn :=
  | KeyError (key : string)
  | ValueError (msg : string)
  | OtherError (msg : string).

Inductive outcome (A : Type) :=
  | Ok (a : A)
  | Raise (e : exn).
Arguments Ok {A} a.
Arguments Raise {A} e.

(** The attributes set by [__init__]. *)
Record Analyzer := {
  winevent_df : option DataFrame;
  dns_df : option DataFrame;
  suspicious_events : gmap string (gmap string nat)
}.

Definition init : Analyzer :=
  {| winevent_df := None; dns_df := None; suspicious_events := ∅ |}.

Definition M (A : Type) : Type := Analyzer → outcome A * Analyzer.

Definition ret {A} (a : A) : M A := λ self, (Ok a, self).
Definition raise {A} (e : exn) : M A := λ self, (Raise e, self).
Definition bind {A B} (m : M A) (k : A → M B) : M B :=
  λ self, match m self with
          | (Ok a, self') => k a self'
          | (Raise e, self') => (Raise e, self')
          end.
(** [try: body except Exception as e: handler] *)
Definition try_except {A} (body : M A) (handler : exn → M A) : M A :=
  λ self, match body self with
          | (Ok a, self') => (Ok a, self')
          | (Raise e, self') => handler e self'
          end.

Global Instance M_ret : MRet M := @ret.
Global Instance M_bind : MBind M := λ A B k m, bind m k.

(** [df[name]]: a missing column is a [KeyError]. *)
Definition getitem (df : DataFrame) (name : string) : M (list cell) :=
  match columns df !! name with
  | Some col => ret col
  | None => raise (KeyError name)
  end.

Definition get_winevent_df : M (option DataFrame) := λ self, (Ok (winevent_df self), self).
Definition get_dns_df : M (option DataFrame) := λ self, (Ok (dns_df self), self).

Definition set_dns_df (df : DataFrame) : M unit :=
  λ self, (Ok (), {| winevent_df := winevent_df self; dns_df := Some df;
                     suspicious_events := suspicious_events self |}).

(** [self.suspicious_events[source] = found] *)
Definition set_suspicious (source : string) (found : gmap string nat) : M unit :=
  λ self, (Ok (), {| winevent_df := winevent_df self; dns_df := dns_df self;
                     suspicious_events := <[source := found]> (suspicious_events self) |}).

(** ** [Series.value_counts] and [Series.unique] *)

(** One pass over the column with a table of counters, as the hash table
    behind [value_counts] does; missing values are dropped ([dropna=True]).
    The entries are kept in the order of first occurrence: pandas then sorts
    them by descending count, which none of the consumers below depends on
    (they take [len], look a key up, or add up counts). *)
Fixpoint bump (v : cell) (acc : list (cell * nat)) : list (cell * nat) :=
  match acc with
  | [] => [(v, 1)]
  | (w, n) :: acc' => if decide (v = w) then (w, S n) :: acc' else (w, n) :: bump v acc'
  end.

Definition count_step (acc : list (cell * nat)) (v : cell) : list (cell * nat) :=
  if isna v then acc else bump v acc.

Definition value_counts (col : list cell) : list (cell * nat) :=
  foldl count_step [] col.

(** The number of cells of a column that hold a given value. *)
Definition occurrences (v : cell) (col : list cell) : nat :=
  length (filter (λ c, c = v) col).

(** [series[key]] on the result of [value_counts] *)
Fixpoint count_of (v : cell) (vc : list (cell * nat)) : option nat :=
  match vc with
  | [] => None
  | (w, n) :: vc' => if decide (v = w) then Some n else count_of v vc'
  end.

(** [Series.unique]: the distinct values in the order of first occurrence
    (a missing value included). *)
Fixpoint unique_acc (seen : list cell) (col : list cell) : list cell :=
  match col with
  | [] => []
  | c :: col' =>
      if decide (c ∈ seen) then unique_acc seen col'
      else c :: unique_acc (c :: seen) col'
  end.
Definition unique (col : list cell) : list cell := unique_acc [] col.

(** [sum(d.values())] *)
Definition dict_sum (d : gmap string nat) : nat :=
  map_fold (λ _ v acc, v + acc) 0 d.

(** A [for] loop whose body may raise. *)
Fixpoint foldM {A B} (f : B → A → M B) (b : B) (l : list A) : M B :=
  match l with
  | [] => mret b
  | a :: l' => b' ← f b a; foldM f b' l'
  end.

(** ** The event-risk table *)

Inductive risk := High | Medium | Low.

Record EventInfo := {
  name : string;
  risk_of : risk;
  desc : string
}.

(** The local dictionary [suspicious_events] of [analyze_winevent_logs]
    (the attribute [self.suspicious_events] is another object). *)
Definition catalog_entries : list (Z * EventInfo) :=
    [ (4624, {| name := "Successful Logon"; risk_of := Medium;
                desc := "Account successfully logged on" |});
      (4625, {| name := "Failed Logon"; risk_of := High;
                desc := "Account failed to log on" |});
      (4634, {| name := "Logoff"; risk_of := Low; desc := "Account logged off" |});
      (4648, {| name := "Logon with Explicit Credentials"; risk_of := High;
                desc := "Logon using explicit credentials" |});
      (4672, {| name := "Special Privileges Assigned"; risk_of := High;
                desc := "Special privileges assigned to new logon" |});
      (4688, {| name := "Process Creation"; risk_of := Medium;
                desc := "A new process has been created" |});
      (4689, {| name := "Process Exit"; risk_of := Low; desc := "A process has exited" |});
      (4698, {| name := "Scheduled Task Created"; risk_of := High;
                desc := "A scheduled task was created" |});
      (4703, {| name := "Token Manipulation"; risk_of := High;
                desc := "A user right was adjusted" |});
      (4720, {| name := "User Account Created"; risk_of := High;
                desc := "A user account was created" |});
      (4732, {| name := "Member Added to Security Group"; risk_of := High;
                desc := "A member was added to a security group" |});
      (4768, {| name := "Kerberos Ticket Request"; risk_of := Medium;
                desc := "A Kerberos authentication ticket was requested" |});
      (4769, {| name := "Kerberos Service Ticket"; risk_of := Medium;
                desc := "A Kerberos service ticket was requested" |});
      (4776, {| name := "Credential Validation"; risk_of := Medium;
                desc := "Domain controller validated credentials" |});
      (4798, {| name := "User Group Membership"; risk_of := Medium;
                desc := "A user's group membership was enumerated" |});
      (4799, {| name := "Security Group Membership"; risk_of := Medium;
                desc := "A security group's membership was enumerated" |});
      (5140, {| name := "Share Accessed"; risk_of := Medium;
                desc := "A network share object was accessed" |});
      (5145, {| name := "Share Access Check"; risk_of := Medium;
                desc := "A network share object was checked for access" |});
      (5156, {| name := "Connection Allowed"; risk_of := Low;
                desc := "Windows Filtering Platform allowed a connection" |});
      (5158, {| name := "Bind to Port"; risk_of := Medium;
                desc := "Windows Filtering Platform permitted a bind to a local port" |});
      (7045, {| name := "Service Installed"; risk_of := High;
                desc := "A service was installed in the system" |}) ]%Z.

Definition suspicious_events_catalog : gmap Z EventInfo := list_to_map catalog_entries.

(** [suspicious_events.get(event_id)]: only an integer is a key. *)
Definition catalog_get (event_id : cell) : option EventInfo :=
  match event_id with
  | CInt z => suspicious_events_catalog !! z
  | _ => None
  end.

(** [event_id in suspicious_events], and one element of
    [Series.isin(suspicious_events.keys())]. *)
Definition in_catalog (event_id : cell) : bool :=
  bool_decide (is_Some (catalog_get event_id)).

(** ** [analyze_winevent_logs] *)

(** [risk_levels = {'High': 0, 'Medium': 0, 'Low': 0}] *)
Record RiskLevels := {
  high : nat;
  medium : nat;
  low : nat
}.

Definition risk_levels_init : RiskLevels := {| high := 0; medium := 0; low := 0 |}.

(** [risk_levels[risk] += count] *)
Definition risk_add (r : risk) (count : nat) (rl : RiskLevels) : RiskLevels :=
  match r with
  | High => {| high := high rl + count; medium := medium rl; low := low rl |}
  | Medium => {| high := high rl; medium := medium rl + count; low := low rl |}
  | Low => {| high := high rl; medium := medium rl; low := low rl + count |}
  end.

Definition risk_total (rl : RiskLevels) : nat := high rl + medium rl + low rl.

(** [load_winevent_data] passes the column through [pd.to_numeric(...,
    errors='coerce')]: its cells are integers, unless a value is missing or
    could not be parsed; pandas then stores the whole column as float64, and
    so the rows selected from it. *)
Definition float_dtype (col : list cell) : bool := existsb isna col.

(** [f"{event_id}"]: a float64 identifier of the table prints as [4625.0]. *)
Definition format_event_id (float : bool) (event_id : cell) : string :=
  if float then str event_id ++ ".0" else str event_id.

(** [f"[{event_id}] {suspicious_events[event_id]['name']}"] *)
Definition event_name (float : bool) (event_id : cell) (info : EventInfo) : string :=
  "[" ++ format_event_id float event_id ++ "] " ++ name info.

(** Lines 192-196: the loop over [suspicious_counts.items()]. *)
Definition winevent_result (float : bool) (suspicious_counts : list (cell * nat))
    : gmap string nat :=
  foldl (λ result '(event_id, count),
           match catalog_get event_id with
           | Some info => <[event_name float event_id info := count]> result
           | None => result
           end) ∅ suspicious_counts.

(** Lines 199-204: the loop over [suspicious_df['EventCode'].unique()];
    [suspicious_counts[event_id]] raises [KeyError] on a missing label. *)
Definition winevent_risk_levels (suspicious_counts : list (cell * nat))
    (event_ids : list cell) : M RiskLevels :=
  foldM (λ risk_levels event_id,
           match catalog_get event_id with
           | Some info =>
               match count_of event_id suspicious_counts with
               | Some count => mret (risk_add (risk_of info) count risk_levels)
               | None => raise (KeyError (str event_id))
               end
           | None => mret risk_levels
           end) risk_levels_init event_ids.

(** Lines 172-219, on a batch that is not empty: the mapping that is
    returned and the risk distribution that is printed. *)
Definition winevent_tally (df : DataFrame) : M (gmap string nat * RiskLevels) :=
  codes ← getitem df "EventCode";
  let event_counts := value_counts codes in
  let suspicious_mask := in_catalog <$> codes in
  let suspicious_df := select_rows suspicious_mask df in
  suspicious_codes ← getitem suspicious_df "EventCode";
  let suspicious_counts := value_counts suspicious_codes in
  let result := winevent_result (float_dtype codes) suspicious_counts in
  risk_levels ← winevent_risk_levels suspicious_counts (unique suspicious_codes);
  computer_counts ← getitem suspicious_df "ComputerName";
  mret (result, risk_levels).

Definition analyze_winevent_logs : M (gmap string nat) :=
  batch ← get_winevent_df;
  match batch with
  | None => mret ∅
  | Some df =>
      if decide (nrows df = 0) then mret ∅
      else
        '(result, _) ← winevent_tally df;
        set_suspicious "WinEvent" result;;
        mret result
  end.

Definition winevent_batch (codes hosts : list cell) : DataFrame :=
  {| nrows := length codes;
     columns := {[ "EventCode" := codes; "ComputerName" := hosts ]} |}.

Definition with_winevent (df : DataFrame) : Analyzer :=
  {| winevent_df := Some df; dns_df := None; suspicious_events := ∅ |}.

(** ** Descriptive statistics of a [Series] of counts *)

(** [Series.mean()] and the square of [Series.std(ddof)], exactly; [None] is
    NaN (an empty series has no mean, a series of at most [ddof] values has
    no deviation).  [Series.std()] is called without argument at line 302:
    pandas then takes [ddof = 1]. *)
Definition series_sum (xs : list nat) : Q :=
  foldr (λ x acc, inject_Z (Z.of_nat x) + acc)%Q 0%Q xs.

Definition series_mean (xs : list nat) : option Q :=
  match xs with
  | [] => None
  | _ => Some (series_sum xs / inject_Z (Z.of_nat (length xs)))%Q
  end.

Definition sum_sq_dev (m : Q) (xs : list nat) : Q :=
  foldr (λ x acc, (inject_Z (Z.of_nat x) - m) * (inject_Z (Z.of_nat x) - m) + acc)%Q 0%Q xs.

Definition series_var (ddof : nat) (xs : list nat) : option Q :=
  match series_mean xs with
  | Some m =>
      if decide (length xs ≤ ddof)%nat then None
      else Some (sum_sq_dev m xs / inject_Z (Z.of_nat (length xs - ddof)))%Q
  | None => None
  end.

(** The float [mean + 2 * std]: kept as the pair of the mean and of the
    square of the deviation, since the root is irrational in general.
    NaN propagates through [+] and [*]. *)
Record Threshold := {
  th_mean : Q;
  th_var : Q      (* the threshold is th_mean + 2 * sqrt th_var *)
}.

Definition mean_plus_2std (ddof : nat) (xs : list nat) : option Threshold :=
  match series_mean xs, series_var ddof xs with
  | Some m, Some v => Some {| th_mean := m; th_var := v |}
  | _, _ => None
  end.

Global Instance Qlt_decision (x y : Q) : Decision (x < y)%Q.
Proof. unfold Qlt. apply _. Defined.

(** [x > threshold]: a comparison with NaN is false; [x > m + 2 * sqrt v]
    is decided, for [0 <= v], as [x - m > 0] and [(x - m)^2 > 4 * v]. *)
Definition gt_threshold (x : nat) (threshold : option Threshold) : bool :=
  match threshold with
  | None => false
  | Some t =>
      let d := (inject_Z (Z.of_nat x) - th_mean t)%Q in
      bool_decide (0 < d)%Q && bool_decide (4 * th_var t < d * d)%Q
  end.

(** ** [analyze_dns_logs] *)

Definition suspicious_tlds : list string :=
  [".xyz"; ".top"; ".work"; ".date"; ".win"; ".bid"; ".trade"; ".cc"; ".info"].

Definition unusual_query_types : list string := ["TXT"; "ANY"; "AXFR"; "CNAME"].

(** [s.split(sep)] for a separator of one character: never empty. *)
Fixpoint split (sep : Ascii.ascii) (s : string) : list string :=
  match s with
  | EmptyString => [""]
  | String c s' =>
      if decide (c = sep) then "" :: split sep s'
      else match split sep s' with
           | part :: parts => String c part :: parts
           | [] => [String c ""]
           end
  end.

(** The local function [get_tld]. *)
Definition get_tld (domain : cell) : string :=
  if isna domain then ""
  else
    let parts := split "." (str domain) in
    if decide (1 < length parts)%nat then "." ++ default "" (last parts) else "".

(** One element of [Series.isin(values)], for a list of strings. *)
Definition isin (values : list string) (c : cell) : bool :=
  match c with
  | CStr s => bool_decide (s ∈ values)
  | _ => false
  end.

(** One element of [series != 0]: only the integer 0 equals 0. *)
Definition ne_zero (c : cell) : bool :=
  match c with
  | CInt z => bool_decide (z ≠ 0%Z)
  | _ => true
  end.

(** One element of [series > 30] on the column of lengths. *)
Definition gt_30 (c : cell) : bool :=
  match c with
  | CInt z => bool_decide (30 < z)%Z
  | _ => false
  end.

(** A continuation byte of UTF-8: [10xxxxxx]. *)
Definition continuation (byte : ascii) : bool :=
  match byte with
  | Ascii _ _ _ _ _ _ false true => true
  | _ => false
  end.

(** [len(s)] for a string: the number of its characters.  Every character
    is encoded by one byte that is not a continuation byte, followed by
    continuation bytes only. *)
Fixpoint len (s : string) : nat :=
  match s with
  | EmptyString => 0
  | String byte s' => if continuation byte then len s' else S (len s')
  end.

(** [len(str(c))], as a cell of the column [domain_length]. *)
Definition str_len (c : cell) : cell := CInt (Z.of_nat (len (str c))).

(** [len(series[series < 3])] and the like: the entries of a [value_counts]
    that satisfy a test on the count. *)
Definition where_count (test : nat → bool) (vc : list (cell * nat)) : list (cell * nat) :=
  filter (λ p, test p.2 = true) vc.

(** Heuristics 3, 5 and 6 (lines 269-310): each runs only when its column
    is in the batch. *)
Definition failed_responses_step (df : DataFrame) (suspicious_criteria : gmap string nat)
    : gmap string nat :=
  match columns df !! "response_code" with
  | Some response_code =>
      let failed_responses := select_rows (ne_zero <$> response_code) df in
      <["Failed DNS Responses" := nrows failed_responses]> suspicious_criteria
  | None => suspicious_criteria
  end.

Definition unusual_queries_step (df : DataFrame) (suspicious_criteria : gmap string nat)
    : gmap string nat :=
  match columns df !! "query_type" with
  | Some query_type =>
      let unusual_queries := select_rows (isin unusual_query_types <$> query_type) df in
      <["Unusual Query Types" := nrows unusual_queries]> suspicious_criteria
  | None => suspicious_criteria
  end.

Definition high_frequency_ips (ddof : nat) (client_ip : list cell) : list (cell * nat) :=
  let ip_frequency := value_counts client_ip in
  let threshold := mean_plus_2std ddof ip_frequency.*2 in
  where_count (λ n, gt_threshold n threshold) ip_frequency.

Definition high_frequency_step (df : DataFrame) (suspicious_criteria : gmap string nat)
    : gmap string nat :=
  match columns df !! "client_ip" with
  | Some client_ip =>
      <["High Query Frequency IPs" := length (high_frequency_ips 1 client_ip)]>
        suspicious_criteria
  | None => suspicious_criteria
  end.

(** Heuristic 4 (lines 280-285): writes the column [domain_length] into the
    stored batch. *)
Definition long_domains_step (df : DataFrame) (suspicious_criteria : gmap string nat)
    : M (DataFrame * gmap string nat) :=
  match columns df !! "domain" with
  | Some domain =>
      let df := set_column "domain_length" (str_len <$> domain) df in
      set_dns_df df;;
      domain_length ← getitem df "domain_length";
      let long_domains := select_rows (gt_30 <$> domain_length) df in
      mret (df, <["Long Domain Names (>30 chars)" := nrows long_domains]> suspicious_criteria)
  | None => mret (df, suspicious_criteria)
  end.

Definition analyze_dns_logs : M (gmap string nat) :=
  batch ← get_dns_df;
  match batch with
  | None => mret ∅
  | Some df =>
      if decide (nrows df = 0) then mret ∅
      else
        let suspicious_criteria : gmap string nat := ∅ in
        (* 1 *)
        domain ← getitem df "domain";
        let domain_counts := value_counts domain in
        let rare_domains := where_count (λ n, bool_decide (n < 3)%nat) domain_counts in
        let suspicious_criteria :=
          <["Rare Domain Queries" := length rare_domains]> suspicious_criteria in
        (* 2 *)
        domain ← getitem df "domain";
        let df := set_column "tld" (CStr ∘ get_tld <$> domain) df in
        set_dns_df df;;
        tld ← getitem df "tld";
        let suspicious_tld_queries := select_rows (isin suspicious_tlds <$> tld) df in
        let suspicious_criteria :=
          <["Unusual TLD Queries" := nrows suspicious_tld_queries]> suspicious_criteria in
        (* 3 *)
        let suspicious_criteria := failed_responses_step df suspicious_criteria in
        (* 4 *)
        '(df, suspicious_criteria) ← long_domains_step df suspicious_criteria;
        (* 5 *)
        let suspicious_criteria := unusual_queries_step df suspicious_criteria in
        (* 6 *)
        let suspicious_criteria := high_frequency_step df suspicious_criteria in
        set_suspicious "DNS" suspicious_criteria;;
        mret suspicious_criteria
  end.

Definition with_dns (df : DataFrame) : Analyzer :=
  {| winevent_df := None; dns_df := Some df; suspicious_events := ∅ |}.

(** ** [load_dns_data] and the synthetic batch *)

Definition n_records : nat := 500.

Definition normal_domains : list cell :=
  CStr <$> ["google.com"; "microsoft.com"; "amazon.com"; "facebook.com";
            "twitter.com"; "github.com"; "stackoverflow.com"; "bing.com"].

Definition suspicious_domains : list cell :=
  CStr <$> ["malware-domain.xyz"; "c2-server.top"; "phishing-site.work";
            "dga-generated.bid"; "suspicious-payload.trade"; "unknown-malware.date";
            "rare-domain.win"; "strange-pattern.cc"; "potential-c2.net";
            "data-exfil.info"; "encrypted-channel.org"; "suspicious-activity.ru"].

(** The argument [p] of the first [np.random.choice] (lines 104-105):
    [[0.03] * len(suspicious_domains) + [0.7 / len(normal_domains)] * len(normal_domains)] *)
Definition domain_p : list Q :=
  replicate (length suspicious_domains) (3 # 100)%Q
  ++ replicate (length normal_domains)
       ((7 # 10) / inject_Z (Z.of_nat (length normal_domains)))%Q.

Definition q_sum (p : list Q) : Q := foldr Qplus 0%Q p.

(** The tolerance of [np.random.choice] on the sum of [p]:
    [sqrt(finfo(float64).eps)], that is 2^-26. *)
Definition atol : Q := (1 # 67108864)%Q.

Global Instance Qle_decision (x y : Q) : Decision (x <= y)%Q.
Proof. unfold Qle. apply _. Defined.

(** [s.endswith(suffix)] *)
Definition endswith (s suffix : string) : bool :=
  bool_decide (String.length suffix ≤ String.length s)%nat
  && String.eqb (substring (String.length s - String.length suffix)
                           (String.length suffix) s) suffix.

Definition lift {A} (o : outcome A) : M A := λ self, (o, self).

Section Loader.
(** The generator behind [np.random] and the files: outside the
    repository, and taken as they come. *)
Variable rng : Type.
Variable seed : Z → rng.                                      (* np.random.seed *)
Variable draw_choice : list cell → nat → option (list Q) → rng → list cell * rng.
Variable draw_randint : Z → Z → rng → Z * rng.               (* one value of [low, high) *)
Variable path_exists : string → bool.                         (* os.path.exists *)
Variable read_json : string → outcome DataFrame.              (* open, json.load, pd.DataFrame *)
Variable read_csv : string → outcome DataFrame.               (* pd.read_csv *)

(** [np.random.choice(a, size, p=p)]: numpy checks [p] before it draws,
    and refuses a [p] of another size than [a], a negative probability,
    and a sum further from 1 than [atol]. *)
Definition random_choice (a : list cell) (size : nat) (p : option (list Q)) (g : rng)
    : M (list cell * rng) :=
  match p with
  | None => mret (draw_choice a size p g)
  | Some probs =>
      if decide (length probs ≠ length a)
      then raise (ValueError "'a' and 'p' must have same size")
      else if decide (Exists (λ x, x < 0)%Q probs)
      then raise (ValueError "probabilities are not non-negative")
      else if decide (atol < Qabs (q_sum probs - 1))%Q
      then raise (ValueError "probabilities do not sum to 1")
      else mret (draw_choice a size p g)
  end.

(** [size] successive values of [np.random.randint(low, high)] *)
Fixpoint randints (low high : Z) (size : nat) (g : rng) : list Z * rng :=
  match size with
  | O => ([], g)
  | S size' =>
      let '(x, g) := draw_randint low high g in
      let '(xs, g) := randints low high size' g in
      (x :: xs, g)
  end.

(** [f'{a}.{b}.{c}.{d}'] *)
Definition dotted (parts : list string) : cell :=
  CStr (String.concat "." parts).

(** Lines 108-109: one address of the private network per record. *)
Fixpoint internal_ips (n : nat) (g : rng) : list cell * rng :=
  match n with
  | O => ([], g)
  | S n' =>
      let '(a, g) := draw_randint 1 255 g in
      let '(b, g) := draw_randint 1 255 g in
      let '(ips, g) := internal_ips n' g in
      (dotted ["192"; "168"; pretty a; pretty b] :: ips, g)
  end.

(** Lines 111-113: the first ten addresses are replaced by external ones. *)
Fixpoint external_ips (i count : nat) (client_ips : list cell) (g : rng)
    : list cell * rng :=
  match count with
  | O => (client_ips, g)
  | S count' =>
      let '(octets, g) := randints 1 255 4 g in
      external_ips (S i) count' (<[i := dotted (pretty <$> octets)]> client_ips) g
  end.

(** [pd.date_range('2016-08-28', periods=n, freq='30s')], each instant as
    its number of seconds since 1970-01-01. *)
Definition date_range (periods : nat) : list cell :=
  (λ i : nat, CInt (1472342400 + 30 * Z.of_nat i)) <$> seq 0 periods.

Definition _create_sample_dns_data : M unit :=
  let g := seed 42 in
  '(domains, g) ← random_choice (suspicious_domains ++ normal_domains) n_records
                    (Some domain_p) g;
  let '(client_ips, g) := internal_ips n_records g in
  let '(client_ips, g) := external_ips 0 10 client_ips g in
  '(query_type, g) ← random_choice (CStr <$> ["A"; "AAAA"; "MX"; "TXT"; "CNAME"; "ANY"])
                       n_records None g;
  '(response_code, g) ← random_choice (CInt <$> [0; 1; 2; 3; 5]%Z) n_records
                          (Some [9 # 10; 2 # 100; 2 # 100; 3 # 100; 3 # 100]%Q) g;
  let '(response_size, g) := randints 50 1500 n_records g in
  set_dns_df
    {| nrows := n_records;
       columns := {[ "timestamp" := date_range n_records;
                     "domain" := domains;
                     "client_ip" := client_ips;
                     "query_type" := query_type;
                     "response_code" := response_code;
                     "response_size" := CInt <$> response_size ]} |}.

Definition load_dns_data (dns_file_path : string) : M unit :=
  try_except
    (if negb (path_exists dns_file_path) then _create_sample_dns_data
     else if endswith dns_file_path ".json" then
       df ← lift (read_json dns_file_path); set_dns_df df
     else if endswith dns_file_path ".csv" then
       df ← lift (read_csv dns_file_path); set_dns_df df
     else _create_sample_dns_data)
    (λ e, _create_sample_dns_data).
End Loader.

(** ** Notions used to state the properties *)

(** The occurrences that are counted: a missing value has none. *)
Definition counted (w : cell) (col : list cell) : nat :=
  if isna w then 0 else occurrences w col.

Definition add_count (o : option nat) (k : nat) : option nat :=
  match o, k with
  | None, 0 => None
  | _, _ => Some (default 0 o + k)
  end.

(** The number of [True] of a mask. *)
Definition count_true (mask : list bool) : nat := length (filter (λ b, b = true) mask).

(** The stored batch once the analysis has run. *)
Definition dns_batch_after (df : DataFrame) (domain : list cell) : DataFrame :=
  set_column "domain_length" (str_len <$> domain)
    (set_column "tld" (CStr ∘ get_tld <$> domain) df).

(** The mapping that is returned. *)
Definition dns_findings (df : DataFrame) (domain : list cell) : gmap string nat :=
  let df' := dns_batch_after df domain in
  high_frequency_step df'
    (unusual_queries_step df'
       (<["Long Domain Names (>30 chars)" := count_true (gt_30 <$> (str_len <$> domain))]>
          (failed_responses_step (set_column "tld" (CStr ∘ get_tld <$> domain) df)
             (<["Unusual TLD Queries" :=
                  count_true (isin suspicious_tlds <$> (CStr ∘ get_tld <$> domain))]>
                (<["Rare Domain Queries" :=
                     length (where_count (λ n, bool_decide (n < 3)%nat) (value_counts domain))]>
                   ∅))))).

(** [sep in s] *)
Fixpoint contains (sep : Ascii.ascii) (s : string) : bool :=
  match s with
  | EmptyString => false
  | String c s' => if decide (c = sep) then true else contains sep s'
  end.

(** The mean and the standard deviation of a series of counts over the
    reals: the deviation divides the sum of the squared deviations by
    [n - ddof] (the population deviation for [ddof = 0], the sample
    deviation for [ddof = 1]). *)
Definition Rsum (xs : list nat) : R := foldr (λ x acc, INR x + acc)%R 0%R xs.

Definition Rmean (xs : list nat) : R := (Rsum xs / INR (length xs))%R.

Definition Rsum_sq_dev (m : R) (xs : list nat) : R :=
  foldr (λ x acc, (INR x - m) * (INR x - m) + acc)%R 0%R xs.

Definition Rvariance (ddof : nat) (xs : list nat) : R :=
  (Rsum_sq_dev (Rmean xs) xs / INR (length xs - ddof))%R.

Definition Rstd (ddof : nat) (xs : list nat) : R := sqrt (Rvariance ddof xs).

(** An address is flagged, for a deviation computed with [ddof]: its number
    of queries is above the mean plus twice the deviation of the numbers of
    queries of the distinct addresses (no deviation, and no address flagged,
    unless there are more than [ddof] of them). *)
Definition flagged_by (ddof : nat) (client_ip : list cell) (ip : cell) : Prop :=
  let ip_frequency := (value_counts client_ip).*2 in
  isna ip = false ∧ ip ∈ client_ip
  ∧ (ddof < length ip_frequency)%nat
  ∧ (Rmean ip_frequency + 2 * Rstd ddof ip_frequency < INR (occurrences ip client_ip))%R.

(** [n] is the number of the distinct addresses that are flagged. *)
Definition counts_flagged (ddof : nat) (client_ip : list cell) (n : nat) : Prop :=
  ∀ flagged : list cell,
    NoDup flagged → (∀ ip, ip ∈ flagged ↔ flagged_by ddof client_ip ip) →
    n = length flagged.

(** No two entries of the table give the same label. *)
Definition labels_distinct (float : bool) : bool :=
  forallb (λ e : Z * EventInfo,
     forallb (λ e' : Z * EventInfo,
        implb (String.eqb (event_name float (CInt e.1) e.2)
                          (event_name float (CInt e'.1) e'.2))
              (e.1 =? e'.1)%Z)
       catalog_entries)
    catalog_entries.

(** The risk distribution of a [value_counts], without the lookups. *)
Definition risk_levels_of (vc : list (cell * nat)) : RiskLevels :=
  foldl (λ rl p, match catalog_get p.1 with
                 | Some info => risk_add (risk_of info) p.2 rl
                 | None => rl
                 end) risk_levels_init vc.

(** The selected identifiers are those of the table. *)
Definition suspicious_codes (codes : list cell) : list cell :=
  filter (λ c, in_catalog c = true) codes.

(** ** Batches used as examples *)

Definition dns_batch (domain : list cell) : DataFrame :=
  {| nrows := length domain; columns := {[ "domain" := domain ]} |}.

Definition batch_without_domain : DataFrame :=
  {| nrows := 2;
     columns := {[ "response_code" := [CInt 3; CInt 0];
                   "query_type" := [CStr "TXT"; CStr "A"];
                   "client_ip" := [CStr "10.0.0.1"; CStr "10.0.0.2"] ]} |}.

(** Ten queries: four addresses with one query, one with two, one with four. *)
Definition skewed_ips : list cell :=
  CStr <$> ["10.0.0.1"; "10.0.0.2"; "10.0.0.3"; "10.0.0.4"; "10.0.0.5"; "10.0.0.5";
            "10.0.0.6"; "10.0.0.6"; "10.0.0.6"; "10.0.0.6"].

Definition skewed_batch : DataFrame :=
  {| nrows := 10;
     columns := {[ "domain" := replicate 10 (CStr "example.com");
                   "client_ip" := skewed_ips ]} |}.



Definition mixed_batch : DataFrame :=
  winevent_batch [CInt 4624; CInt 4625; CInt 4624; CInt 1; CInt 4634; CInt 7045]
                 [CStr "a"; CStr "b"; CStr "a"; CStr "c"; CStr "a"; CStr "b"].

Definition relabelled_batch : DataFrame :=
  {| nrows := 2;
     columns := {[ "domain" := [CStr "a.com"; CStr "b.xyz"];
                   "tld" := [CStr "zone"; CStr "zone"];
                   "response_size" := [CInt 120; CInt 64] ]} |}.

Definition header_only_batch : DataFrame :=
  {| nrows := 0; columns := {[ "domain" := [] ]} |}.

(** * The rest of the pipeline *)

(** A name of 40 characters, a missing name, and a name of 30 Cyrillic
    characters, which takes 56 bytes. *)
Definition named_batch : DataFrame :=
  dns_batch [CStr "a.com"; CNone; CStr "abcdefghijklmnopqrstuvwxyz0123456789.com";
             CStr "пример-длинного-домена-тест.рф"].

Definition coded_batch : DataFrame :=
  {| nrows := 4;
     columns := {[ "domain" := [CStr "a.com"; CStr "b.com"; CStr "c.com"; CStr "d.com"];
                   "response_code" := [CInt 0; CInt 3; CNaN; CInt 0] ]} |}.

Definition typed_batch : DataFrame :=
  {| nrows := 4;
     columns := {[ "domain" := [CStr "a.com"; CStr "b.com"; CStr "c.com"; CStr "d.com"];
                   "query_type" := [CStr "A"; CStr "TXT"; CStr "txt"; CStr "AXFR"] ]} |}.

Definition hostless_batch : DataFrame :=
  {| nrows := 2; columns := {[ "EventCode" := [CInt 4625; CInt 4624] ]} |}.

Global Instance risk_eq_dec : EqDecision risk.
Proof. solve_decision. Defined.

(** The risk of an identifier: that of its entry of the table. *)
Definition risk_of_cell (c : cell) : option risk := risk_of <$> catalog_get c.

(** [risk_levels[r]] *)
Definition tier (r : risk) (rl : RiskLevels) : nat :=
  match r with
  | High => high rl
  | Medium => medium rl
  | Low => low rl
  end.

(** The sum of the counts of the entries whose label passes a test. *)
Definition sum_where (P : cell → Prop) `{∀ c, Decision (P c)} (vc : list (cell * nat)) : nat :=
  sum_list (filter (λ p, P p.1) vc).*2.

(** ** [load_winevent_data], [visualize_results], [print_summary],
       [run_full_analysis] *)

Definition set_winevent_df (df : DataFrame) : M unit :=
  λ self, (Ok (), {| winevent_df := Some df; dns_df := dns_df self;
                     suspicious_events := suspicious_events self |}).

Definition get_suspicious_events : M (gmap string (gmap string nat)) :=
  λ self, (Ok (suspicious_events self), self).

(** [pd.DataFrame(records)] for a list of dictionaries: one row per
    dictionary, one column per key of any of them, NaN where a dictionary
    has not the key.  In a column of numbers pandas reads [None] as NaN; both
    are missing values for [isna], which is all the analyses look at. *)
Definition record_keys (records : list (gmap string cell)) : gset string :=
  ⋃ (dom <$> records).

Definition column_of (records : list (gmap string cell)) (key : string) : list cell :=
  (λ r : gmap string cell, default CNaN (r !! key)) <$> records.

Definition frame_of_records (records : list (gmap string cell)) : DataFrame :=
  {| nrows := length records;
     columns := set_to_map (λ key, (key, column_of records key)) (record_keys records) |}.

(** A row of [all_events] (line 326) and of [all_results] (line 454). *)
Record Finding := {
  Source : string;
  Event : string;
  Count : nat
}.

(** Descending order of the counts. *)
Definition count_ge (a b : Finding) : Prop := (Count b ≤ Count a)%nat.

Global Instance count_ge_dec : RelDecision count_ge.
Proof. intros a b. unfold count_ge. apply _. Defined.

Definition item_count_ge (p q : string * nat) : Prop := (q.2 ≤ p.2)%nat.

Global Instance item_count_ge_dec : RelDecision item_count_ge.
Proof. intros p q. unfold item_count_ge. apply _. Defined.

(** [df.nlargest(n, 'Count')]: the [n] first rows in descending order of
    the count.  The order of the rows of equal count follows, in Python,
    the insertion order of the dictionaries, which a [gmap] does not keep:
    the enumerations below are those of [map_to_list]. *)
Definition nlargest (n : nat) (rows : list Finding) : list Finding :=
  take n (merge_sort count_ge rows).

(** ['WinEventLog' if source == 'WinEvent' else 'DNS Logs'] *)
Definition source_label (source : string) : string :=
  if decide (source = "WinEvent") then "WinEventLog" else "DNS Logs".

(** Lines 322-330 *)
Definition all_events (found : gmap string (gmap string nat)) : list Finding :=
  p ← map_to_list found;
  (λ e : string * nat, {| Source := source_label p.1; Event := e.1; Count := e.2 |})
    <$> map_to_list p.2.

(** [sorted(events.items(), key=lambda x: x[1], reverse=True)] *)
Definition sorted_events (events : gmap string nat) : list (string * nat) :=
  merge_sort item_count_ge (map_to_list events).

Definition source_results (source : string) (events : gmap string nat) : list Finding :=
  (λ e : string * nat, {| Source := source; Event := e.1; Count := e.2 |})
    <$> sorted_events events.

(** Lines 442-461: the grand total and the rows of the report. *)
Definition summarize (found : gmap string (gmap string nat)) : nat * list Finding :=
  foldl (λ acc p, (acc.1 + dict_sum p.2, acc.2 ++ source_results p.1 p.2)%list)
        (0, []) (map_to_list found).

(** [hour_dist.sort_index()] and [hour_dist.nlargest(3)] on the counts of
    the hours. *)
Definition hour_key (c : cell) : Z :=
  match c with
  | CInt h => h
  | _ => 0%Z
  end.

Definition hour_le (p q : cell * nat) : Prop := (hour_key p.1 ≤ hour_key q.1)%Z.

Global Instance hour_le_dec : RelDecision hour_le.
Proof. intros p q. unfold hour_le. apply _. Defined.

Definition entry_count_ge (p q : cell * nat) : Prop := (q.2 ≤ p.2)%nat.

Global Instance entry_count_ge_dec : RelDecision entry_count_ge.
Proof. intros p q. unfold entry_count_ge. apply _. Defined.

Definition peak_hours (hour : list cell) : list (cell * nat) :=
  take 3 (merge_sort entry_count_ge (merge_sort hour_le (value_counts hour))).

(** [f"{hour:02d}"]: the format code [d] is for integers; an hour of a
    float64 column is a float. *)
Definition format_02d (float : bool) (hour : cell) : M string :=
  match hour with
  | CInt h =>
      if float then raise (ValueError "Unknown format code 'd' for object of type 'float'")
      else mret (if decide (String.length (pretty h) < 2)%nat
                 then "0" ++ pretty h else pretty h)
  | CStr _ => raise (ValueError "Unknown format code 'd' for object of type 'str'")
  | CNaN => raise (ValueError "Unknown format code 'd' for object of type 'float'")
  | CNone => raise (OtherError "unsupported format string passed to NoneType.__format__")
  end.

Section Pipeline.
(** What the pipeline calls outside the repository. *)
Variable rng : Type.
Variable seed : Z → rng.
Variable draw_choice : list cell → nat → option (list Q) → rng → list cell * rng.
Variable draw_randint : Z → Z → rng → Z * rng.
Variable path_exists : string → bool.
Variable read_json : string → outcome DataFrame.
Variable read_csv : string → outcome DataFrame.
(** [open] and [json.load]: a list of dictionaries whose values are
    dictionaries of cells. *)
Variable read_events : string → outcome (list (gmap string (gmap string cell))).
Variable to_numeric : list cell → outcome (list cell).   (* pd.to_numeric(col, errors='coerce') *)
Variable to_datetime : list cell → outcome (list cell).  (* pd.to_datetime(col, errors='coerce') *)
Variable hours_of : list cell → outcome (list cell).     (* pd.to_datetime(col).dt.hour *)
(** The figure (matplotlib) and the file [suspicious_events_summary.csv]. *)
Variable render : gmap string (gmap string nat) → list Finding → outcome unit.
Variable to_csv : list Finding → outcome unit.

(** [if name in self.winevent_df.columns:
       self.winevent_df[name] = convert(self.winevent_df[name])] *)
Definition convert_column (name : string) (convert : list cell → outcome (list cell))
    : M unit :=
  batch ← get_winevent_df;
  match batch with
  | Some df =>
      match columns df !! name with
      | Some col =>
          converted ← lift (convert col);
          set_winevent_df (set_column name converted df)
      | None => mret ()
      end
  | None => raise (OtherError "'NoneType' object has no attribute 'columns'")
  end.

Definition load_winevent_data (json_file_path : string) : M bool :=
  try_except
    (data ← lift (read_events json_file_path);
     let records := omap (λ item : gmap string (gmap string cell), item !! "result") data in
     set_winevent_df (frame_of_records records);;
     convert_column "EventCode" to_numeric;;
     convert_column "_time" to_datetime;;
     mret true)
    (λ e, mret false).

(** Returns nothing in the source: the model returns the ten rows that are
    printed and drawn. *)
Definition visualize_results : M (list Finding) :=
  found ← get_suspicious_events;
  match all_events found with
  | [] => mret []
  | rows =>
      let top10 := nlargest 10 rows in
      lift (render found top10);;
      mret top10
  end.

(** Lines 476-482 *)
Definition hour_statistics (df : DataFrame) : M unit :=
  match columns df !! "_time" with
  | Some times =>
      hours ← lift (hours_of times);
      let df := set_column "hour" hours df in
      set_winevent_df df;;
      hour ← getitem df "hour";
      foldM (λ _ p, format_02d (float_dtype hour) p.1;; mret ()) () (peak_hours hour)
  | None => mret ()
  end.

(** Returns nothing in the source: the model returns the total that is
    printed and the rows that are written. *)
Definition print_summary : M (nat * list Finding) :=
  found ← get_suspicious_events;
  let '(total_suspicious, all_results) := summarize found in
  match all_results with
  | [] => mret ()
  | _ => lift (to_csv all_results)
  end;;
  batch ← get_winevent_df;
  match batch with
  | Some df => if decide (0 < nrows df)%nat then hour_statistics df else mret ()
  | None => mret ()
  end;;
  mret (total_suspicious, all_results).

(** [dns_file=None] by default; [if dns_file:] is false for [None] and for
    the empty string. *)
Definition run_full_analysis (winevent_file : string) (dns_file : option string) : M unit :=
  loaded ← load_winevent_data winevent_file;
  (if loaded : bool then analyze_winevent_logs;; mret () else mret ());;
  match dns_file with
  | Some file =>
      if decide (file = "") then mret ()
      else
        load_dns_data rng seed draw_choice draw_randint path_exists read_json read_csv file;;
        analyze_dns_logs;;
        mret ()
  | None => mret ()
  end;;
  visualize_results;;
  print_summary;;
  mret ().

Definition main : outcome unit * Analyzer :=
  run_full_analysis "botsv1.json" None init.
End Pipeline.

(** The dictionaries under the key [result] (lines 33-36). *)
Definition results_of (data : list (gmap string (gmap string cell)))
    : list (gmap string cell) :=
  omap (λ item : gmap string (gmap string cell), item !! "result") data.

(** The analyzer with another WinEvent batch. *)
Definition with_winevent_df (df : DataFrame) (self : Analyzer) : Analyzer :=
  {| winevent_df := Some df; dns_df := dns_df self;
     suspicious_events := suspicious_events self |}.

Global Instance count_ge_total : Total count_ge.
Proof. intros a b. unfold count_ge. lia. Qed.

Global Instance count_ge_trans : Transitive count_ge.
Proof. intros a b c. unfold count_ge. lia. Qed.

Global Instance item_count_ge_total : Total item_count_ge.
Proof. intros a b. unfold item_count_ge. lia. Qed.

Global Instance item_count_ge_trans : Transitive item_count_ge.
Proof. intros a b c. unfold item_count_ge. lia. Qed.

(** The exception of [f"{hour:02d}"], if any. *)
Definition format_error (float : bool) (hour : cell) : option exn :=
  match hour with
  | CInt h =>
      if float then Some (ValueError "Unknown format code 'd' for object of type 'float'")
      else None
  | CStr _ => Some (ValueError "Unknown format code 'd' for object of type 'str'")
  | CNaN => Some (ValueError "Unknown format code 'd' for object of type 'float'")
  | CNone => Some (OtherError "unsupported format string passed to NoneType.__format__")
  end.

(** The exception of the loop that prints the peak hours: that of the first
    hour that cannot be formatted. *)
Definition hours_error (hour : list cell) : option exn :=
  head (omap (λ p : cell * nat, format_error (float_dtype hour) p.1) (peak_hours hour)).

(** A computation leaves a part of the state as it finds it. *)
Definition stable {A B} (part : Analyzer → B) (m : M A) : Prop :=
  ∀ self, part (m self).2 = part self.

(** The DNS side of the state: the batch and the findings stored under
    "DNS". *)
Definition dns_side (self : Analyzer) : option DataFrame * option (gmap string nat) :=
  (dns_df self, suspicious_events self !! "DNS").

(** ** Surroundings used as examples *)

Definition fixed_choice (pool : list cell) (size : nat) (p : option (list Q)) (g : unit)
    : list cell * unit :=
  (replicate size (default CNone (head pool)), g).

Definition lowest_randint (low high : Z) (g : unit) : Z * unit := (low, g).

Definition no_file : string → bool := λ _, false.

Definition unreadable {A} : string → outcome A :=
  λ _, Raise (OtherError "No such file or directory").

Definition as_it_is : list cell → outcome (list cell) := Ok.

Definition rejecting : list cell → outcome (list cell) :=
  λ _, Raise (OtherError "Invalid object type").

Definition drawn : gmap string (gmap string nat) → list Finding → outcome unit :=
  λ _ _, Ok ().

Definition saved : list Finding → outcome unit := λ _, Ok ().

Definition sample_events : list (gmap string (gmap string cell)) :=
  [ {[ "preview" := ∅;
       "result" := {[ "EventCode" := CStr "4625"; "ComputerName" := CStr "we8105desk" ]} ]};
    {[ "preview" := ∅ ]};
    {[ "result" := {[ "EventCode" := CStr "n/a"; "_time" := CStr "2016-08-24T11:37:10" ]} ]} ].

Definition hostless_events : list (gmap string (gmap string cell)) :=
  [ {[ "result" := {[ "EventCode" := CStr "4625" ]} ]};
    {[ "result" := {[ "EventCode" := CStr "4624"; "_time" := CStr "2016-08-24T11:37:10" ]} ]} ].

Definition timed_batch : DataFrame :=
  {| nrows := 2;
     columns := {[ "EventCode" := [CInt 4625; CInt 4624];
                   "_time" := [CStr "2016-08-24 09:12:00"; CNaN] ]} |}.

(** * Properties *)

(** Unfolding of the monad of the analyzer. *)
Create HintDb analyzer.
#[local] Hint Unfold mbind mret M_bind M_ret bind ret raise lift try_except getitem
  get_dns_df get_winevent_df set_dns_df set_suspicious : analyzer.

Ltac run :=
  repeat (autounfold with analyzer;
          cbn [fst snd winevent_df dns_df suspicious_events nrows columns set_column]).

#[local] Hint Unfold set_winevent_df get_suspicious_events : analyzer.

(** ** The model on small inputs *)

Example value_counts_ex :
  value_counts [CStr "a"; CNaN; CStr "b"; CStr "a"; CInt 7] =
  [(CStr "a", 2); (CStr "b", 1); (CInt 7, 1)].
Proof. reflexivity. Qed.

Example str_ex : str (CInt (-42)) = "-42" ∧ str (CInt 4625) = "4625".
Proof. split; vm_compute; reflexivity. Qed.

Example analyze_winevent_ex :
  (analyze_winevent_logs
     (with_winevent (winevent_batch [CInt 4624; CNaN; CInt 4634; CInt 4624]
                                    [CStr "a"; CStr "b"; CStr "a"; CStr "c"]))).1
  = Ok {[ "[4624.0] Successful Logon" := 2; "[4634.0] Logoff" := 1 ]}.
Proof. vm_compute. reflexivity. Qed.

Example get_tld_ex :
  get_tld (CStr "mail.evil.xyz") = ".xyz" ∧ get_tld (CStr "a") = "" ∧
  get_tld (CStr "a.") = "." ∧ get_tld CNaN = "" ∧ get_tld (CInt 12) = "".
Proof. repeat split; vm_compute; reflexivity. Qed.

Example analyze_dns_ex :
  (analyze_dns_logs
     (with_dns {| nrows := 4;
                  columns := {[ "domain" := [CStr "x.xyz"; CStr "x.xyz"; CStr "a.com"; CStr "b.com"];
                                "client_ip" := [CStr "1"; CStr "1"; CStr "2"; CStr "1"] ]} |})).1
  = Ok {[ "Rare Domain Queries" := 3; "Unusual TLD Queries" := 2;
          "Long Domain Names (>30 chars)" := 0; "High Query Frequency IPs" := 0 ]}.
Proof. vm_compute. reflexivity. Qed.

Example len_ex :
  len "example.com" = 11 ∧ len "пример-длинного-домена-тест.рф" = 30 ∧
  String.length "пример-длинного-домена-тест.рф" = 56 ∧ len "日本語.jp" = 6.
Proof. repeat split; reflexivity. Qed.

Example endswith_ex :
  endswith "dns.json" ".json" = true ∧ endswith "dns.csv" ".json" = false ∧
  endswith "n" ".json" = false.
Proof. repeat split; reflexivity. Qed.

(** ** The fallback of the DNS loader *)

Lemma domain_p_sum : (q_sum domain_p == 106 # 100)%Q.
Proof. vm_compute. reflexivity. Qed.

Lemma domain_p_suspicious_share :
  (q_sum (take (length suspicious_domains) domain_p) == 36 # 100)%Q.
Proof. vm_compute. reflexivity. Qed.

Section LoaderFacts.
Variable rng : Type.
Variable seed : Z → rng.
Variable draw_choice : list cell → nat → option (list Q) → rng → list cell * rng.
Variable draw_randint : Z → Z → rng → Z * rng.

Lemma random_choice_domains_raises (g : rng) (self : Analyzer) :
  random_choice rng draw_choice (suspicious_domains ++ normal_domains) n_records
    (Some domain_p) g self
  = (Raise (ValueError "probabilities do not sum to 1"), self).
Proof.
  unfold random_choice.
  destruct (decide (length domain_p ≠ length (suspicious_domains ++ normal_domains)))
    as [Hne|_]; [exfalso; apply Hne; reflexivity|].
  destruct (decide (Exists (λ x : Q, (x < 0)%Q) domain_p)) as [Hneg|_].
  { exfalso. revert Hneg. apply Forall_Exists_neg.
    vm_compute. repeat constructor; discriminate. }
  destruct (decide (atol < Qabs (q_sum domain_p - 1))%Q) as [_|Hsum]; [reflexivity|].
  exfalso. apply Hsum. vm_compute. reflexivity.
Qed.

Lemma create_sample_raises (self : Analyzer) :
  _create_sample_dns_data rng seed draw_choice draw_randint self
  = (Raise (ValueError "probabilities do not sum to 1"), self).
Proof.
  unfold _create_sample_dns_data. run.
  rewrite random_choice_domains_raises. reflexivity.
Qed.
End LoaderFacts.

(** C2. On every failure of the load (no file, an extension that is not
    supported, an exception of the reader) [load_dns_data] calls the
    synthetic generator; the generator does not produce a batch: the
    probabilities it passes to [np.random.choice] add up to 1.06 (0.36 for
    the twelve suspicious domains, 0.70 for the eight normal ones), numpy
    refuses them, and the [ValueError] leaves [load_dns_data] since the
    handler calls the generator again. *)
Theorem load_dns_data_fallback_raises :
  ∀ (rng : Type) (seed : Z → rng)
    (draw_choice : list cell → nat → option (list Q) → rng → list cell * rng)
    (draw_randint : Z → Z → rng → Z * rng)
    (read_json read_csv : string → outcome DataFrame) (self : Analyzer),
    let refused := (Raise (ValueError "probabilities do not sum to 1"), self) in
    ¬ (q_sum domain_p == 1)%Q
    ∧ (q_sum (take (length suspicious_domains) domain_p) == 36 # 100)%Q
    ∧ _create_sample_dns_data rng seed draw_choice draw_randint self = refused
    ∧ load_dns_data rng seed draw_choice draw_randint
        (λ _, false) read_json read_csv "dns.json" self = refused
    ∧ load_dns_data rng seed draw_choice draw_randint
        (λ _, true) read_json read_csv "dns.txt" self = refused
    ∧ load_dns_data rng seed draw_choice draw_randint
        (λ _, true) (λ _, Raise (OtherError "Expecting value")) read_csv "dns.json" self
      = refused.
Proof.
  intros. subst refused.
  split; [rewrite domain_p_sum; discriminate|].
  split; [apply domain_p_suspicious_share|].
  split; [apply create_sample_raises|].
  repeat split; unfold load_dns_data; run;
    cbn [negb endswith]; rewrite ?create_sample_raises; reflexivity.
Qed.

(** ** A batch without the column [domain] *)

Lemma analyze_dns_logs_raises (self : Analyzer) (df : DataFrame) :
  dns_df self = Some df →
  nrows df ≠ 0 →
  columns df !! "domain" = None →
  analyze_dns_logs self = (Raise (KeyError "domain"), self).
Proof.
  intros Hdf Hn Hdom. unfold analyze_dns_logs. run. rewrite Hdf.
  destruct (decide (nrows df = 0)) as [|_]; [done|].
  run. rewrite Hdom. reflexivity.
Qed.

(** C1. On a batch that is not empty and has no column [domain],
    [analyze_dns_logs] raises [KeyError] at its first statement
    ([self.dns_df['domain']], line 237): none of the counts of the columns
    that are there is produced, and nothing is stored. *)
Theorem analyze_dns_logs_without_domain (self : Analyzer) (df : DataFrame) :
  dns_df self = Some df →
  nrows df ≠ 0 →
  columns df !! "domain" = None →
  (analyze_dns_logs self).1 = Raise (KeyError "domain")
  ∧ (analyze_dns_logs self).2 = self
  ∧ ∀ found, (analyze_dns_logs self).1 ≠ Ok found.
Proof.
  intros Hdf Hn Hdom. rewrite (analyze_dns_logs_raises self df) by done.
  repeat split. discriminate.
Qed.

Lemma analyze_dns_logs_without_domain_witness :
  (analyze_dns_logs (with_dns batch_without_domain)).1 = Raise (KeyError "domain")
  ∧ (analyze_dns_logs (with_dns batch_without_domain)).2 = with_dns batch_without_domain
  ∧ ∀ found, (analyze_dns_logs (with_dns batch_without_domain)).1 ≠ Ok found.
Proof.
  apply (analyze_dns_logs_without_domain (with_dns batch_without_domain)
           batch_without_domain).
  - reflexivity.
  - discriminate.
  - reflexivity.
Defined.

(** ** [value_counts] counts the occurrences of each distinct value *)

Section ValueCounts.
Implicit Types (v w : cell) (acc vc : list (cell * nat)) (col : list cell).

Lemma bump_keys v acc w : w ∈ (bump v acc).*1 ↔ w = v ∨ w ∈ acc.*1.
Proof.
  induction acc as [|[u n] acc IH]; simpl.
  - rewrite list_elem_of_singleton, elem_of_nil. tauto.
  - destruct (decide (v = u)) as [->|Hne]; simpl; rewrite !elem_of_cons.
    + tauto.
    + rewrite IH. tauto.
Qed.

Lemma bump_NoDup v acc : NoDup acc.*1 → NoDup (bump v acc).*1.
Proof.
  induction acc as [|[u n] acc IH]; simpl; intros Hnd.
  - apply NoDup_singleton.
  - apply NoDup_cons in Hnd as [Hu Hnd].
    destruct (decide (v = u)) as [->|Hne]; simpl; apply NoDup_cons.
    + done.
    + split; [|auto]. rewrite bump_keys. intros [->|?]; done.
Qed.

Lemma count_of_bump v acc w :
  count_of w (bump v acc)
  = if decide (w = v) then Some (S (default 0 (count_of v acc))) else count_of w acc.
Proof.
  induction acc as [|[u n] acc IH]; simpl.
  - repeat case_decide; done.
  - destruct (decide (v = u)) as [->|Hne]; simpl.
    + repeat case_decide; congruence.
    + rewrite IH. repeat case_decide; congruence.
Qed.

Lemma count_of_elem vc w n :
  NoDup vc.*1 → (w, n) ∈ vc ↔ count_of w vc = Some n.
Proof.
  induction vc as [|[u k] vc IH]; simpl; intros Hnd.
  - rewrite elem_of_nil. split; [tauto | discriminate].
  - apply NoDup_cons in Hnd as [Hu Hnd]. rewrite elem_of_cons, (IH Hnd).
    case_decide as Hw.
    + subst u. split.
      * intros [Heq|Hin]; [congruence|].
        exfalso. apply Hu. apply (IH Hnd) in Hin.
        apply (list_elem_of_fmap_2 fst) in Hin. done.
      * intros [= ->]. by left.
    + split; [intros [|]; [congruence | done] | by right].
Qed.

Lemma sum_bump v acc : sum_list (bump v acc).*2 = S (sum_list acc.*2).
Proof.
  induction acc as [|[u n] acc IH]; [done|].
  cbn [bump]. case_decide; rewrite !fmap_cons; cbn [sum_list_with snd].
  - done.
  - rewrite IH. unfold id. lia.
Qed.

Lemma counted_cons w v col :
  counted w (v :: col)
  = if decide (w = v) then (if isna v then 0 else S (counted w col)) else counted w col.
Proof.
  unfold counted, occurrences. rewrite filter_cons.
  repeat case_decide; subst; simpl; try congruence; destruct (isna _); done.
Qed.

Lemma foldl_count_step_NoDup col acc :
  NoDup acc.*1 → NoDup (foldl count_step acc col).*1.
Proof.
  revert acc. induction col as [|v col IH]; intros acc Hnd; simpl; [done|].
  apply IH. unfold count_step. destruct (isna v); [done|]. by apply bump_NoDup.
Qed.

Lemma foldl_count_step_count col acc w :
  count_of w (foldl count_step acc col) = add_count (count_of w acc) (counted w col).
Proof.
  revert acc. induction col as [|v col IH]; intros acc; simpl.
  - unfold counted, occurrences. simpl.
    destruct (isna w), (count_of w acc); simpl; f_equal; lia.
  - rewrite IH, counted_cons. unfold count_step.
    destruct (isna v) eqn:Hv.
    + case_decide; [|done]. subst v. unfold counted. by rewrite Hv.
    + rewrite count_of_bump. case_decide; [|done]. subst v.
      destruct (count_of w acc), (counted w col); simpl; f_equal; lia.
Qed.

Lemma foldl_count_step_sum col acc :
  sum_list (foldl count_step acc col).*2
  = sum_list acc.*2 + length (filter (λ c, isna c = false) col).
Proof.
  revert acc. induction col as [|v col IH]; intros acc; simpl; [lia|].
  rewrite IH, filter_cons. unfold count_step.
  destruct (isna v); case_decide; try done.
  rewrite sum_bump. simpl. lia.
Qed.

Lemma value_counts_NoDup col : NoDup (value_counts col).*1.
Proof. apply foldl_count_step_NoDup. constructor. Qed.

Lemma count_of_value_counts col w :
  count_of w (value_counts col)
  = match counted w col with 0 => None | k => Some k end.
Proof. unfold value_counts. rewrite foldl_count_step_count. simpl. by destruct (counted w col). Qed.

Lemma occurrences_pos w col : 0 < occurrences w col ↔ w ∈ col.
Proof.
  unfold occurrences. induction col as [|v col IH]; simpl.
  - rewrite elem_of_nil. split; [lia | tauto].
  - rewrite filter_cons, elem_of_cons. case_decide; simpl.
    + split; [by left | lia].
    + rewrite IH. split; [by right | intros [|]; congruence].
Qed.

Lemma occurrences_NoDup w col : NoDup col → w ∈ col → occurrences w col = 1.
Proof.
  induction col as [|v col IH]; intros Hnd Hin; [by apply elem_of_nil in Hin|].
  apply NoDup_cons in Hnd as [Hv Hnd].
  unfold occurrences in *. rewrite filter_cons. case_decide as Heq.
  - subst v. simpl. f_equal.
    destruct (length (filter (λ c, c = w) col)) eqn:Hlen; [done|].
    exfalso. apply Hv, occurrences_pos. unfold occurrences. lia.
  - apply IH; [done|]. apply elem_of_cons in Hin as [|]; congruence.
Qed.

(** An entry of [value_counts] is a value of the column that is not
    missing, with the number of its occurrences. *)
Lemma elem_of_value_counts col w n :
  (w, n) ∈ value_counts col ↔ isna w = false ∧ w ∈ col ∧ n = occurrences w col.
Proof.
  rewrite (count_of_elem _ _ _ (value_counts_NoDup col)), count_of_value_counts.
  rewrite <- occurrences_pos. unfold counted.
  destruct (isna w); [split; [discriminate | intros [? _]; discriminate]|].
  destruct (occurrences w col) as [|k]; split.
  - discriminate.
  - intros (_ & ? & _). lia.
  - intros [= <-]. split; [done|]. split; [lia | done].
  - intros (_ & _ & ->). done.
Qed.

Lemma value_counts_sum col :
  sum_list (value_counts col).*2 = length (filter (λ c, isna c = false) col).
Proof. unfold value_counts. by rewrite foldl_count_step_sum. Qed.

(** The number of entries that pass a test on the count is the number of
    distinct values whose number of occurrences passes it. *)
Lemma where_count_length (test : nat → bool) col (distinct : list cell) :
  NoDup distinct →
  (∀ v, v ∈ distinct ↔ isna v = false ∧ v ∈ col ∧ test (occurrences v col) = true) →
  length (where_count test (value_counts col)) = length distinct.
Proof.
  intros Hnd Hchar. rewrite <- (length_fmap fst).
  apply Permutation_length, NoDup_Permutation; [|done|].
  - apply (sublist_NoDup _ _ (value_counts_NoDup col)).
    apply fmap_sublist. unfold where_count. apply sublist_filter.
  - intros v. rewrite Hchar, list_elem_of_fmap. unfold where_count. split.
    + intros ([w n] & -> & Hin). apply list_elem_of_filter in Hin as [Ht Hin].
      apply elem_of_value_counts in Hin as (? & ? & ->). done.
    + intros (Hna & Hin & Ht). exists (v, occurrences v col). split; [done|].
      apply list_elem_of_filter. split; [done|].
      apply elem_of_value_counts. done.
Qed.
End ValueCounts.

(** ** What [analyze_dns_logs] does on a batch with the column [domain] *)

Lemma analyze_dns_logs_run (self : Analyzer) (df : DataFrame) (domain : list cell) :
  dns_df self = Some df →
  nrows df ≠ 0 →
  columns df !! "domain" = Some domain →
  analyze_dns_logs self
  = (Ok (dns_findings df domain),
     {| winevent_df := winevent_df self;
        dns_df := Some (dns_batch_after df domain);
        suspicious_events := <["DNS" := dns_findings df domain]> (suspicious_events self) |}).
Proof.
  intros Hdf Hn Hdom. unfold analyze_dns_logs. run. rewrite Hdf.
  destruct (decide (nrows df = 0)) as [|_]; [done|].
  run. rewrite Hdom. run. rewrite lookup_insert_eq. run.
  unfold long_domains_step. run.
  rewrite lookup_insert_ne by done. rewrite Hdom. run.
  rewrite lookup_insert_eq. run. reflexivity.
Qed.

Lemma columns_after (df : DataFrame) (domain : list cell) (name : string) :
  name ≠ "tld" → name ≠ "domain_length" →
  columns (dns_batch_after df domain) !! name = columns df !! name.
Proof.
  intros H1 H2. unfold dns_batch_after, set_column. simpl.
  rewrite !lookup_insert_ne by done. done.
Qed.

Lemma failed_responses_step_other df m (label : string) :
  label ≠ "Failed DNS Responses" → failed_responses_step df m !! label = m !! label.
Proof.
  intros. unfold failed_responses_step.
  destruct (columns df !! "response_code"); [|done]. by rewrite lookup_insert_ne.
Qed.

Lemma unusual_queries_step_other df m (label : string) :
  label ≠ "Unusual Query Types" → unusual_queries_step df m !! label = m !! label.
Proof.
  intros. unfold unusual_queries_step.
  destruct (columns df !! "query_type"); [|done]. by rewrite lookup_insert_ne.
Qed.

Lemma high_frequency_step_other df m (label : string) :
  label ≠ "High Query Frequency IPs" → high_frequency_step df m !! label = m !! label.
Proof.
  intros. unfold high_frequency_step.
  destruct (columns df !! "client_ip"); [|done]. by rewrite lookup_insert_ne.
Qed.

Lemma dns_findings_rare df domain :
  dns_findings df domain !! "Rare Domain Queries"
  = Some (length (where_count (λ n, bool_decide (n < 3)%nat) (value_counts domain))).
Proof.
  unfold dns_findings.
  rewrite high_frequency_step_other, unusual_queries_step_other by done.
  rewrite lookup_insert_ne by done.
  rewrite failed_responses_step_other by done.
  rewrite lookup_insert_ne by done. apply lookup_insert_eq.
Qed.

Lemma dns_findings_tld df domain :
  dns_findings df domain !! "Unusual TLD Queries"
  = Some (count_true (isin suspicious_tlds <$> (CStr ∘ get_tld <$> domain))).
Proof.
  unfold dns_findings.
  rewrite high_frequency_step_other, unusual_queries_step_other by done.
  rewrite lookup_insert_ne by done.
  rewrite failed_responses_step_other by done.
  apply lookup_insert_eq.
Qed.

Lemma dns_findings_high_frequency df domain client_ip :
  columns df !! "client_ip" = Some client_ip →
  dns_findings df domain !! "High Query Frequency IPs"
  = Some (length (high_frequency_ips 1 client_ip)).
Proof.
  intros Hip. unfold dns_findings, high_frequency_step.
  rewrite columns_after, Hip by done. apply lookup_insert_eq.
Qed.

(** The guarded heuristics (3, 5 and 6) are skipped when their column is
    not in the batch: the mapping has no entry for them. *)
Lemma dns_findings_skips_absent (df : DataFrame) (domain : list cell) :
  (columns df !! "response_code" = None →
   dns_findings df domain !! "Failed DNS Responses" = None)
  ∧ (columns df !! "query_type" = None →
     dns_findings df domain !! "Unusual Query Types" = None)
  ∧ (columns df !! "client_ip" = None →
     dns_findings df domain !! "High Query Frequency IPs" = None).
Proof.
  unfold dns_findings. repeat split; intros Hcol.
  - rewrite high_frequency_step_other, unusual_queries_step_other by done.
    rewrite lookup_insert_ne by done. unfold failed_responses_step, set_column.
    cbn [columns]. rewrite lookup_insert_ne, Hcol by done.
    by rewrite !lookup_insert_ne.
  - rewrite high_frequency_step_other by done.
    unfold unusual_queries_step. rewrite columns_after, Hcol by done.
    rewrite lookup_insert_ne, failed_responses_step_other by done.
    by rewrite !lookup_insert_ne.
  - unfold high_frequency_step. rewrite columns_after, Hcol by done.
    rewrite unusual_queries_step_other, lookup_insert_ne by done.
    rewrite failed_responses_step_other by done.
    by rewrite !lookup_insert_ne.
Qed.

(** ** Rare domains *)

(** C4. On a batch with the column [domain], the count of "Rare Domain
    Queries" is the number of distinct values of the column (a missing value
    is not one) that occur less than 3 times in it: for every enumeration
    without repetition of these values, the count is its length; a domain
    that occurs twice is in it once. *)
Theorem rare_domain_queries_counts_distinct
    (self : Analyzer) (df : DataFrame) (domain rare : list cell) :
  dns_df self = Some df →
  nrows df ≠ 0 →
  columns df !! "domain" = Some domain →
  NoDup rare →
  (∀ d, d ∈ rare ↔ isna d = false ∧ d ∈ domain ∧ occurrences d domain < 3) →
  ∃ found,
    (analyze_dns_logs self).1 = Ok found
    ∧ found !! "Rare Domain Queries" = Some (length rare)
    ∧ ∀ d, isna d = false → occurrences d domain = 2 → occurrences d rare = 1.
Proof.
  intros Hdf Hn Hdom Hnd Hrare. exists (dns_findings df domain).
  rewrite (analyze_dns_logs_run self df domain) by done.
  split; [done|]. split.
  - rewrite dns_findings_rare. f_equal. apply where_count_length; [done|].
    intros d. rewrite Hrare, bool_decide_eq_true. done.
  - intros d Hna Hocc.
    assert (d ∈ rare) as Hin.
    { apply Hrare. split; [done|]. split; [apply occurrences_pos|]; lia. }
    by apply occurrences_NoDup.
Qed.

Lemma rare_domain_queries_counts_distinct_witness :
  ∃ found,
    (analyze_dns_logs
       (with_dns (dns_batch [CStr "x.xyz"; CStr "x.xyz"; CStr "a.com"; CNaN;
                             CStr "b.org"; CStr "b.org"; CStr "b.org"]))).1 = Ok found
    ∧ found !! "Rare Domain Queries" = Some 2
    ∧ ∀ d, isna d = false →
           occurrences d [CStr "x.xyz"; CStr "x.xyz"; CStr "a.com"; CNaN;
                          CStr "b.org"; CStr "b.org"; CStr "b.org"] = 2 →
           occurrences d [CStr "x.xyz"; CStr "a.com"] = 1.
Proof.
  apply (rare_domain_queries_counts_distinct
           (with_dns (dns_batch [CStr "x.xyz"; CStr "x.xyz"; CStr "a.com"; CNaN;
                                 CStr "b.org"; CStr "b.org"; CStr "b.org"]))
           (dns_batch [CStr "x.xyz"; CStr "x.xyz"; CStr "a.com"; CNaN;
                       CStr "b.org"; CStr "b.org"; CStr "b.org"])
           [CStr "x.xyz"; CStr "x.xyz"; CStr "a.com"; CNaN;
            CStr "b.org"; CStr "b.org"; CStr "b.org"]
           [CStr "x.xyz"; CStr "a.com"]).
  - reflexivity.
  - discriminate.
  - reflexivity.
  - apply NoDup_cons. split; [|apply NoDup_singleton].
    rewrite list_elem_of_singleton. discriminate.
  - intros d. rewrite !elem_of_cons, elem_of_nil. split.
    + intros [->|[->|[]]]; (split; [reflexivity|]); (split; [|vm_compute; lia]);
        tauto.
    + intros (Hna & Hin & Hocc).
      destruct Hin as [->|[->|[->|[->|[->|[->|[->|[]]]]]]]];
        try tauto; try discriminate; vm_compute in Hocc; lia.
Defined.

(** ** Top-level domains *)

Lemma split_without_sep sep s : contains sep s = false → split sep s = [s].
Proof.
  induction s as [|c s IH]; simpl; [done|].
  case_decide; [done|]. intros Hs. by rewrite IH.
Qed.

Lemma split_last_part sep (before after : string) :
  contains sep after = false →
  last (split sep (before ++ String sep after)) = Some after
  ∧ (1 < length (split sep (before ++ String sep after)))%nat.
Proof.
  intros Hafter. induction before as [|c before [IHlast IHlen]].
  - change ("" +:+ String sep after) with (String sep after). cbn [split].
    rewrite decide_True by done. rewrite split_without_sep by done. simpl. split; [done | lia].
  - change (String c before +:+ String sep after)
      with (String c (before +:+ String sep after)).
    cbn [split]. case_decide.
    + destruct (split sep (before ++ String sep after)) as [|part parts] eqn:Hsplit;
        [simpl in IHlen; lia|].
      split; [done | simpl; lia].
    + destruct (split sep (before ++ String sep after)) as [|part [|part' parts]] eqn:Hsplit;
        simpl in IHlen; try lia.
      split; [done | simpl; lia].
Qed.

Lemma count_true_fmap {A} (test : A → bool) (l : list A) :
  count_true (test <$> l) = length (filter (λ x, test x = true) l).
Proof.
  unfold count_true. induction l as [|x l IH]; [done|].
  rewrite fmap_cons, !filter_cons.
  destruct (test x); repeat case_decide; try done. simpl. by rewrite IH.
Qed.

Lemma get_tld_without_dot (d : cell) : contains "." (str d) = false → get_tld d = "".
Proof.
  intros Hdot. unfold get_tld. destruct (isna d); [done|].
  rewrite split_without_sep by done. done.
Qed.

Lemma get_tld_last_label (d : cell) (before label : string) :
  isna d = false →
  str d = before ++ String "." label →
  contains "." label = false →
  get_tld d = String "." label.
Proof.
  intros Hna Hstr Hlabel. unfold get_tld. rewrite Hna, Hstr.
  destruct (split_last_part "." before label Hlabel) as [Hlast Hlen].
  rewrite decide_True by done. by rewrite Hlast.
Qed.

(** C7. The TLD of a record is empty when its domain is missing or has no
    dot, and is otherwise the dot followed by the label after the last dot
    (the form in which the suspicious set is written); the empty TLD is not
    in the set [.xyz .top .work .date .win .bid .trade .cc .info], and the
    count of "Unusual TLD Queries" is the number of records whose TLD is in
    the set. *)
Theorem unusual_tld_queries_counts_records
    (self : Analyzer) (df : DataFrame) (domain : list cell) :
  dns_df self = Some df →
  nrows df ≠ 0 →
  columns df !! "domain" = Some domain →
  (∀ d, isna d = true → get_tld d = "")
  ∧ (∀ d, contains "." (str d) = false → get_tld d = "")
  ∧ (∀ d before label,
       isna d = false → str d = before ++ String "." label →
       contains "." label = false → get_tld d = String "." label)
  ∧ suspicious_tlds
    = [".xyz"; ".top"; ".work"; ".date"; ".win"; ".bid"; ".trade"; ".cc"; ".info"]
  ∧ ("" ∉ suspicious_tlds)
  ∧ ∃ found,
      (analyze_dns_logs self).1 = Ok found
      ∧ found !! "Unusual TLD Queries"
        = Some (length (filter (λ d, get_tld d ∈ suspicious_tlds) domain)).
Proof.
  intros Hdf Hn Hdom.
  split; [intros d Hna; unfold get_tld; by rewrite Hna|].
  split; [apply get_tld_without_dot|].
  split; [apply get_tld_last_label|].
  split; [reflexivity|].
  split.
  { unfold suspicious_tlds. rewrite !elem_of_cons, elem_of_nil.
    intros Hin. repeat destruct Hin as [Hin|Hin]; done. }
  exists (dns_findings df domain).
  rewrite (analyze_dns_logs_run self df domain) by done.
  split; [done|]. rewrite dns_findings_tld. f_equal.
  rewrite <- list_fmap_compose, count_true_fmap.
  f_equal. apply list_filter_iff. intros d. simpl.
  by rewrite bool_decide_eq_true.
Qed.

Lemma unusual_tld_queries_counts_records_witness :
  ∃ found,
    (analyze_dns_logs
       (with_dns (dns_batch [CStr "x.xyz"; CStr "a"; CNone; CStr "mail.x.xyz"; CStr "b.com"]))).1
    = Ok found
    ∧ found !! "Unusual TLD Queries" = Some 2.
Proof.
  destruct (unusual_tld_queries_counts_records
              (with_dns (dns_batch [CStr "x.xyz"; CStr "a"; CNone; CStr "mail.x.xyz";
                                    CStr "b.com"]))
              (dns_batch [CStr "x.xyz"; CStr "a"; CNone; CStr "mail.x.xyz"; CStr "b.com"])
              [CStr "x.xyz"; CStr "a"; CNone; CStr "mail.x.xyz"; CStr "b.com"])
    as (_ & _ & _ & _ & _ & found & Hrun & Hcount).
  - reflexivity.
  - discriminate.
  - reflexivity.
  - exists found. split; [exact Hrun | exact Hcount].
Defined.

(** ** The threshold on the frequency of the client addresses *)

Section Reals.
Open Scope R_scope.

Lemma Q2R_of_nat (n : nat) : Q2R (inject_Z (Z.of_nat n)) = INR n.
Proof. unfold Q2R, inject_Z. simpl. rewrite INR_IZR_INZ. lra. Qed.

Lemma Q2R_series_sum xs : Q2R (series_sum xs) = Rsum xs.
Proof.
  induction xs as [|x xs IH]; simpl; [unfold Q2R; simpl; lra|].
  by rewrite Q2R_plus, Q2R_of_nat, IH.
Qed.

Lemma Q2R_sum_sq_dev m xs : Q2R (sum_sq_dev m xs) = Rsum_sq_dev (Q2R m) xs.
Proof.
  induction xs as [|x xs IH]; simpl; [unfold Q2R; simpl; lra|].
  by rewrite Q2R_plus, Q2R_mult, Q2R_minus, Q2R_of_nat, IH.
Qed.

Lemma inject_nat_nonzero (n : nat) : (0 < n)%nat → ¬ (inject_Z (Z.of_nat n) == 0)%Q.
Proof. unfold Qeq. simpl. lia. Qed.

Lemma series_mean_real xs m : series_mean xs = Some m → Q2R m = Rmean xs.
Proof.
  intros Hm.
  assert (xs ≠ [] ∧ m = (series_sum xs / inject_Z (Z.of_nat (length xs)))%Q) as [Hne ->].
  { destruct xs; [done|]. by injection Hm as <-. }
  unfold Rmean.
  rewrite Q2R_div by (apply inject_nat_nonzero; destruct xs; simpl; [done | lia]).
  by rewrite Q2R_series_sum, Q2R_of_nat.
Qed.

Lemma series_var_real ddof xs v :
  series_var ddof xs = Some v → Q2R v = Rvariance ddof xs ∧ (ddof < length xs)%nat.
Proof.
  unfold series_var. destruct (series_mean xs) as [m|] eqn:Hm; [|done].
  case_decide; [done|]. intros [= <-]. split; [|lia]. unfold Rvariance.
  rewrite Q2R_div by (apply inject_nat_nonzero; lia).
  by rewrite Q2R_sum_sq_dev, Q2R_of_nat, (series_mean_real _ _ Hm).
Qed.

Lemma Rsum_sq_dev_nonneg m xs : 0 <= Rsum_sq_dev m xs.
Proof.
  induction xs as [|x xs IH]; simpl; [lra|].
  pose proof (Rle_0_sqr (INR x - m)) as Hsq. unfold Rsqr in Hsq. lra.
Qed.

Lemma Rvariance_nonneg ddof xs : (ddof < length xs)%nat → 0 <= Rvariance ddof xs.
Proof.
  intros Hlt. unfold Rvariance. apply Rmult_le_pos; [apply Rsum_sq_dev_nonneg|].
  apply Rlt_le, Rinv_0_lt_compat, lt_0_INR. lia.
Qed.

(** The rational test decides the comparison with [m + 2 * sqrt v]. *)
Lemma gt_mean_plus_2sqrt (x m v : R) :
  0 <= v → (0 < x - m ∧ 4 * v < (x - m) * (x - m)) ↔ m + 2 * sqrt v < x.
Proof.
  intros Hv. pose proof (sqrt_pos v) as Hs. pose proof (sqrt_sqrt v Hv) as Hss.
  split.
  - intros [Hd Hsq]. destruct (Rlt_le_dec (m + 2 * sqrt v) x) as [|Hle]; [done|]. nra.
  - intros Hlt. split; nra.
Qed.

Lemma gt_threshold_real (ddof : nat) (xs : list nat) (x : nat) :
  gt_threshold x (mean_plus_2std ddof xs) = true
  ↔ (ddof < length xs)%nat ∧ Rmean xs + 2 * Rstd ddof xs < INR x.
Proof.
  unfold mean_plus_2std, Rstd.
  destruct (series_mean xs) as [m|] eqn:Hm.
  - destruct (series_var ddof xs) as [v|] eqn:Hv.
    + destruct (series_var_real _ _ _ Hv) as [Hvr Hlen].
      pose proof (series_mean_real _ _ Hm) as Hmr.
      unfold gt_threshold. cbn [th_mean th_var].
      rewrite andb_true_iff, !bool_decide_eq_true.
      rewrite <- Hvr, <- Hmr, <- gt_mean_plus_2sqrt
        by (rewrite Hvr; by apply Rvariance_nonneg).
      rewrite <- (Q2R_of_nat x).
      split.
      * intros [Hd Hsq]. split; [done|]. apply Qlt_Rlt in Hd, Hsq.
        rewrite Q2R_minus in Hd. rewrite !Q2R_mult, Q2R_minus in Hsq.
        change (Q2R 0) with (0 * / 1) in Hd. change (Q2R 4) with (4 * / 1) in Hsq.
        split; lra.
      * intros (_ & Hd & Hsq). split; apply Rlt_Qlt.
        -- rewrite Q2R_minus. change (Q2R 0) with (0 * / 1). lra.
        -- rewrite !Q2R_mult, Q2R_minus. change (Q2R 4) with (4 * / 1). lra.
    + simpl. split; [done|]. intros [Hlen _]. unfold series_var in Hv.
      rewrite Hm in Hv. case_decide; [lia | done].
  - simpl. split; [done|]. intros [Hlen _]. destruct xs; simpl in *; [lia | done].
Qed.
End Reals.

Lemma high_frequency_ips_NoDup ddof client_ip :
  NoDup (high_frequency_ips ddof client_ip).*1.
Proof.
  apply (sublist_NoDup _ _ (value_counts_NoDup client_ip)).
  apply fmap_sublist. unfold high_frequency_ips, where_count. apply sublist_filter.
Qed.

Lemma elem_of_high_frequency_ips ddof client_ip ip :
  ip ∈ (high_frequency_ips ddof client_ip).*1 ↔ flagged_by ddof client_ip ip.
Proof.
  unfold high_frequency_ips, where_count, flagged_by.
  rewrite list_elem_of_fmap. split.
  - intros ([w n] & -> & Hin). apply list_elem_of_filter in Hin as [Ht Hin].
    apply elem_of_value_counts in Hin as (? & ? & ->).
    apply gt_threshold_real in Ht. simpl. tauto.
  - intros (Hna & Hin & Hgt). exists (ip, occurrences ip client_ip). split; [done|].
    apply list_elem_of_filter. split.
    + simpl. by apply gt_threshold_real.
    + by apply elem_of_value_counts.
Qed.

Lemma high_frequency_ips_counts ddof client_ip :
  counts_flagged ddof client_ip (length (high_frequency_ips ddof client_ip)).
Proof.
  intros flagged Hnd Hchar. rewrite <- (length_fmap fst).
  apply Permutation_length, NoDup_Permutation;
    [apply high_frequency_ips_NoDup | done |].
  intros ip. by rewrite Hchar, elem_of_high_frequency_ips.
Qed.

(** C5, as the code has it. On a batch with the columns [domain] and
    [client_ip], the count of "High Query Frequency IPs" is the number of
    distinct client addresses whose number of queries is strictly above the
    mean plus twice the sample standard deviation (divisor n - 1) of the
    numbers of queries per address; with less than two distinct addresses
    there is no deviation and no address is counted. *)
Theorem high_query_frequency_sample_threshold
    (self : Analyzer) (df : DataFrame) (domain client_ip : list cell) :
  dns_df self = Some df →
  nrows df ≠ 0 →
  columns df !! "domain" = Some domain →
  columns df !! "client_ip" = Some client_ip →
  ∃ found n,
    (analyze_dns_logs self).1 = Ok found
    ∧ found !! "High Query Frequency IPs" = Some n
    ∧ counts_flagged 1 client_ip n.
Proof.
  intros Hdf Hn Hdom Hip.
  exists (dns_findings df domain), (length (high_frequency_ips 1 client_ip)).
  rewrite (analyze_dns_logs_run self df domain) by done.
  split; [done|]. split; [by apply dns_findings_high_frequency|].
  apply high_frequency_ips_counts.
Qed.

Lemma high_query_frequency_sample_threshold_witness :
  ∃ found n,
    (analyze_dns_logs (with_dns skewed_batch)).1 = Ok found
    ∧ found !! "High Query Frequency IPs" = Some n
    ∧ counts_flagged 1 skewed_ips n.
Proof.
  apply (high_query_frequency_sample_threshold (with_dns skewed_batch) skewed_batch
           (replicate 10 (CStr "example.com")) skewed_ips).
  - reflexivity.
  - discriminate.
  - reflexivity.
  - reflexivity.
Defined.

(** C5 as it is written fails: in [skewed_batch] the address with four
    queries is above the mean plus twice the population deviation
    (1.67 + 2 * 1.11 = 3.88), and it is the only one; the analysis counts no
    address, its threshold being 1.67 + 2 * 1.21 = 4.09. *)
Lemma high_query_frequency_not_population :
  ∃ found,
    (analyze_dns_logs (with_dns skewed_batch)).1 = Ok found
    ∧ found !! "High Query Frequency IPs" = Some 0
    ∧ flagged_by 0 skewed_ips (CStr "10.0.0.6")
    ∧ ¬ counts_flagged 0 skewed_ips 0.
Proof.
  exists (dns_findings skewed_batch (replicate 10 (CStr "example.com"))).
  split; [by rewrite (analyze_dns_logs_run (with_dns skewed_batch) skewed_batch
                        (replicate 10 (CStr "example.com")))|].
  split; [vm_compute; reflexivity|].
  assert (flagged_by 0 skewed_ips (CStr "10.0.0.6")) as Hflag.
  { apply elem_of_high_frequency_ips. vm_compute. apply list_elem_of_singleton. done. }
  split; [done|]. intros Hclaim.
  specialize (Hclaim (high_frequency_ips 0 skewed_ips).*1
                (high_frequency_ips_NoDup 0 skewed_ips)
                (elem_of_high_frequency_ips 0 skewed_ips)).
  vm_compute in Hclaim. discriminate.
Qed.

(** ** One client address *)








(** ** The suspicious events and their risk levels *)

Lemma select_fmap (test : cell → bool) (col : list cell) :
  select (test <$> col) col = filter (λ c, test c = true) col.
Proof.
  induction col as [|c col IH]; [done|].
  rewrite fmap_cons, filter_cons. cbn [select].
  destruct (test c); case_decide; try done. by rewrite IH.
Qed.

Section UniqueKeys.
Implicit Types (v : cell) (acc : list (cell * nat)) (col seen : list cell).

Lemma unique_acc_ext seen seen' col :
  (∀ c, c ∈ seen ↔ c ∈ seen') → unique_acc seen col = unique_acc seen' col.
Proof.
  revert seen seen'. induction col as [|v col IH]; intros seen seen' Hext; [done|].
  cbn [unique_acc]. destruct (decide (v ∈ seen)) as [Hin|Hin].
  - rewrite decide_True by by apply Hext. by apply IH.
  - rewrite decide_False by by rewrite <- Hext. f_equal. apply IH.
    intros c. rewrite !elem_of_cons, Hext. done.
Qed.

Lemma bump_keys_eq v acc :
  (bump v acc).*1 = if decide (v ∈ acc.*1) then acc.*1 else (acc.*1 ++ [v])%list.
Proof.
  induction acc as [|[u n] acc IH]; [done|].
  cbn [bump]. destruct (decide (v = u)) as [->|Hne].
  - rewrite decide_True by (rewrite fmap_cons; apply elem_of_cons; by left). done.
  - rewrite !fmap_cons, IH. cbn [fst].
    destruct (decide (v ∈ acc.*1)) as [Hin|Hin].
    + rewrite decide_True by (apply elem_of_cons; by right). done.
    + rewrite decide_False by (rewrite elem_of_cons; tauto). done.
Qed.

Lemma foldl_count_step_keys col acc :
  (∀ c, c ∈ col → isna c = false) →
  (foldl count_step acc col).*1 = (acc.*1 ++ unique_acc acc.*1 col)%list.
Proof.
  revert acc. induction col as [|v col IH]; intros acc Hna.
  - simpl. by rewrite app_nil_r.
  - cbn [foldl unique_acc]. rewrite IH by (intros c Hc; apply Hna, elem_of_cons; by right).
    unfold count_step. rewrite (Hna v) by (apply elem_of_cons; by left).
    rewrite bump_keys_eq. destruct (decide (v ∈ acc.*1)); [done|].
    rewrite <- app_assoc. cbn [app]. do 2 f_equal. apply unique_acc_ext.
    intros c. rewrite elem_of_app, !elem_of_cons, elem_of_nil. tauto.
Qed.

(** The labels of [value_counts] are the values of [unique], when no
    value is missing. *)
Lemma value_counts_keys col :
  (∀ c, c ∈ col → isna c = false) → (value_counts col).*1 = unique col.
Proof. intros Hna. unfold value_counts, unique. by rewrite foldl_count_step_keys. Qed.
End UniqueKeys.

Lemma catalog_keys_NoDup : NoDup catalog_entries.*1.
Proof. apply (bool_decide_unpack (NoDup catalog_entries.*1)). vm_compute. exact I. Qed.

Lemma catalog_get_entry (c : cell) (info : EventInfo) :
  catalog_get c = Some info → ∃ z, c = CInt z ∧ (z, info) ∈ catalog_entries.
Proof.
  unfold catalog_get. destruct c as [| |s|z]; try done.
  intros Hget. exists z. split; [done|]. by apply elem_of_list_to_map_2.
Qed.

Lemma event_name_inj (float : bool) (c c' : cell) (info info' : EventInfo) :
  catalog_get c = Some info → catalog_get c' = Some info' →
  event_name float c info = event_name float c' info' → c = c'.
Proof.
  intros Hc Hc' Hname.
  apply catalog_get_entry in Hc as (z & -> & Hin).
  apply catalog_get_entry in Hc' as (z' & -> & Hin').
  assert (labels_distinct float = true) as Hall by (destruct float; vm_compute; reflexivity).
  unfold labels_distinct in Hall. rewrite forallb_forall in Hall.
  apply list_elem_of_In in Hin, Hin'. specialize (Hall _ Hin).
  rewrite forallb_forall in Hall. specialize (Hall _ Hin'). cbn [fst snd] in Hall.
  rewrite Hname, String.eqb_refl in Hall. cbn [implb] in Hall.
  apply Z.eqb_eq in Hall. by subst.
Qed.

Lemma dict_sum_insert (d : gmap string nat) (label : string) (n : nat) :
  d !! label = None → dict_sum (<[label := n]> d) = n + dict_sum d.
Proof.
  intros Hfresh. unfold dict_sum.
  apply (map_fold_insert_L (λ _ v acc, v + acc)); [intros; lia | done].
Qed.

Lemma winevent_result_sum (float : bool) (vc : list (cell * nat)) :
  NoDup vc.*1 →
  (∀ id, id ∈ vc.*1 → is_Some (catalog_get id)) →
  dict_sum (winevent_result float vc) = sum_list vc.*2.
Proof.
  intros Hnd Hcat. unfold winevent_result.
  match goal with |- context [foldl ?f _ _] => set (F := f) end.
  enough (∀ acc : gmap string nat,
            (∀ id info, id ∈ vc.*1 → catalog_get id = Some info →
                        acc !! event_name float id info = None) →
            dict_sum (foldl F acc vc) = dict_sum acc + sum_list vc.*2) as Hgen.
  { rewrite Hgen; [done|]. intros. apply lookup_empty. }
  induction vc as [|[id n] vc IH]; intros acc Hfresh.
  - simpl. lia.
  - rewrite fmap_cons in Hnd, Hcat, Hfresh. cbn [fst] in *.
    apply NoDup_cons in Hnd as [Hid Hnd].
    destruct (Hcat id) as [info Hinfo]; [apply elem_of_cons; by left|].
    cbn [foldl]. unfold F at 2. rewrite Hinfo. fold F.
    rewrite IH; [| done | intros; apply Hcat, elem_of_cons; by right |].
    + rewrite dict_sum_insert by (apply Hfresh; [apply elem_of_cons; by left | done]).
      rewrite !fmap_cons. simpl. lia.
    + intros id' info' Hin' Hinfo'. rewrite lookup_insert_ne.
      * apply Hfresh; [apply elem_of_cons; by right | done].
      * intros Hname. apply (event_name_inj _ _ _ _ _ Hinfo Hinfo') in Hname. by subst.
Qed.

Lemma winevent_risk_levels_run (vc : list (cell * nat)) (self : Analyzer) :
  NoDup vc.*1 →
  winevent_risk_levels vc vc.*1 self = (Ok (risk_levels_of vc), self).
Proof.
  intros Hnd. unfold winevent_risk_levels, risk_levels_of.
  generalize risk_levels_init.
  assert (∀ id n, (id, n) ∈ vc → count_of id vc = Some n) as Hsub
    by (intros id n; by apply count_of_elem).
  revert Hsub. generalize vc at 1 4 5 as part.
  induction part as [|[id n] part IH]; intros Hsub rl; [done|].
  rewrite fmap_cons. cbn [foldM foldl fst snd]. run.
  rewrite (Hsub id n) by (apply elem_of_cons; by left).
  destruct (catalog_get id) as [info|]; run;
    apply IH; intros; apply Hsub, elem_of_cons; by right.
Qed.

Lemma risk_total_add (r : risk) (n : nat) (rl : RiskLevels) :
  risk_total (risk_add r n rl) = risk_total rl + n.
Proof. destruct r; unfold risk_total; simpl; lia. Qed.

Lemma risk_levels_of_total (vc : list (cell * nat)) :
  (∀ id, id ∈ vc.*1 → is_Some (catalog_get id)) →
  risk_total (risk_levels_of vc) = sum_list vc.*2.
Proof.
  intros Hcat. unfold risk_levels_of.
  enough (∀ rl, risk_total (foldl (λ rl p, match catalog_get p.1 with
                                           | Some info => risk_add (risk_of info) p.2 rl
                                           | None => rl
                                           end) rl vc)
                = risk_total rl + sum_list vc.*2) as Hgen by (by rewrite Hgen).
  induction vc as [|[id n] vc IH]; intros rl; [simpl; lia|].
  rewrite fmap_cons in Hcat. cbn [foldl fst snd].
  destruct (Hcat id) as [info Hinfo]; [apply elem_of_cons; by left|].
  rewrite Hinfo, IH by (intros; apply Hcat, elem_of_cons; by right).
  rewrite risk_total_add, !fmap_cons. simpl. lia.
Qed.

Lemma suspicious_codes_notna codes c : c ∈ suspicious_codes codes → isna c = false.
Proof.
  intros Hin. apply list_elem_of_filter in Hin as [Hcat _].
  destruct c; try done; vm_compute in Hcat; discriminate.
Qed.

Lemma suspicious_counts_in_catalog codes id :
  id ∈ (value_counts (suspicious_codes codes)).*1 → is_Some (catalog_get id).
Proof.
  intros Hin. apply list_elem_of_fmap in Hin as ([w n] & -> & Hin).
  apply elem_of_value_counts in Hin as (_ & Hin & _).
  apply list_elem_of_filter in Hin as [Hcat _].
  unfold in_catalog in Hcat. by apply bool_decide_eq_true in Hcat.
Qed.

Lemma winevent_tally_run (df : DataFrame) (codes hosts : list cell) (self : Analyzer) :
  columns df !! "EventCode" = Some codes →
  columns df !! "ComputerName" = Some hosts →
  winevent_tally df self
  = (Ok (winevent_result (float_dtype codes) (value_counts (suspicious_codes codes)),
         risk_levels_of (value_counts (suspicious_codes codes))), self).
Proof.
  intros Hcodes Hhosts. unfold winevent_tally. run. rewrite Hcodes. run.
  unfold select_rows. run. rewrite !lookup_fmap, Hcodes, Hhosts. cbn [fmap option_fmap option_map].
  run. rewrite select_fmap. fold (suspicious_codes codes).
  rewrite <- value_counts_keys by apply suspicious_codes_notna.
  rewrite winevent_risk_levels_run by apply value_counts_NoDup.
  reflexivity.
Qed.

Lemma filter_all {A} (P : A → Prop) `{∀ x, Decision (P x)} (l : list A) :
  (∀ x, x ∈ l → P x) → filter P l = l.
Proof.
  induction l as [|x l IH]; intros Hall; [done|].
  rewrite filter_cons_True by (apply Hall, elem_of_cons; by left).
  f_equal. apply IH. intros y Hy. apply Hall, elem_of_cons. by right.
Qed.

Lemma analyze_winevent_logs_run (self : Analyzer) (df : DataFrame) (codes hosts : list cell) :
  winevent_df self = Some df →
  nrows df ≠ 0 →
  columns df !! "EventCode" = Some codes →
  columns df !! "ComputerName" = Some hosts →
  let result := winevent_result (float_dtype codes) (value_counts (suspicious_codes codes)) in
  analyze_winevent_logs self
  = (Ok result,
     {| winevent_df := winevent_df self; dns_df := dns_df self;
        suspicious_events := <["WinEvent" := result]> (suspicious_events self) |}).
Proof.
  intros Hdf Hn Hcodes Hhosts result. unfold analyze_winevent_logs. run. rewrite Hdf.
  rewrite decide_False by done. run.
  rewrite (winevent_tally_run df codes hosts self) by done. run.
  rewrite ?Hdf. reflexivity.
Qed.

(** C3. On a batch with the columns [EventCode] and [ComputerName] (one
    cell per record), the three risk levels that [analyze_winevent_logs]
    computes add up to the sum of the counts of the mapping it returns, which
    is the number of records whose identifier is in the table; on an empty
    batch the mapping is empty and both sums are 0. *)
Theorem risk_levels_sum_to_suspicious_counts
    (self : Analyzer) (df : DataFrame) (codes hosts : list cell) :
  winevent_df self = Some df →
  length codes = nrows df →
  columns df !! "EventCode" = Some codes →
  columns df !! "ComputerName" = Some hosts →
  ∃ result risk_levels,
    winevent_tally df self = (Ok (result, risk_levels), self)
    ∧ (analyze_winevent_logs self).1 = Ok result
    ∧ high risk_levels + medium risk_levels + low risk_levels = dict_sum result
    ∧ dict_sum result = length (suspicious_codes codes).
Proof.
  intros Hdf Hlen Hcodes Hhosts.
  exists (winevent_result (float_dtype codes) (value_counts (suspicious_codes codes))),
         (risk_levels_of (value_counts (suspicious_codes codes))).
  split; [by apply (winevent_tally_run df codes hosts)|].
  split.
  - destruct (decide (nrows df = 0)) as [Hz|Hnz].
    + unfold analyze_winevent_logs. run. rewrite Hdf, decide_True by done.
      destruct codes; [done | simpl in Hlen; lia].
    + by rewrite (analyze_winevent_logs_run self df codes hosts).
  - rewrite winevent_result_sum
      by (apply value_counts_NoDup || apply suspicious_counts_in_catalog).
    fold (risk_total (risk_levels_of (value_counts (suspicious_codes codes)))).
    rewrite risk_levels_of_total by apply suspicious_counts_in_catalog.
    split; [done|]. rewrite value_counts_sum. f_equal.
    apply filter_all. apply suspicious_codes_notna.
Qed.

Lemma risk_levels_sum_to_suspicious_counts_witness :
  ∃ result risk_levels,
    winevent_tally mixed_batch (with_winevent mixed_batch)
    = (Ok (result, risk_levels), with_winevent mixed_batch)
    ∧ (analyze_winevent_logs (with_winevent mixed_batch)).1 = Ok result
    ∧ high risk_levels + medium risk_levels + low risk_levels = dict_sum result
    ∧ dict_sum result
      = length (suspicious_codes [CInt 4624; CInt 4625; CInt 4624; CInt 1; CInt 4634;
                                  CInt 7045]).
Proof.
  apply (risk_levels_sum_to_suspicious_counts (with_winevent mixed_batch) mixed_batch
           [CInt 4624; CInt 4625; CInt 4624; CInt 1; CInt 4634; CInt 7045]
           [CStr "a"; CStr "b"; CStr "a"; CStr "c"; CStr "a"; CStr "b"]);
    reflexivity.
Defined.



(** ** Running the DNS analysis again *)

Lemma dns_batch_after_idem (df : DataFrame) (domain : list cell) :
  dns_batch_after (dns_batch_after df domain) domain = dns_batch_after df domain.
Proof.
  unfold dns_batch_after, set_column. cbn [nrows columns]. f_equal.
  apply map_eq. intros name.
  destruct (decide (name = "domain_length")) as [->|Hdl];
    [by rewrite !lookup_insert_eq|].
  rewrite !(lookup_insert_ne _ "domain_length") by done.
  destruct (decide (name = "tld")) as [->|Htld];
    [by rewrite !lookup_insert_eq|].
  by rewrite !lookup_insert_ne.
Qed.

Lemma failed_responses_step_ext df df' m :
  columns df !! "response_code" = columns df' !! "response_code" →
  failed_responses_step df m = failed_responses_step df' m.
Proof. intros Heq. unfold failed_responses_step. by rewrite Heq. Qed.

Lemma dns_findings_after (df : DataFrame) (domain : list cell) :
  dns_findings (dns_batch_after df domain) domain = dns_findings df domain.
Proof.
  unfold dns_findings. rewrite dns_batch_after_idem. do 3 f_equal.
  apply failed_responses_step_ext. unfold dns_batch_after, set_column. cbn [columns].
  by rewrite !lookup_insert_ne.
Qed.

(** C9. Two successive runs of [analyze_dns_logs] on the stored batch end
    the same way: the second returns the mapping of the first (or raises
    the exception of the first), and leaves the state as the first left
    it. *)
Theorem analyze_dns_logs_idempotent (self : Analyzer) :
  let first := analyze_dns_logs self in
  let second := analyze_dns_logs first.2 in
  second.1 = first.1 ∧ second.2 = first.2.
Proof.
  cbv zeta. destruct (dns_df self) as [df|] eqn:Hdf.
  - destruct (decide (nrows df = 0)) as [Hz|Hnz].
    + assert (analyze_dns_logs self = (Ok ∅, self)) as Hrun.
      { unfold analyze_dns_logs. run. by rewrite Hdf, decide_True. }
      by rewrite Hrun; cbn [fst snd]; rewrite Hrun.
    + destruct (columns df !! "domain") as [domain|] eqn:Hdom.
      * rewrite (analyze_dns_logs_run self df domain) by done. cbn [fst snd].
        rewrite (analyze_dns_logs_run _ (dns_batch_after df domain) domain); cbn [dns_df];
          [| done | done | by rewrite columns_after].
        cbn [fst snd suspicious_events winevent_df dns_df].
        rewrite dns_findings_after, dns_batch_after_idem, insert_insert_eq. done.
      * rewrite (analyze_dns_logs_raises self df) by done. cbn [fst snd].
        by rewrite (analyze_dns_logs_raises self df).
  - assert (analyze_dns_logs self = (Ok ∅, self)) as Hrun.
    { unfold analyze_dns_logs. run. by rewrite Hdf. }
    by rewrite Hrun; cbn [fst snd]; rewrite Hrun.
Qed.

(** ** What the DNS analysis writes *)

(** C10, as the code has it. On a stored batch with the column [domain],
    [analyze_dns_logs] leaves the WinEvent batch as it is; it leaves an
    empty DNS batch as it is; in a DNS batch that is not empty it sets the
    columns [tld] and [domain_length] (a column of that name is replaced)
    and keeps the number of rows and every other column. *)
Theorem analyze_dns_logs_frame (self : Analyzer) (df : DataFrame) (domain : list cell) :
  dns_df self = Some df →
  columns df !! "domain" = Some domain →
  let self' := (analyze_dns_logs self).2 in
  winevent_df self' = winevent_df self
  ∧ (nrows df = 0 → dns_df self' = Some df)
  ∧ (nrows df ≠ 0 →
     ∃ df',
       dns_df self' = Some df'
       ∧ nrows df' = nrows df
       ∧ columns df' !! "tld" = Some (CStr ∘ get_tld <$> domain)
       ∧ columns df' !! "domain_length" = Some (str_len <$> domain)
       ∧ (∀ name, name ≠ "tld" → name ≠ "domain_length" →
                  columns df' !! name = columns df !! name)
       ∧ (wf_frame df → wf_frame df')).
Proof.
  intros Hdf Hdom. cbv zeta. destruct (decide (nrows df = 0)) as [Hz|Hnz].
  - assert (analyze_dns_logs self = (Ok ∅, self)) as Hrun.
    { unfold analyze_dns_logs. run. by rewrite Hdf, decide_True. }
    rewrite Hrun. cbn [snd]. split; [done|]. split; [done|]. intros; done.
  - rewrite (analyze_dns_logs_run self df domain) by done. cbn [snd winevent_df dns_df].
    split; [done|]. split; [done|]. intros _. exists (dns_batch_after df domain).
    split; [done|]. split; [done|].
    unfold dns_batch_after, set_column. cbn [columns].
    split; [by rewrite lookup_insert_ne, lookup_insert_eq|].
    split; [by rewrite lookup_insert_eq|].
    split; [intros name H1 H2; by rewrite !lookup_insert_ne|].
    intros Hwf name col. cbn [nrows columns].
    destruct (decide (name = "domain_length")) as [->|Hdl].
    { rewrite lookup_insert_eq. intros [= <-]. rewrite length_fmap. eauto. }
    rewrite lookup_insert_ne by done.
    destruct (decide (name = "tld")) as [->|Htld].
    { rewrite lookup_insert_eq. intros [= <-]. rewrite length_fmap. eauto. }
    rewrite lookup_insert_ne by done. apply Hwf.
Qed.

Lemma analyze_dns_logs_frame_witness :
  let self' := (analyze_dns_logs (with_dns relabelled_batch)).2 in
  winevent_df self' = None
  ∧ (2 = 0 → dns_df self' = Some relabelled_batch)
  ∧ (2 ≠ 0 →
     ∃ df',
       dns_df self' = Some df'
       ∧ nrows df' = 2
       ∧ columns df' !! "tld" = Some [CStr ".com"; CStr ".xyz"]
       ∧ columns df' !! "domain_length" = Some [CInt 5; CInt 5]
       ∧ (∀ name, name ≠ "tld" → name ≠ "domain_length" →
                  columns df' !! name = columns relabelled_batch !! name)
       ∧ (wf_frame relabelled_batch → wf_frame df')).
Proof.
  apply (analyze_dns_logs_frame (with_dns relabelled_batch) relabelled_batch
           [CStr "a.com"; CStr "b.xyz"]); reflexivity.
Defined.

(** C10 as it is written fails: a column [tld] that the batch already has
    is replaced, and a batch with the column [domain] and no row gets no
    column [tld]. *)
Lemma analyze_dns_logs_overwrites_tld :
  (∃ df',
     dns_df (analyze_dns_logs (with_dns relabelled_batch)).2 = Some df'
     ∧ columns relabelled_batch !! "tld" = Some [CStr "zone"; CStr "zone"]
     ∧ columns df' !! "tld" = Some [CStr ".com"; CStr ".xyz"])
  ∧ (∃ df',
       dns_df (analyze_dns_logs (with_dns header_only_batch)).2 = Some df'
       ∧ is_Some (columns header_only_batch !! "domain")
       ∧ columns df' !! "tld" = None).
Proof.
  split.
  - exists (dns_batch_after relabelled_batch [CStr "a.com"; CStr "b.xyz"]).
    rewrite (analyze_dns_logs_run (with_dns relabelled_batch) relabelled_batch
               [CStr "a.com"; CStr "b.xyz"]) by done.
    repeat split.
  - exists header_only_batch. repeat split. by exists [].
Qed.

(** * Further properties *)

(** ** The other heuristics of the DNS analysis *)

Lemma dns_findings_failed df domain response_code :
  columns df !! "response_code" = Some response_code →
  dns_findings df domain !! "Failed DNS Responses"
  = Some (count_true (ne_zero <$> response_code)).
Proof.
  intros Hcol. unfold dns_findings.
  rewrite high_frequency_step_other, unusual_queries_step_other by done.
  rewrite lookup_insert_ne by done. unfold failed_responses_step, set_column.
  cbn [columns]. rewrite lookup_insert_ne, Hcol by done.
  by rewrite lookup_insert_eq.
Qed.

Lemma dns_findings_long df domain :
  dns_findings df domain !! "Long Domain Names (>30 chars)"
  = Some (count_true (gt_30 <$> (str_len <$> domain))).
Proof.
  unfold dns_findings.
  rewrite high_frequency_step_other, unusual_queries_step_other by done.
  apply lookup_insert_eq.
Qed.

Lemma dns_findings_unusual df domain query_type :
  columns df !! "query_type" = Some query_type →
  dns_findings df domain !! "Unusual Query Types"
  = Some (count_true (isin unusual_query_types <$> query_type)).
Proof.
  intros Hcol. unfold dns_findings.
  rewrite high_frequency_step_other by done. unfold unusual_queries_step.
  rewrite columns_after, Hcol by done. by rewrite lookup_insert_eq.
Qed.

(** X1. The count of "Failed DNS Responses" is the number of records whose
    response code is not the integer 0: a record whose code is missing is
    counted. *)
Theorem failed_responses_counts_nonzero
    (self : Analyzer) (df : DataFrame) (domain response_code : list cell) :
  dns_df self = Some df →
  nrows df ≠ 0 →
  columns df !! "domain" = Some domain →
  columns df !! "response_code" = Some response_code →
  ∃ found,
    (analyze_dns_logs self).1 = Ok found
    ∧ found !! "Failed DNS Responses"
      = Some (length (filter (λ c, c ≠ CInt 0) response_code))
    ∧ ∀ c, isna c = true → c ≠ CInt 0.
Proof.
  intros Hdf Hn Hdom Hrc. exists (dns_findings df domain).
  rewrite (analyze_dns_logs_run self df domain) by done.
  split; [done|]. split; [|by intros []].
  rewrite (dns_findings_failed df domain response_code) by done.
  rewrite count_true_fmap. do 2 f_equal. apply list_filter_iff.
  intros [| |s|z]; simpl; try (split; [discriminate | done]).
  rewrite bool_decide_eq_true. split; congruence.
Qed.

Lemma failed_responses_counts_nonzero_witness :
  ∃ found,
    (analyze_dns_logs (with_dns coded_batch)).1 = Ok found
    ∧ found !! "Failed DNS Responses" = Some 2
    ∧ ∀ c, isna c = true → c ≠ CInt 0.
Proof.
  apply (failed_responses_counts_nonzero (with_dns coded_batch) coded_batch
           [CStr "a.com"; CStr "b.com"; CStr "c.com"; CStr "d.com"]
           [CInt 0; CInt 3; CNaN; CInt 0]).
  - reflexivity.
  - discriminate.
  - reflexivity.
  - reflexivity.
Defined.

(** X2. The count of "Long Domain Names (>30 chars)" is the number of
    records whose domain, as a string, has more than 30 characters
    (characters, not bytes: a name of 30 Cyrillic letters is not counted);
    a missing domain is never counted. *)
Theorem long_domain_names_counts_records
    (self : Analyzer) (df : DataFrame) (domain : list cell) :
  dns_df self = Some df →
  nrows df ≠ 0 →
  columns df !! "domain" = Some domain →
  ∃ found,
    (analyze_dns_logs self).1 = Ok found
    ∧ found !! "Long Domain Names (>30 chars)"
      = Some (length (filter (λ d, 30 < len (str d)) domain))
    ∧ ∀ d, isna d = true → ¬ (30 < len (str d)).
Proof.
  intros Hdf Hn Hdom. exists (dns_findings df domain).
  rewrite (analyze_dns_logs_run self df domain) by done.
  split; [done|]. split; [|intros [] ?; simpl; try done; lia].
  rewrite dns_findings_long, <- list_fmap_compose, count_true_fmap.
  do 2 f_equal. apply list_filter_iff. intros d. unfold compose, gt_30, str_len.
  rewrite bool_decide_eq_true. lia.
Qed.

Lemma long_domain_names_counts_records_witness :
  ∃ found,
    (analyze_dns_logs (with_dns named_batch)).1 = Ok found
    ∧ found !! "Long Domain Names (>30 chars)" = Some 1.
Proof.
  destruct (long_domain_names_counts_records (with_dns named_batch) named_batch
              [CStr "a.com"; CNone; CStr "abcdefghijklmnopqrstuvwxyz0123456789.com";
               CStr "пример-длинного-домена-тест.рф"])
    as (found & Hrun & Hcount & _).
  - reflexivity.
  - discriminate.
  - reflexivity.
  - exists found. split; [exact Hrun | exact Hcount].
Defined.

(** X3. The count of "Unusual Query Types" is the number of records whose
    query type is one of the strings TXT, ANY, AXFR, CNAME. *)
Theorem unusual_query_types_counts_records
    (self : Analyzer) (df : DataFrame) (domain query_type : list cell) :
  dns_df self = Some df →
  nrows df ≠ 0 →
  columns df !! "domain" = Some domain →
  columns df !! "query_type" = Some query_type →
  ∃ found,
    (analyze_dns_logs self).1 = Ok found
    ∧ found !! "Unusual Query Types"
      = Some (length (filter (λ c, c ∈ [CStr "TXT"; CStr "ANY"; CStr "AXFR"; CStr "CNAME"])
                        query_type)).
Proof.
  intros Hdf Hn Hdom Hqt. exists (dns_findings df domain).
  rewrite (analyze_dns_logs_run self df domain) by done.
  split; [done|].
  rewrite (dns_findings_unusual df domain query_type) by done.
  rewrite count_true_fmap. do 2 f_equal. apply list_filter_iff.
  intros c. rewrite !elem_of_cons, elem_of_nil.
  destruct c as [| |s|z]; simpl;
    try (split; [discriminate | intros [|[|[|[|[]]]]]; discriminate]).
  rewrite bool_decide_eq_true. unfold unusual_query_types.
  rewrite !elem_of_cons, elem_of_nil.
  split; [intros [->|[->|[->|[->|[]]]]]; tauto | intros [|[|[|[|[]]]]]; simplify_eq; tauto].
Qed.

Lemma unusual_query_types_counts_records_witness :
  ∃ found,
    (analyze_dns_logs (with_dns typed_batch)).1 = Ok found
    ∧ found !! "Unusual Query Types" = Some 2.
Proof.
  apply (unusual_query_types_counts_records (with_dns typed_batch) typed_batch
           [CStr "a.com"; CStr "b.com"; CStr "c.com"; CStr "d.com"]
           [CStr "A"; CStr "TXT"; CStr "txt"; CStr "AXFR"]).
  - reflexivity.
  - discriminate.
  - reflexivity.
  - reflexivity.
Defined.

Lemma dns_findings_other df domain (label : string) :
  label ∉ ["Rare Domain Queries"; "Unusual TLD Queries"; "Failed DNS Responses";
           "Long Domain Names (>30 chars)"; "Unusual Query Types";
           "High Query Frequency IPs"] →
  dns_findings df domain !! label = None.
Proof.
  rewrite !not_elem_of_cons. intros (? & ? & ? & ? & ? & ? & _). unfold dns_findings.
  rewrite high_frequency_step_other, unusual_queries_step_other by done.
  rewrite lookup_insert_ne, failed_responses_step_other by done.
  by rewrite !lookup_insert_ne.
Qed.

(** The entries of the mapping, one by one. *)
Lemma dns_findings_lookup df domain (label : string) (n : nat) :
  dns_findings df domain !! label = Some n →
  (label = "Rare Domain Queries"
   ∧ n = length (where_count (λ n, bool_decide (n < 3)%nat) (value_counts domain)))
  ∨ (label = "Unusual TLD Queries"
     ∧ n = count_true (isin suspicious_tlds <$> (CStr ∘ get_tld <$> domain)))
  ∨ (label = "Long Domain Names (>30 chars)"
     ∧ n = count_true (gt_30 <$> (str_len <$> domain)))
  ∨ (∃ response_code, columns df !! "response_code" = Some response_code
       ∧ label = "Failed DNS Responses" ∧ n = count_true (ne_zero <$> response_code))
  ∨ (∃ query_type, columns df !! "query_type" = Some query_type
       ∧ label = "Unusual Query Types"
       ∧ n = count_true (isin unusual_query_types <$> query_type))
  ∨ (∃ client_ip, columns df !! "client_ip" = Some client_ip
       ∧ label = "High Query Frequency IPs"
       ∧ n = length (high_frequency_ips 1 client_ip)).
Proof.
  intros Hlook.
  destruct (decide (label = "Rare Domain Queries")) as [->|?].
  { rewrite dns_findings_rare in Hlook. left. split; congruence. }
  destruct (decide (label = "Unusual TLD Queries")) as [->|?].
  { rewrite dns_findings_tld in Hlook. right; left. split; congruence. }
  destruct (decide (label = "Long Domain Names (>30 chars)")) as [->|?].
  { rewrite dns_findings_long in Hlook. do 2 right; left. split; congruence. }
  destruct (dns_findings_skips_absent df domain) as (Hrc & Hqt & Hip).
  destruct (decide (label = "Failed DNS Responses")) as [->|?].
  { destruct (columns df !! "response_code") as [rc|] eqn:Hcol;
      [|rewrite Hrc in Hlook; done].
    rewrite (dns_findings_failed df domain rc) in Hlook by done.
    do 3 right; left. exists rc. repeat split; congruence. }
  destruct (decide (label = "Unusual Query Types")) as [->|?].
  { destruct (columns df !! "query_type") as [qt|] eqn:Hcol;
      [|rewrite Hqt in Hlook; done].
    rewrite (dns_findings_unusual df domain qt) in Hlook by done.
    do 4 right; left. exists qt. repeat split; congruence. }
  destruct (decide (label = "High Query Frequency IPs")) as [->|?].
  { destruct (columns df !! "client_ip") as [ip|] eqn:Hcol;
      [|rewrite Hip in Hlook; done].
    rewrite (dns_findings_high_frequency df domain ip) in Hlook by done.
    do 5 right. exists ip. repeat split; congruence. }
  rewrite dns_findings_other in Hlook; [done|].
  rewrite !not_elem_of_cons. repeat split; try done. apply not_elem_of_nil.
Qed.

Lemma count_true_le (mask : list bool) : (count_true mask ≤ length mask)%nat.
Proof. apply length_filter. Qed.

Lemma length_le_sum (l : list nat) : (∀ x, x ∈ l → (1 ≤ x)%nat) → (length l ≤ sum_list l)%nat.
Proof.
  induction l as [|x l IH]; intros Hpos; simpl; [lia|].
  specialize (Hpos x (list_elem_of_here _ _)) as Hx.
  assert (length l ≤ sum_list l)%nat by (apply IH; intros; apply Hpos; by right). lia.
Qed.

Lemma value_counts_length (col : list cell) :
  (length (value_counts col) ≤ length col)%nat.
Proof.
  rewrite <- (length_fmap snd). etrans; [apply length_le_sum|].
  - intros n Hn. apply list_elem_of_fmap in Hn as ([w k] & -> & Hin).
    apply elem_of_value_counts in Hin as (_ & Hin & ->).
    by apply occurrences_pos in Hin.
  - rewrite value_counts_sum. apply length_filter.
Qed.

Lemma where_count_le (test : nat → bool) (col : list cell) :
  (length (where_count test (value_counts col)) ≤ length col)%nat.
Proof. etrans; [apply length_filter | apply value_counts_length]. Qed.

(** X4. On a batch whose columns have one cell per record, no count of
    the mapping returned by [analyze_dns_logs] exceeds the number of
    records. *)
Theorem dns_counts_bounded_by_batch
    (self : Analyzer) (df : DataFrame) (domain : list cell) :
  dns_df self = Some df →
  nrows df ≠ 0 →
  columns df !! "domain" = Some domain →
  wf_frame df →
  ∃ found,
    (analyze_dns_logs self).1 = Ok found
    ∧ ∀ label n, found !! label = Some n → (n ≤ nrows df)%nat.
Proof.
  intros Hdf Hn Hdom Hwf. exists (dns_findings df domain).
  rewrite (analyze_dns_logs_run self df domain) by done.
  split; [done|]. intros label n Hlook.
  pose proof (Hwf _ _ Hdom) as Hlen.
  apply dns_findings_lookup in Hlook
    as [[_ ->]|[[_ ->]|[[_ ->]|[(rc & Hrc & _ & ->)|[(qt & Hqt & _ & ->)|(ip & Hip & _ & ->)]]]]].
  - rewrite <- Hlen. apply where_count_le.
  - etrans; [apply count_true_le|]. by rewrite !length_fmap, Hlen.
  - etrans; [apply count_true_le|]. by rewrite !length_fmap, Hlen.
  - etrans; [apply count_true_le|]. rewrite length_fmap. by rewrite (Hwf _ _ Hrc).
  - etrans; [apply count_true_le|]. rewrite length_fmap. by rewrite (Hwf _ _ Hqt).
  - rewrite <- (Hwf _ _ Hip). apply where_count_le.
Qed.

Lemma skewed_batch_wf : wf_frame skewed_batch.
Proof.
  intros name col. unfold skewed_batch. cbn [columns nrows].
  rewrite lookup_insert_Some, lookup_singleton_Some.
  intros [[_ <-]|[_ [_ <-]]]; done.
Qed.

Lemma dns_counts_bounded_by_batch_witness :
  ∃ found,
    (analyze_dns_logs (with_dns skewed_batch)).1 = Ok found
    ∧ ∀ label n, found !! label = Some n → (n ≤ 10)%nat.
Proof.
  apply (dns_counts_bounded_by_batch (with_dns skewed_batch) skewed_batch
           (replicate 10 (CStr "example.com"))).
  - reflexivity.
  - discriminate.
  - reflexivity.
  - exact skewed_batch_wf.
Defined.

(** X5. The mapping returned by [analyze_dns_logs] has the three entries
    of the domain heuristics, and the entry of each of the three other
    heuristics exactly when its column is in the batch. *)
Theorem dns_findings_labels
    (self : Analyzer) (df : DataFrame) (domain : list cell) :
  dns_df self = Some df →
  nrows df ≠ 0 →
  columns df !! "domain" = Some domain →
  ∃ found,
    (analyze_dns_logs self).1 = Ok found
    ∧ ∀ label,
        is_Some (found !! label) ↔
        label ∈ ["Rare Domain Queries"; "Unusual TLD Queries";
                 "Long Domain Names (>30 chars)"]
        ∨ (label = "Failed DNS Responses" ∧ is_Some (columns df !! "response_code"))
        ∨ (label = "Unusual Query Types" ∧ is_Some (columns df !! "query_type"))
        ∨ (label = "High Query Frequency IPs" ∧ is_Some (columns df !! "client_ip")).
Proof.
  intros Hdf Hn Hdom. exists (dns_findings df domain).
  rewrite (analyze_dns_logs_run self df domain) by done.
  split; [done|]. intros label. rewrite !elem_of_cons, elem_of_nil. split.
  - intros [n Hlook].
    apply dns_findings_lookup in Hlook
      as [[-> _]|[[-> _]|[[-> _]|[(rc & Hrc & -> & _)|[(qt & Hqt & -> & _)|(ip & Hip & -> & _)]]]]];
      rewrite ?Hrc, ?Hqt, ?Hip; eauto 10.
  - intros [[->|[->|[->|[]]]]|[[-> [rc Hrc]]|[[-> [qt Hqt]]|[-> [ip Hip]]]]].
    + rewrite dns_findings_rare. eauto.
    + rewrite dns_findings_tld. eauto.
    + rewrite dns_findings_long. eauto.
    + rewrite (dns_findings_failed df domain rc) by done. eauto.
    + rewrite (dns_findings_unusual df domain qt) by done. eauto.
    + rewrite (dns_findings_high_frequency df domain ip) by done. eauto.
Qed.

Lemma dns_findings_labels_witness :
  ∃ found,
    (analyze_dns_logs (with_dns coded_batch)).1 = Ok found
    ∧ ∀ label,
        is_Some (found !! label) ↔
        label ∈ ["Rare Domain Queries"; "Unusual TLD Queries";
                 "Long Domain Names (>30 chars)"]
        ∨ (label = "Failed DNS Responses"
           ∧ is_Some (columns coded_batch !! "response_code"))
        ∨ (label = "Unusual Query Types" ∧ is_Some (columns coded_batch !! "query_type"))
        ∨ (label = "High Query Frequency IPs"
           ∧ is_Some (columns coded_batch !! "client_ip")).
Proof.
  apply (dns_findings_labels (with_dns coded_batch) coded_batch
           [CStr "a.com"; CStr "b.com"; CStr "c.com"; CStr "d.com"]).
  - reflexivity.
  - discriminate.
  - reflexivity.
Defined.

(** ** What the analyses store *)

Lemma analyze_dns_logs_nothing (self : Analyzer) :
  dns_df self = None ∨ (∃ df, dns_df self = Some df ∧ nrows df = 0) →
  analyze_dns_logs self = (Ok ∅, self).
Proof.
  intros [Hnone|(df & Hdf & Hz)]; unfold analyze_dns_logs; run.
  - by rewrite Hnone.
  - by rewrite Hdf, decide_True.
Qed.

(** X6. [analyze_dns_logs] never touches the findings of another source
    nor the WinEvent batch.  When it returns a mapping, either that mapping
    is what is now stored under "DNS", or there was nothing to analyse: the
    mapping is empty and the state is as before, an earlier "DNS" entry
    included.  When it raises, the state is as before. *)
Theorem analyze_dns_logs_stores_what_it_returns (self : Analyzer) :
  let self' := (analyze_dns_logs self).2 in
  winevent_df self' = winevent_df self
  ∧ (∀ source, source ≠ "DNS" →
       suspicious_events self' !! source = suspicious_events self !! source)
  ∧ match (analyze_dns_logs self).1 with
    | Ok found =>
        suspicious_events self' !! "DNS" = Some found
        ∨ (found = ∅ ∧ self' = self
           ∧ (dns_df self = None ∨ ∃ df, dns_df self = Some df ∧ nrows df = 0))
    | Raise e => self' = self
    end.
Proof.
  cbv zeta. destruct (dns_df self) as [df|] eqn:Hdf.
  - destruct (decide (nrows df = 0)) as [Hz|Hnz].
    + rewrite analyze_dns_logs_nothing by eauto. cbn [fst snd]. eauto 10.
    + destruct (columns df !! "domain") as [domain|] eqn:Hdom.
      * rewrite (analyze_dns_logs_run self df domain) by done.
        cbn [fst snd winevent_df suspicious_events].
        split; [done|]. split; [intros; by rewrite lookup_insert_ne|].
        left. apply lookup_insert_eq.
      * by rewrite (analyze_dns_logs_raises self df).
  - rewrite analyze_dns_logs_nothing by eauto. cbn [fst snd]. eauto 10.
Qed.

(** X7. A domain written with a trailing dot has the TLD ".", which is not
    in the suspicious set: such a record is never counted by the TLD
    heuristic, whatever its last label. *)
Theorem trailing_dot_never_flagged (name : string) :
  get_tld (CStr (name ++ ".")) = "."
  ∧ isin suspicious_tlds (CStr (get_tld (CStr (name ++ ".")))) = false.
Proof.
  assert (get_tld (CStr (name ++ ".")) = ".") as Htld
    by (by apply (get_tld_last_label _ name "")).
  split; [done|]. rewrite Htld. reflexivity.
Qed.

(** ** Errors and entries of the WinEvent analysis *)

Lemma analyze_winevent_logs_nothing (self : Analyzer) :
  winevent_df self = None ∨ (∃ df, winevent_df self = Some df ∧ nrows df = 0) →
  analyze_winevent_logs self = (Ok ∅, self).
Proof.
  intros [Hnone|(df & Hdf & Hz)]; unfold analyze_winevent_logs; run.
  - by rewrite Hnone.
  - by rewrite Hdf, decide_True.
Qed.

Lemma analyze_winevent_logs_no_codes (self : Analyzer) (df : DataFrame) :
  winevent_df self = Some df →
  nrows df ≠ 0 →
  columns df !! "EventCode" = None →
  analyze_winevent_logs self = (Raise (KeyError "EventCode"), self).
Proof.
  intros Hdf Hn Hcodes. unfold analyze_winevent_logs. run. rewrite Hdf.
  rewrite decide_False by done. unfold winevent_tally. run. by rewrite Hcodes.
Qed.

Lemma analyze_winevent_logs_no_hosts (self : Analyzer) (df : DataFrame) (codes : list cell) :
  winevent_df self = Some df →
  nrows df ≠ 0 →
  columns df !! "EventCode" = Some codes →
  columns df !! "ComputerName" = None →
  analyze_winevent_logs self = (Raise (KeyError "ComputerName"), self).
Proof.
  intros Hdf Hn Hcodes Hhosts. unfold analyze_winevent_logs. run. rewrite Hdf.
  rewrite decide_False by done. unfold winevent_tally. run. rewrite Hcodes. run.
  unfold select_rows. run. rewrite !lookup_fmap, Hcodes, Hhosts.
  cbn [fmap option_fmap option_map]. run. rewrite select_fmap.
  fold (suspicious_codes codes).
  rewrite <- value_counts_keys by apply suspicious_codes_notna.
  rewrite winevent_risk_levels_run by apply value_counts_NoDup.
  reflexivity.
Qed.

(** X8. On a batch that is not empty, [analyze_winevent_logs] raises
    [KeyError] when the column [EventCode] is missing, and also when only
    the column [ComputerName] is missing (line 216, after the counts are
    computed); in both cases nothing is returned and nothing is stored. *)
Theorem analyze_winevent_logs_missing_column (self : Analyzer) (df : DataFrame) :
  winevent_df self = Some df →
  nrows df ≠ 0 →
  columns df !! "EventCode" = None ∨ columns df !! "ComputerName" = None →
  ∃ key,
    key ∈ ["EventCode"; "ComputerName"]
    ∧ columns df !! key = None
    ∧ analyze_winevent_logs self = (Raise (KeyError key), self).
Proof.
  intros Hdf Hn Hmiss.
  destruct (columns df !! "EventCode") as [codes|] eqn:Hcodes.
  - destruct Hmiss as [Hc|Hhosts]; [discriminate Hc|]. exists "ComputerName".
    split; [rewrite !elem_of_cons; tauto|]. split; [done|].
    by apply (analyze_winevent_logs_no_hosts self df codes).
  - exists "EventCode". split; [rewrite !elem_of_cons; tauto|]. split; [done|].
    by apply (analyze_winevent_logs_no_codes self df).
Qed.

Lemma analyze_winevent_logs_missing_column_witness :
  ∃ key,
    key ∈ ["EventCode"; "ComputerName"]
    ∧ columns hostless_batch !! key = None
    ∧ analyze_winevent_logs (with_winevent hostless_batch)
      = (Raise (KeyError key), with_winevent hostless_batch).
Proof.
  apply (analyze_winevent_logs_missing_column (with_winevent hostless_batch)
           hostless_batch).
  - reflexivity.
  - discriminate.
  - right. reflexivity.
Defined.

Lemma count_of_not_key (vc : list (cell * nat)) (w : cell) :
  w ∉ vc.*1 → count_of w vc = None.
Proof.
  induction vc as [|[u n] vc IH]; [done|].
  rewrite fmap_cons, not_elem_of_cons. intros [Hne Hnin]. cbn [count_of fst].
  rewrite decide_False by done. by apply IH.
Qed.

Lemma winevent_result_lookup (float : bool) (vc : list (cell * nat))
    (id : cell) (info : EventInfo) :
  NoDup vc.*1 →
  (∀ id, id ∈ vc.*1 → is_Some (catalog_get id)) →
  catalog_get id = Some info →
  winevent_result float vc !! event_name float id info = count_of id vc.
Proof.
  intros Hnd Hcat Hinfo. unfold winevent_result.
  match goal with |- context [foldl ?f _ _] => set (F := f) end.
  enough (∀ acc : gmap string nat,
            foldl F acc vc !! event_name float id info
            = match count_of id vc with
              | Some n => Some n
              | None => acc !! event_name float id info
              end) as Hgen.
  { rewrite Hgen, lookup_empty. by destruct (count_of id vc). }
  induction vc as [|[id0 n0] vc IH]; intros acc; [done|].
  rewrite fmap_cons in Hnd, Hcat. cbn [fst] in *.
  apply NoDup_cons in Hnd as [Hid0 Hnd].
  destruct (Hcat id0) as [info0 Hinfo0]; [apply elem_of_cons; by left|].
  cbn [foldl count_of]. unfold F at 2. rewrite Hinfo0. fold F.
  rewrite IH; [| done | intros; apply Hcat, elem_of_cons; by right].
  destruct (decide (id = id0)) as [->|Hne].
  - rewrite count_of_not_key by done. simplify_eq. apply lookup_insert_eq.
  - destruct (count_of id vc); [done|]. apply lookup_insert_ne.
    intros Hname. apply (event_name_inj _ _ _ _ _ Hinfo0 Hinfo) in Hname. by subst.
Qed.

Lemma winevent_result_entry (float : bool) (vc : list (cell * nat))
    (label : string) (n : nat) :
  winevent_result float vc !! label = Some n →
  ∃ id info, (id, n) ∈ vc ∧ catalog_get id = Some info
             ∧ label = event_name float id info.
Proof.
  unfold winevent_result.
  match goal with |- context [foldl ?f _ _] => set (F := f) end.
  enough (∀ acc : gmap string nat,
            foldl F acc vc !! label = Some n →
            acc !! label = Some n
            ∨ ∃ id info, (id, n) ∈ vc ∧ catalog_get id = Some info
                         ∧ label = event_name float id info) as Hgen.
  { intros Hlook. apply Hgen in Hlook as [Hempty|?]; [|done].
    by rewrite lookup_empty in Hempty. }
  induction vc as [|[id0 n0] vc IH]; intros acc Hlook; [by left|].
  cbn [foldl] in Hlook. apply IH in Hlook as [Hacc|(id & info & Hin & Hinfo & ->)].
  - unfold F in Hacc. destruct (catalog_get id0) as [info0|] eqn:Hinfo0; [|by left].
    apply lookup_insert_Some in Hacc as [[<- <-]|[_ Hacc]]; [|by left].
    right. exists id0, info0. split; [apply elem_of_cons; by left | done].
  - right. exists id, info. split; [apply elem_of_cons; by right | done].
Qed.

Lemma occurrences_filter (P : cell → Prop) `{∀ c, Decision (P c)} (v : cell) (col : list cell) :
  P v → occurrences v (filter P col) = occurrences v col.
Proof.
  intros Hv. unfold occurrences. induction col as [|c col IH]; [done|].
  rewrite !filter_cons. destruct (decide (c = v)) as [->|Hne].
  - rewrite decide_True by done. rewrite filter_cons_True by done. simpl. by rewrite IH.
  - destruct (decide (P c)); [rewrite filter_cons_False by done|]; done.
Qed.

Lemma winevent_result_counts (codes : list cell) (label : string) (n : nat) :
  winevent_result (float_dtype codes) (value_counts (suspicious_codes codes)) !! label = Some n
  ↔ ∃ z info, (z, info) ∈ catalog_entries
              ∧ label = event_name (float_dtype codes) (CInt z) info
              ∧ n = occurrences (CInt z) codes ∧ 0 < n.
Proof.
  split.
  - intros Hlook. apply winevent_result_entry in Hlook as (id & info & Hin & Hinfo & ->).
    apply elem_of_value_counts in Hin as (_ & Hin & ->).
    destruct (catalog_get_entry _ _ Hinfo) as (z & -> & Hentry).
    exists z, info. split; [done|]. split; [done|].
    pose proof Hin as Hpos. apply occurrences_pos in Hpos.
    apply list_elem_of_filter in Hin as [Hcat _].
    unfold suspicious_codes in *. rewrite occurrences_filter in * by done. done.
  - intros (z & info & Hentry & -> & -> & Hpos).
    assert (catalog_get (CInt z) = Some info) as Hinfo
      by (apply elem_of_list_to_map_1; [apply catalog_keys_NoDup | done]).
    rewrite (winevent_result_lookup _ _ _ info)
      by (apply value_counts_NoDup || apply suspicious_counts_in_catalog || done).
    rewrite count_of_value_counts. unfold counted, suspicious_codes. cbn [isna].
    rewrite occurrences_filter
      by (unfold in_catalog; apply bool_decide_eq_true; by rewrite Hinfo).
    destruct (occurrences (CInt z) codes); [lia | done].
Qed.

(** X9. On a batch with both columns that is not empty, the mapping
    returned by [analyze_winevent_logs] has one entry per identifier of the
    table that occurs in the batch, under the label "[id] name", and its
    count is the number of records with that identifier; it has no other
    entry. *)
Theorem winevent_result_counts_records
    (self : Analyzer) (df : DataFrame) (codes hosts : list cell) :
  winevent_df self = Some df →
  nrows df ≠ 0 →
  columns df !! "EventCode" = Some codes →
  columns df !! "ComputerName" = Some hosts →
  ∃ result,
    (analyze_winevent_logs self).1 = Ok result
    ∧ ∀ label n,
        result !! label = Some n ↔
        ∃ z info, (z, info) ∈ catalog_entries
                  ∧ label = event_name (float_dtype codes) (CInt z) info
                  ∧ n = occurrences (CInt z) codes ∧ 0 < n.
Proof.
  intros Hdf Hn Hcodes Hhosts.
  exists (winevent_result (float_dtype codes) (value_counts (suspicious_codes codes))).
  rewrite (analyze_winevent_logs_run self df codes hosts) by done.
  split; [done|]. intros label n. apply winevent_result_counts.
Qed.

Lemma winevent_result_counts_records_witness :
  ∃ result,
    (analyze_winevent_logs (with_winevent mixed_batch)).1 = Ok result
    ∧ ∀ label n,
        result !! label = Some n ↔
        ∃ z info, (z, info) ∈ catalog_entries
                  ∧ label = event_name false (CInt z) info
                  ∧ n = occurrences (CInt z)
                          [CInt 4624; CInt 4625; CInt 4624; CInt 1; CInt 4634; CInt 7045]
                  ∧ 0 < n.
Proof.
  apply (winevent_result_counts_records (with_winevent mixed_batch) mixed_batch
           [CInt 4624; CInt 4625; CInt 4624; CInt 1; CInt 4634; CInt 7045]
           [CStr "a"; CStr "b"; CStr "a"; CStr "c"; CStr "a"; CStr "b"]).
  - reflexivity.
  - discriminate.
  - reflexivity.
  - reflexivity.
Defined.

Lemma tier_risk_add (r r' : risk) (n : nat) (rl : RiskLevels) :
  tier r (risk_add r' n rl) = tier r rl + (if decide (r' = r) then n else 0).
Proof. destruct r, r'; simpl; lia. Qed.

Lemma risk_levels_of_tier (r : risk) (vc : list (cell * nat)) :
  tier r (risk_levels_of vc) = sum_where (λ c, risk_of_cell c = Some r) vc.
Proof.
  unfold risk_levels_of, sum_where.
  enough (∀ rl, tier r (foldl (λ rl p, match catalog_get p.1 with
                                       | Some info => risk_add (risk_of info) p.2 rl
                                       | None => rl
                                       end) rl vc)
                = tier r rl
                  + sum_list (filter (λ p, risk_of_cell p.1 = Some r) vc).*2) as Hgen
    by (rewrite Hgen; destruct r; done).
  induction vc as [|[id n] vc IH]; intros rl; [simpl; lia|].
  cbn [foldl fst snd]. rewrite IH, filter_cons. cbn [fst].
  destruct (catalog_get id) as [info|] eqn:Hinfo.
  - assert (risk_of_cell id = Some (risk_of info)) as Hrisk
      by (unfold risk_of_cell; by rewrite Hinfo).
    rewrite tier_risk_add, Hrisk.
    destruct (decide (risk_of info = r)) as [Heq|Hne].
    + rewrite decide_True by congruence. rewrite fmap_cons. simpl. lia.
    + rewrite decide_False by congruence. lia.
  - assert (risk_of_cell id = None) as Hrisk
      by (unfold risk_of_cell; by rewrite Hinfo).
    rewrite Hrisk, decide_False by done. done.
Qed.

Lemma sum_where_bump (P : cell → Prop) `{∀ c, Decision (P c)} (v : cell)
    (acc : list (cell * nat)) :
  sum_where P (bump v acc) = sum_where P acc + (if decide (P v) then 1 else 0).
Proof.
  unfold sum_where. induction acc as [|[u n] acc IH].
  - cbn [bump]. rewrite filter_cons. cbn [fst].
    destruct (decide (P v)); simpl; lia.
  - cbn [bump]. destruct (decide (v = u)) as [->|Hne].
    + rewrite !filter_cons. cbn [fst].
      destruct (decide (P u)); rewrite ?fmap_cons; simpl; lia.
    + rewrite !filter_cons. cbn [fst].
      destruct (decide (P u)); rewrite ?fmap_cons; simpl; rewrite IH; lia.
Qed.

Lemma sum_where_value_counts (P : cell → Prop) `{∀ c, Decision (P c)} (col : list cell) :
  sum_where P (value_counts col) = length (filter (λ c, P c ∧ isna c = false) col).
Proof.
  unfold value_counts.
  enough (∀ acc, sum_where P (foldl count_step acc col)
                 = sum_where P acc + length (filter (λ c, P c ∧ isna c = false) col))
    as Hgen by (by rewrite Hgen).
  induction col as [|v col IH]; intros acc; [simpl; lia|].
  cbn [foldl]. rewrite IH, filter_cons. unfold count_step.
  destruct (isna v) eqn:Hv.
  - rewrite decide_False by (intros [_ ?]; done). done.
  - rewrite sum_where_bump. destruct (decide (P v)).
    + rewrite decide_True by done. simpl. lia.
    + rewrite decide_False by (intros [? _]; done). lia.
Qed.

Lemma risk_of_cell_suspicious (c : cell) (r : risk) :
  risk_of_cell c = Some r → in_catalog c = true ∧ isna c = false.
Proof.
  unfold risk_of_cell, in_catalog. intros Hr.
  destruct (catalog_get c) as [info|] eqn:Hinfo; [|done].
  split; [apply bool_decide_eq_true; eauto|].
  by destruct c.
Qed.

(** X10. On a batch with both columns, each risk level computed by
    [analyze_winevent_logs] is the number of records whose identifier has
    that risk in the table. *)
Theorem risk_levels_count_records
    (self : Analyzer) (df : DataFrame) (codes hosts : list cell) :
  columns df !! "EventCode" = Some codes →
  columns df !! "ComputerName" = Some hosts →
  ∃ result risk_levels,
    winevent_tally df self = (Ok (result, risk_levels), self)
    ∧ ∀ r, tier r risk_levels
           = length (filter (λ c, risk_of_cell c = Some r) codes).
Proof.
  intros Hcodes Hhosts.
  exists (winevent_result (float_dtype codes) (value_counts (suspicious_codes codes))),
         (risk_levels_of (value_counts (suspicious_codes codes))).
  split; [by apply (winevent_tally_run df codes hosts)|]. intros r.
  rewrite risk_levels_of_tier, sum_where_value_counts. unfold suspicious_codes.
  rewrite list_filter_filter. f_equal. apply list_filter_iff. intros c. split.
  - tauto.
  - intros Hr. destruct (risk_of_cell_suspicious _ _ Hr). tauto.
Qed.

Lemma risk_levels_count_records_witness :
  ∃ result risk_levels,
    winevent_tally mixed_batch (with_winevent mixed_batch)
    = (Ok (result, risk_levels), with_winevent mixed_batch)
    ∧ ∀ r, tier r risk_levels
           = length (filter (λ c, risk_of_cell c = Some r)
                       [CInt 4624; CInt 4625; CInt 4624; CInt 1; CInt 4634; CInt 7045]).
Proof.
  apply (risk_levels_count_records (with_winevent mixed_batch) mixed_batch
           [CInt 4624; CInt 4625; CInt 4624; CInt 1; CInt 4634; CInt 7045]
           [CStr "a"; CStr "b"; CStr "a"; CStr "c"; CStr "a"; CStr "b"]);
    reflexivity.
Defined.

Lemma analyze_winevent_logs_effects (self : Analyzer) :
  let self' := (analyze_winevent_logs self).2 in
  winevent_df self' = winevent_df self
  ∧ dns_df self' = dns_df self
  ∧ (∀ source, source ≠ "WinEvent" →
       suspicious_events self' !! source = suspicious_events self !! source)
  ∧ match (analyze_winevent_logs self).1 with
    | Ok result =>
        suspicious_events self' !! "WinEvent" = Some result
        ∨ (result = ∅ ∧ self' = self
           ∧ (winevent_df self = None
              ∨ ∃ df, winevent_df self = Some df ∧ nrows df = 0))
    | Raise e => self' = self ∧ ∃ key, e = KeyError key
    end.
Proof.
  cbv zeta. destruct (winevent_df self) as [df|] eqn:Hdf.
  - destruct (decide (nrows df = 0)) as [Hz|Hnz].
    + rewrite analyze_winevent_logs_nothing by eauto. cbn [fst snd]. eauto 10.
    + destruct (columns df !! "EventCode") as [codes|] eqn:Hcodes.
      * destruct (columns df !! "ComputerName") as [hosts|] eqn:Hhosts.
        -- rewrite (analyze_winevent_logs_run self df codes hosts) by done.
           cbn [fst snd winevent_df dns_df suspicious_events].
           split; [done|]. split; [done|]. split; [intros; by rewrite lookup_insert_ne|].
           left. apply lookup_insert_eq.
        -- rewrite (analyze_winevent_logs_no_hosts self df codes) by done.
           cbn [fst snd]. eauto 10.
      * rewrite (analyze_winevent_logs_no_codes self df) by done.
        cbn [fst snd]. eauto 10.
  - rewrite analyze_winevent_logs_nothing by eauto. cbn [fst snd]. eauto 10.
Qed.

(** X11. [analyze_winevent_logs] changes neither batch nor the findings of
    another source.  When it returns a mapping, either that mapping is what
    is now stored under "WinEvent", or there was nothing to analyse: the
    mapping is empty and the state is as before.  The only exception it
    raises is [KeyError], and the state is then as before. *)
Theorem analyze_winevent_logs_stores_what_it_returns (self : Analyzer) :
  let self' := (analyze_winevent_logs self).2 in
  winevent_df self' = winevent_df self
  ∧ dns_df self' = dns_df self
  ∧ (∀ source, source ≠ "WinEvent" →
       suspicious_events self' !! source = suspicious_events self !! source)
  ∧ match (analyze_winevent_logs self).1 with
    | Ok result =>
        suspicious_events self' !! "WinEvent" = Some result
        ∨ (result = ∅ ∧ self' = self
           ∧ (winevent_df self = None
              ∨ ∃ df, winevent_df self = Some df ∧ nrows df = 0))
    | Raise e => self' = self ∧ ∃ key, e = KeyError key
    end.
Proof. exact (analyze_winevent_logs_effects self). Qed.

(** ** The frame built from the records *)

Lemma elem_of_record_keys (records : list (gmap string cell)) (key : string) :
  key ∈ record_keys records ↔ ∃ r, r ∈ records ∧ is_Some (r !! key).
Proof.
  unfold record_keys. rewrite elem_of_union_list. split.
  - intros (X & HX & Hkey). apply list_elem_of_fmap in HX as (r & -> & Hr).
    exists r. split; [done|]. by apply elem_of_dom.
  - intros (r & Hr & Hkey). exists (dom r). split; [by apply list_elem_of_fmap_2|].
    by apply elem_of_dom.
Qed.

Lemma frame_of_records_lookup (records : list (gmap string cell)) (key : string)
    (col : list cell) :
  columns (frame_of_records records) !! key = Some col
  ↔ key ∈ record_keys records ∧ col = column_of records key.
Proof.
  unfold frame_of_records. cbn [columns].
  rewrite lookup_set_to_map by (intros ?? _ _ Heq; exact Heq). split.
  - intros (k & Hk & [= -> <-]). done.
  - intros [Hk ->]. by exists key.
Qed.

Lemma frame_of_records_wf (records : list (gmap string cell)) :
  wf_frame (frame_of_records records).
Proof.
  intros key col Hcol. apply frame_of_records_lookup in Hcol as [_ ->].
  unfold column_of. by rewrite length_fmap.
Qed.

Lemma length_results_of (data : list (gmap string (gmap string cell))) :
  length (results_of data)
  = length (filter (λ item : gmap string (gmap string cell), is_Some (item !! "result")) data).
Proof.
  unfold results_of. induction data as [|item data IH]; [done|].
  rewrite filter_cons. cbn [omap list_omap].
  destruct (item !! "result") as [r|] eqn:Hr.
  - rewrite decide_True by eauto. simpl. by rewrite IH.
  - rewrite decide_False by (by intros [??]). done.
Qed.

Lemma elem_of_results_of (data : list (gmap string (gmap string cell))) (r : gmap string cell) :
  r ∈ results_of data ↔ ∃ item, item ∈ data ∧ item !! "result" = Some r.
Proof. unfold results_of. apply list_elem_of_omap. Qed.

(** ** The loaders *)

Section PipelineFacts.
Variable rng : Type.
Variable seed : Z → rng.
Variable draw_choice : list cell → nat → option (list Q) → rng → list cell * rng.
Variable draw_randint : Z → Z → rng → Z * rng.
Variable path_exists : string → bool.
Variable read_json : string → outcome DataFrame.
Variable read_csv : string → outcome DataFrame.
Variable read_events : string → outcome (list (gmap string (gmap string cell))).
Variable to_numeric : list cell → outcome (list cell).
Variable to_datetime : list cell → outcome (list cell).
Variable hours_of : list cell → outcome (list cell).
Variable render : gmap string (gmap string nat) → list Finding → outcome unit.
Variable to_csv : list Finding → outcome unit.

(** X12. [load_dns_data] ends in one of two ways: it installs the frame
    read from an existing file whose name ends in ".json" or ".csv" and
    leaves the rest of the state as it is, or it raises the [ValueError] of
    the generator and leaves the whole state as it is.  It never installs a
    synthetic batch. *)
Theorem load_dns_data_outcomes (dns_file_path : string) (self : Analyzer) :
  let run := load_dns_data rng seed draw_choice draw_randint path_exists read_json
               read_csv dns_file_path self in
  run = (Raise (ValueError "probabilities do not sum to 1"), self)
  ∨ ∃ df,
      run = (Ok (), {| winevent_df := winevent_df self; dns_df := Some df;
                       suspicious_events := suspicious_events self |})
      ∧ path_exists dns_file_path = true
      ∧ (endswith dns_file_path ".json" = true ∧ read_json dns_file_path = Ok df
         ∨ endswith dns_file_path ".json" = false
           ∧ endswith dns_file_path ".csv" = true ∧ read_csv dns_file_path = Ok df).
Proof.
  cbv zeta. unfold load_dns_data. run.
  destruct (path_exists dns_file_path); cbn [negb];
    [|left; by rewrite !create_sample_raises].
  destruct (endswith dns_file_path ".json").
  { destruct (read_json dns_file_path) as [df|e]; run;
      [right; exists df; tauto | left; by rewrite create_sample_raises]. }
  destruct (endswith dns_file_path ".csv").
  { destruct (read_csv dns_file_path) as [df|e]; run;
      [right; exists df; tauto | left; by rewrite create_sample_raises]. }
  left. by rewrite !create_sample_raises.
Qed.

(** What [load_winevent_data] does, case by case. *)
Lemma load_winevent_data_cases (json_file_path : string) (self : Analyzer) :
  let load := load_winevent_data read_events to_numeric to_datetime json_file_path self in
  match read_events json_file_path with
  | Raise e => load = (Ok false, self)
  | Ok data =>
      let frame := frame_of_records (results_of data) in
      match columns frame !! "EventCode" with
      | Some codes =>
          match to_numeric codes with
          | Raise e => load = (Ok false, with_winevent_df frame self)
          | Ok codes' =>
              let frame' := set_column "EventCode" codes' frame in
              match columns frame !! "_time" with
              | Some times =>
                  match to_datetime times with
                  | Raise e => load = (Ok false, with_winevent_df frame' self)
                  | Ok times' =>
                      load = (Ok true,
                              with_winevent_df (set_column "_time" times' frame') self)
                  end
              | None => load = (Ok true, with_winevent_df frame' self)
              end
          end
      | None =>
          match columns frame !! "_time" with
          | Some times =>
              match to_datetime times with
              | Raise e => load = (Ok false, with_winevent_df frame self)
              | Ok times' =>
                  load = (Ok true, with_winevent_df (set_column "_time" times' frame) self)
              end
          | None => load = (Ok true, with_winevent_df frame self)
          end
      end
  end.
Proof.
  cbv zeta. unfold load_winevent_data, convert_column, with_winevent_df. run.
  destruct (read_events json_file_path) as [data|e]; run; [|done].
  fold (results_of data).
  destruct (columns (frame_of_records (results_of data)) !! "EventCode") as [codes|]
    eqn:Hcodes; run.
  - destruct (to_numeric codes) as [codes'|e]; run; [|done].
    rewrite lookup_insert_ne by done.
    destruct (columns (frame_of_records (results_of data)) !! "_time") as [times|]; run;
      [|done].
    destruct (to_datetime times) as [times'|e]; run; done.
  - destruct (columns (frame_of_records (results_of data)) !! "_time") as [times|]; run;
      [|done].
    destruct (to_datetime times) as [times'|e]; run; done.
Qed.

Lemma load_winevent_data_effects (json_file_path : string) (self : Analyzer) :
  let load := load_winevent_data read_events to_numeric to_datetime json_file_path self in
  (∃ loaded, load.1 = Ok loaded)
  ∧ dns_df load.2 = dns_df self
  ∧ suspicious_events load.2 = suspicious_events self
  ∧ ∀ e, read_events json_file_path = Raise e → load = (Ok false, self).
Proof.
  cbv zeta. pose proof (load_winevent_data_cases json_file_path self) as Hcases.
  cbv zeta in Hcases.
  destruct (read_events json_file_path) as [data|e0]; [|rewrite Hcases; eauto 10].
  repeat match type of Hcases with
         | match ?x with _ => _ end => destruct x
         end; rewrite Hcases; cbn [fst snd with_winevent_df dns_df suspicious_events];
    (split; [eauto|]); (split; [done|]); (split; [done|]); intros; discriminate.
Qed.

(** X13. No exception escapes [load_winevent_data]: it returns a boolean.  It
    never changes the DNS batch nor the stored findings, and when the file
    cannot be read it returns [False] and leaves the whole state as it
    is. *)
Theorem load_winevent_data_never_raises (json_file_path : string) (self : Analyzer) :
  let load := load_winevent_data read_events to_numeric to_datetime json_file_path self in
  (∃ loaded, load.1 = Ok loaded)
  ∧ dns_df load.2 = dns_df self
  ∧ suspicious_events load.2 = suspicious_events self
  ∧ ∀ e, read_events json_file_path = Raise e → load = (Ok false, self).
Proof. exact (load_winevent_data_effects json_file_path self). Qed.

(** X14. When the file is read and both conversions succeed,
    [load_winevent_data] returns [True] and installs a batch with one
    record per item that has the key [result] (the other items are
    dropped), with one column per key of these records, and whose columns
    other than [EventCode] and [_time] hold the values of the records, NaN
    where a record has not the key. *)
Theorem load_winevent_data_builds_the_batch
    (json_file_path : string) (self : Analyzer)
    (data : list (gmap string (gmap string cell))) :
  read_events json_file_path = Ok data →
  (∀ col, ∃ col', to_numeric col = Ok col') →
  (∀ col, ∃ col', to_datetime col = Ok col') →
  ∃ df,
    load_winevent_data read_events to_numeric to_datetime json_file_path self
    = (Ok true, with_winevent_df df self)
    ∧ nrows df
      = length (filter (λ item : gmap string (gmap string cell),
                          is_Some (item !! "result")) data)
    ∧ (∀ name, is_Some (columns df !! name) ↔
               ∃ item r, item ∈ data ∧ item !! "result" = Some r ∧ is_Some (r !! name))
    ∧ (∀ name col, name ≠ "EventCode" → name ≠ "_time" →
                   columns df !! name = Some col →
                   col = column_of (results_of data) name).
Proof.
  intros Hread Hnum Hdate.
  pose proof (load_winevent_data_cases json_file_path self) as Hcases.
  cbv zeta in Hcases. rewrite Hread in Hcases.
  set (frame := frame_of_records (results_of data)) in *.
  assert (∀ name, is_Some (columns frame !! name) ↔
                  ∃ item r, item ∈ data ∧ item !! "result" = Some r ∧ is_Some (r !! name))
    as Hkeys.
  { intros name. split.
    - intros [col Hcol]. apply frame_of_records_lookup in Hcol as [Hkey _].
      apply elem_of_record_keys in Hkey as (r & Hr & Hname).
      apply elem_of_results_of in Hr as (item & Hitem & Hres). eauto.
    - intros (item & r & Hitem & Hres & Hname). eexists.
      apply frame_of_records_lookup. split; [|done].
      apply elem_of_record_keys. exists r. split; [|done].
      apply elem_of_results_of. eauto. }
  assert (∀ name col, columns frame !! name = Some col →
                      col = column_of (results_of data) name) as Hvals.
  { intros name col Hcol. by apply frame_of_records_lookup in Hcol as [_ ->]. }
  assert (nrows frame = length (filter (λ item : gmap string (gmap string cell),
                                          is_Some (item !! "result")) data)) as Hrows
    by apply length_results_of.
  assert (∀ (name : string) col (df : DataFrame) k,
            is_Some (columns df !! name) →
            is_Some (columns (set_column name col df) !! k) ↔ is_Some (columns df !! k))
    as Hset.
  { intros name col df k Hname. unfold set_column. cbn [columns].
    destruct (decide (name = k)) as [->|]; [rewrite lookup_insert_eq | by rewrite lookup_insert_ne].
    split; eauto. }
  destruct (columns frame !! "EventCode") as [codes|] eqn:Hcodes.
  - destruct (Hnum codes) as [codes' Hc]. rewrite Hc in Hcases.
    destruct (columns frame !! "_time") as [times|] eqn:Htimes.
    + destruct (Hdate times) as [times' Ht]. rewrite Ht in Hcases.
      eexists. split; [exact Hcases|]. split; [done|]. split.
      * intros name. rewrite <- Hkeys, !Hset; [done| by rewrite Hcodes |].
        unfold set_column. cbn [columns]. rewrite lookup_insert_ne by done. by rewrite Htimes.
      * intros name col H1 H2. unfold set_column. cbn [columns].
        rewrite !lookup_insert_ne by done. apply Hvals.
    + eexists. split; [exact Hcases|]. split; [done|]. split.
      * intros name. rewrite <- Hkeys, Hset; [done | by rewrite Hcodes].
      * intros name col H1 H2. unfold set_column. cbn [columns].
        rewrite !lookup_insert_ne by done. apply Hvals.
  - destruct (columns frame !! "_time") as [times|] eqn:Htimes.
    + destruct (Hdate times) as [times' Ht]. rewrite Ht in Hcases.
      eexists. split; [exact Hcases|]. split; [done|]. split.
      * intros name. rewrite <- Hkeys, Hset; [done | by rewrite Htimes].
      * intros name col H1 H2. unfold set_column. cbn [columns].
        rewrite !lookup_insert_ne by done. apply Hvals.
    + eexists. split; [exact Hcases|]. split; [done|]. split; [done|].
      intros name col _ _. apply Hvals.
Qed.

(** X15. When the file is read but the conversion of [EventCode] raises,
    [load_winevent_data] returns [False] although it has already replaced
    the stored batch by the new one, unconverted. *)
Theorem load_winevent_data_failed_conversion
    (json_file_path : string) (self : Analyzer)
    (data : list (gmap string (gmap string cell))) (codes : list cell) (e : exn) :
  read_events json_file_path = Ok data →
  columns (frame_of_records (results_of data)) !! "EventCode" = Some codes →
  to_numeric codes = Raise e →
  load_winevent_data read_events to_numeric to_datetime json_file_path self
  = (Ok false, with_winevent_df (frame_of_records (results_of data)) self).
Proof.
  intros Hread Hcodes Hnum.
  pose proof (load_winevent_data_cases json_file_path self) as Hcases.
  cbv zeta in Hcases. by rewrite Hread, Hcodes, Hnum in Hcases.
Qed.

(** ** The ranking and the report *)

Lemma nlargest_spec (n : nat) (rows : list Finding) :
  (length (nlargest n rows) ≤ n)%nat
  ∧ StronglySorted count_ge (nlargest n rows)
  ∧ nlargest n rows ⊆+ rows
  ∧ (∀ f g, f ∈ rows → f ∉ nlargest n rows → g ∈ nlargest n rows →
            (Count f ≤ Count g)%nat)
  ∧ ((length rows ≤ n)%nat → nlargest n rows ≡ₚ rows).
Proof.
  unfold nlargest.
  pose proof (merge_sort_Permutation count_ge rows) as Hperm.
  pose proof (StronglySorted_merge_sort count_ge rows) as Hsorted.
  rewrite <- (take_drop n (merge_sort count_ge rows)) in Hsorted.
  split; [rewrite length_take; lia|].
  split; [by apply StronglySorted_app_1_l in Hsorted|].
  split; [trans (merge_sort count_ge rows);
            [apply sublist_submseteq, sublist_take | by rewrite Hperm]|].
  split.
  - intros f g Hf Hnot Hg. apply (elem_of_Permutation_proper _ _ _ Hperm) in Hf.
    rewrite <- (take_drop n (merge_sort count_ge rows)), elem_of_app in Hf.
    destruct Hf as [|Hf]; [done|].
    apply (StronglySorted_app_1_elem_of _ _ _ _ _ Hsorted Hg Hf).
  - intros Hlen. rewrite take_ge; [done|]. by rewrite Hperm.
Qed.

(** X16. [visualize_results] never changes the state.  Without any finding
    it returns before it draws anything.  Otherwise the rows it ranks are at
    most ten findings, in descending order of their counts, and no finding
    left out has a larger count than one that is kept; with ten findings or
    less, all are kept.  It raises only when the drawing does. *)
Theorem visualize_results_ranking (self : Analyzer) :
  let rows := all_events (suspicious_events self) in
  let shown := visualize_results render self in
  shown.2 = self
  ∧ (rows = [] → shown.1 = Ok [])
  ∧ match shown.1 with
    | Ok top10 =>
        (length top10 ≤ 10)%nat
        ∧ StronglySorted count_ge top10
        ∧ top10 ⊆+ rows
        ∧ (∀ f g, f ∈ rows → f ∉ top10 → g ∈ top10 → (Count f ≤ Count g)%nat)
        ∧ ((length rows ≤ 10)%nat → top10 ≡ₚ rows)
    | Raise e => ∃ top10, render (suspicious_events self) top10 = Raise e
    end.
Proof.
  cbv zeta. unfold visualize_results. run.
  destruct (all_events (suspicious_events self)) as [|f rows] eqn:Hrows.
  - cbn [fst snd]. split; [done|]. split; [done|].
    split; [simpl; lia|]. split; [constructor|]. split; [done|].
    split; [intros ?? Hf; by apply elem_of_nil in Hf | done].
  - destruct (render (suspicious_events self) (nlargest 10 (f :: rows))) as [[]|e] eqn:Hdraw;
      run; cbn [fst snd]; (split; [done|]); (split; [done|]).
    + apply nlargest_spec.
    + eauto.
Qed.

Lemma dict_sum_map_to_list (events : gmap string nat) :
  dict_sum events = sum_list (map_to_list events).*2.
Proof.
  unfold dict_sum. rewrite map_fold_foldr.
  induction (map_to_list events) as [|[k v] l IH]; [done|].
  rewrite fmap_cons. simpl. by rewrite IH.
Qed.

Lemma source_results_counts (source : string) (events : gmap string nat) :
  sum_list_with Count (source_results source events) = dict_sum events.
Proof.
  rewrite dict_sum_map_to_list. unfold source_results, sorted_events.
  rewrite <- (merge_sort_Permutation item_count_ge (map_to_list events)) at 2.
  induction (merge_sort item_count_ge (map_to_list events)) as [|[k v] l IH]; [done|].
  rewrite !fmap_cons. simpl. by rewrite IH.
Qed.

Lemma elem_of_source_results (source : string) (events : gmap string nat) (f : Finding) :
  f ∈ source_results source events
  ↔ Source f = source ∧ events !! Event f = Some (Count f).
Proof.
  unfold source_results, sorted_events. rewrite list_elem_of_fmap. split.
  - intros ([k v] & -> & Hin). rewrite merge_sort_Permutation in Hin.
    apply elem_of_map_to_list in Hin. done.
  - intros [<- Hlook]. exists (Event f, Count f). split; [by destruct f|].
    rewrite merge_sort_Permutation. by apply elem_of_map_to_list.
Qed.

Lemma source_results_NoDup (source : string) (events : gmap string nat) :
  NoDup (source_results source events).
Proof.
  unfold source_results, sorted_events. apply NoDup_fmap_2.
  - intros [k v] [k' v'] [= -> ->]. done.
  - rewrite merge_sort_Permutation. apply NoDup_map_to_list.
Qed.

Lemma source_results_sorted (source : string) (events : gmap string nat) :
  StronglySorted count_ge (source_results source events).
Proof.
  unfold source_results, sorted_events.
  apply (StronglySorted_fmap _ item_count_ge); [done|].
  apply StronglySorted_merge_sort; apply _.
Qed.

Lemma summarize_unfold (found : gmap string (gmap string nat)) :
  summarize found
  = (sum_list ((λ p, dict_sum p.2) <$> map_to_list found),
     map_to_list found ≫= λ p, source_results p.1 p.2).
Proof.
  unfold summarize.
  enough (∀ l acc,
            foldl (λ (acc : nat * list Finding) (p : string * gmap string nat),
                     (acc.1 + dict_sum p.2, acc.2 ++ source_results p.1 p.2)%list) acc l
            = (acc.1 + sum_list ((λ p, dict_sum p.2) <$> l),
               acc.2 ++ (l ≫= λ p, source_results p.1 p.2))%list) as Hgen
    by (by rewrite Hgen).
  induction l as [|p l IH]; intros [total rows].
  - cbn [foldl fst snd]. rewrite app_nil_r. f_equal. simpl. lia.
  - cbn [foldl]. rewrite IH, bind_cons, fmap_cons. cbn [fst snd].
    rewrite <- app_assoc. f_equal. simpl. lia.
Qed.

Lemma filter_none {A} (P : A → Prop) `{∀ x, Decision (P x)} (l : list A) :
  (∀ x, x ∈ l → ¬ P x) → filter P l = [].
Proof.
  induction l as [|x l IH]; intros Hnone; [done|].
  rewrite filter_cons_False by (apply Hnone, elem_of_cons; by left).
  apply IH. intros y Hy. apply Hnone, elem_of_cons. by right.
Qed.

Lemma filter_source_results (source source' : string) (events : gmap string nat) :
  filter (λ f, Source f = source) (source_results source' events)
  = if decide (source' = source) then source_results source' events else [].
Proof.
  unfold source_results. induction (sorted_events events) as [|[k v] l IH].
  - by destruct (decide (source' = source)).
  - rewrite fmap_cons, filter_cons. cbn [Source]. rewrite IH.
    by destruct (decide (source' = source)).
Qed.

Lemma elem_of_summarize (found : gmap string (gmap string nat)) (f : Finding) :
  f ∈ (summarize found).2 ↔
  ∃ events, found !! Source f = Some events ∧ events !! Event f = Some (Count f).
Proof.
  rewrite summarize_unfold. cbn [snd]. rewrite list_elem_of_bind. split.
  - intros ([source events] & Hf & Hp). apply elem_of_map_to_list in Hp.
    cbn [fst snd] in Hf. apply elem_of_source_results in Hf as [<- Hlook]. eauto.
  - intros (events & Hsrc & Hlook). exists (Source f, events).
    split; [by apply elem_of_source_results | by apply elem_of_map_to_list].
Qed.

Lemma summarize_total (found : gmap string (gmap string nat)) :
  (summarize found).1 = sum_list_with Count (summarize found).2.
Proof.
  rewrite summarize_unfold. cbn [fst snd].
  induction (map_to_list found) as [|p l IH]; [done|].
  rewrite fmap_cons, bind_cons, sum_list_with_app, source_results_counts.
  rewrite <- IH. reflexivity.
Qed.

Lemma summarize_NoDup (found : gmap string (gmap string nat)) :
  NoDup (summarize found).2.
Proof.
  rewrite summarize_unfold. cbn [snd].
  apply NoDup_bind; [| intros; apply source_results_NoDup | apply NoDup_map_to_list].
  intros [s1 e1] [s2 e2] f H1 H2 Hf1 Hf2. cbn [fst snd] in Hf1, Hf2.
  apply elem_of_source_results in Hf1 as [<- _].
  apply elem_of_source_results in Hf2 as [<- _].
  apply elem_of_map_to_list in H1. apply elem_of_map_to_list in H2. congruence.
Qed.

Lemma summarize_sorted (found : gmap string (gmap string nat)) (source : string) :
  StronglySorted count_ge (filter (λ f, Source f = source) (summarize found).2).
Proof.
  rewrite summarize_unfold. cbn [snd].
  pose proof (NoDup_fst_map_to_list found) as Hnd.
  induction (map_to_list found) as [|[s e] l IH]; [constructor|].
  rewrite fmap_cons in Hnd. apply NoDup_cons in Hnd as [Hs Hnd].
  rewrite bind_cons, filter_app. cbn [fst snd].
  rewrite filter_source_results. destruct (decide (s = source)) as [->|Hne].
  - assert (filter (λ f, Source f = source) (l ≫= λ p, source_results p.1 p.2) = [])
      as ->; [|rewrite app_nil_r; apply source_results_sorted].
    apply filter_none. intros f Hf Hsrc.
    apply list_elem_of_bind in Hf as ([s' e'] & Hf & Hp). cbn [fst snd] in Hf.
    apply elem_of_source_results in Hf as [Hs' _]. subst.
    apply Hs. by apply (list_elem_of_fmap_2 fst) in Hp.
  - by apply IH.
Qed.

(** X17. The loop of [print_summary] (lines 442-461) yields one row per
    stored finding and no other row; the grand total is the sum of the
    counts of the rows; the rows of one source are in descending order of
    their counts. *)
Theorem summarize_reports_every_finding (found : gmap string (gmap string nat)) :
  let total_suspicious := (summarize found).1 in
  let all_results := (summarize found).2 in
  NoDup all_results
  ∧ (∀ f, f ∈ all_results ↔
          ∃ events, found !! Source f = Some events ∧ events !! Event f = Some (Count f))
  ∧ total_suspicious = sum_list_with Count all_results
  ∧ ∀ source, StronglySorted count_ge (filter (λ f, Source f = source) all_results).
Proof.
  cbv zeta. split; [apply summarize_NoDup|]. split; [apply elem_of_summarize|].
  split; [apply summarize_total | apply summarize_sorted].
Qed.

Lemma print_hours_run (float : bool) (peak : list (cell * nat)) (self : Analyzer) :
  foldM (λ (_ : unit) (p : cell * nat), format_02d float p.1;; mret ()) () peak self
  = (match head (omap (λ p : cell * nat, format_error float p.1) peak) with
     | Some e => Raise e
     | None => Ok ()
     end, self).
Proof.
  induction peak as [|[hour n] peak IH]; [done|].
  cbn [foldM omap list_omap fst]. run.
  destruct hour as [| |s|h]; cbn [format_02d format_error]; run; try done.
  destruct float; run; [done|]. apply IH.
Qed.

Lemma hour_statistics_run (df : DataFrame) (self : Analyzer) :
  hour_statistics hours_of df self
  = match columns df !! "_time" with
    | Some times =>
        match hours_of times with
        | Ok hours =>
            (match hours_error hours with Some e => Raise e | None => Ok () end,
             with_winevent_df (set_column "hour" hours df) self)
        | Raise e => (Raise e, self)
        end
    | None => (Ok (), self)
    end.
Proof.
  unfold hour_statistics. destruct (columns df !! "_time") as [times|]; [|done].
  run. destruct (hours_of times) as [hours|e]; run; [|done].
  rewrite lookup_insert_eq. run.
  exact (print_hours_run (float_dtype hours) (peak_hours hours) _).
Qed.

(** What [print_summary] does, case by case. *)
Lemma print_summary_cases (self : Analyzer) :
  let report := summarize (suspicious_events self) in
  let written := match report.2 with [] => Ok () | _ => to_csv report.2 end in
  print_summary hours_of to_csv self
  = match written with
    | Raise e => (Raise e, self)
    | Ok _ =>
        match winevent_df self with
        | Some df =>
            if decide (0 < nrows df)%nat then
              match columns df !! "_time" with
              | Some times =>
                  match hours_of times with
                  | Ok hours =>
                      (match hours_error hours with
                       | Some e => Raise e
                       | None => Ok report
                       end, with_winevent_df (set_column "hour" hours df) self)
                  | Raise e => (Raise e, self)
                  end
              | None => (Ok report, self)
              end
            else (Ok report, self)
        | None => (Ok report, self)
        end
    end.
Proof.
  cbv zeta. unfold print_summary. run.
  destruct (summarize (suspicious_events self)) as [total rows]. cbn [fst snd].
  assert (∀ self0 : Analyzer,
            (match winevent_df self0 with
             | Some df => if decide (0 < nrows df)%nat then hour_statistics hours_of df
                          else mret ()
             | None => mret ()
             end ≫= λ _ : unit, mret (total, rows)) self0
            = match winevent_df self0 with
              | Some df =>
                  if decide (0 < nrows df)%nat then
                    match columns df !! "_time" with
                    | Some times =>
                        match hours_of times with
                        | Ok hours =>
                            (match hours_error hours with
                             | Some e => Raise e
                             | None => Ok (total, rows)
                             end, with_winevent_df (set_column "hour" hours df) self0)
                        | Raise e => (Raise e, self0)
                        end
                    | None => (Ok (total, rows), self0)
                    end
                  else (Ok (total, rows), self0)
              | None => (Ok (total, rows), self0)
              end) as Hstats.
  { intros self0. run. destruct (winevent_df self0) as [df|]; [|done].
    destruct (decide (0 < nrows df)%nat); [|done].
    rewrite hour_statistics_run.
    destruct (columns df !! "_time") as [times|]; [|done].
    destruct (hours_of times) as [hours|e]; [|done].
    by destruct (hours_error hours). }
  destruct rows as [|f rows]; run.
  - apply (Hstats self).
  - destruct (to_csv (f :: rows)) as [[]|e]; run; [|done]. apply (Hstats self).
Qed.

Lemma summarize_nil (found : gmap string (gmap string nat)) :
  (summarize found).2 = [] ↔
  ∀ source events, found !! source = Some events → events = ∅.
Proof.
  split.
  - intros Hnil source events Hsrc.
    destruct (decide (events = ∅)) as [|Hne]; [done|]. exfalso.
    apply map_choose in Hne as (event & count & Hlook).
    assert ({| Source := source; Event := event; Count := count |} ∈ (summarize found).2)
      as Hin by (apply elem_of_summarize; eauto).
    rewrite Hnil in Hin. by apply elem_of_nil in Hin.
  - intros Hempty. destruct (summarize found).2 as [|f rows] eqn:Hrows; [done|].
    exfalso. assert (f ∈ (summarize found).2) as Hin by (rewrite Hrows; by left).
    apply elem_of_summarize in Hin as (events & Hsrc & Hlook).
    rewrite (Hempty _ _ Hsrc) in Hlook. by rewrite lookup_empty in Hlook.
Qed.

(** X18. [print_summary] writes the file only when there is a finding:
    without any, and without a WinEvent batch, it returns whatever the
    writer would do.  When the writer raises, [print_summary] raises the
    same exception and leaves the state as it is. *)
Theorem print_summary_writes_only_findings (self : Analyzer) :
  let report := summarize (suspicious_events self) in
  (report.2 = [] ↔
   ∀ source events, suspicious_events self !! source = Some events → events = ∅)
  ∧ (report.2 = [] → winevent_df self = None →
     print_summary hours_of to_csv self = (Ok (0, []), self))
  ∧ (∀ e, report.2 ≠ [] → to_csv report.2 = Raise e →
          print_summary hours_of to_csv self = (Raise e, self)).
Proof.
  cbv zeta. split; [apply summarize_nil|].
  pose proof (print_summary_cases self) as Hcases. cbv zeta in Hcases.
  pose proof (summarize_total (suspicious_events self)) as Htotal.
  destruct (summarize (suspicious_events self)) as [total rows]. cbn [fst snd] in *.
  split.
  - intros -> Hnone. rewrite Hcases, Hnone, Htotal. done.
  - intros e Hne Hcsv. destruct rows as [|f rows]; [done|].
    by rewrite Hcases, Hcsv.
Qed.

Lemma elem_of_peak_hours (hour : list cell) (p : cell * nat) :
  p ∈ peak_hours hour → p ∈ value_counts hour.
Proof.
  unfold peak_hours. intros Hp.
  assert (p ∈ merge_sort entry_count_ge (merge_sort hour_le (value_counts hour))) as Hin
    by (eapply elem_of_sublist; [done | apply sublist_take]).
  by rewrite !merge_sort_Permutation in Hin.
Qed.

Lemma peak_hours_nil (hour : list cell) :
  peak_hours hour = [] → value_counts hour = [].
Proof.
  unfold peak_hours. intros Hnil. apply (f_equal length) in Hnil.
  rewrite length_take in Hnil.
  assert (length (merge_sort entry_count_ge (merge_sort hour_le (value_counts hour)))
          = length (value_counts hour)) as Hlen
    by (by rewrite !merge_sort_Permutation).
  rewrite Hlen in Hnil. destruct (value_counts hour); [done | simpl in Hnil; lia].
Qed.

Lemma float_dtype_false (col : list cell) :
  (∀ c, c ∈ col → isna c = false) → float_dtype col = false.
Proof.
  intros Hall. unfold float_dtype. induction col as [|c col IH]; [done|].
  cbn [existsb]. rewrite (Hall c) by (by left). apply IH.
  intros c' Hc'. apply Hall. by right.
Qed.

Lemma float_dtype_true (col : list cell) (c : cell) :
  c ∈ col → isna c = true → float_dtype col = true.
Proof.
  intros Hin Hna. unfold float_dtype. apply existsb_exists. exists c.
  split; [by apply list_elem_of_In | done].
Qed.

Lemma hours_error_none (hour : list cell) :
  (∀ c, c ∈ hour → ∃ h, c = CInt h) → hours_error hour = None.
Proof.
  intros Hint. unfold hours_error.
  rewrite float_dtype_false by (intros c Hc; by destruct (Hint c Hc) as [h ->]).
  assert (∀ p, p ∈ peak_hours hour → format_error false p.1 = None) as Hnone.
  { intros [c n] Hp. apply elem_of_peak_hours, elem_of_value_counts in Hp as (_ & Hc & _).
    by destruct (Hint c Hc) as [h ->]. }
  induction (peak_hours hour) as [|p peak IH]; [done|].
  cbn [omap list_omap]. rewrite (Hnone p) by (by left).
  apply IH. intros q Hq. apply Hnone. by right.
Qed.

Lemma hours_error_float (hour : list cell) (missing present : cell) :
  (∀ c, c ∈ hour → isna c = true ∨ ∃ h, c = CInt h) →
  missing ∈ hour → isna missing = true →
  present ∈ hour → isna present = false →
  hours_error hour
  = Some (ValueError "Unknown format code 'd' for object of type 'float'").
Proof.
  intros Hcells Hm Hmna Hp Hpna. unfold hours_error.
  rewrite (float_dtype_true hour missing) by done.
  destruct (peak_hours hour) as [|[c n] peak] eqn:Hpeak.
  - apply peak_hours_nil in Hpeak.
    assert ((present, occurrences present hour) ∈ value_counts hour) as Hin
      by (by apply elem_of_value_counts).
    rewrite Hpeak in Hin. by apply elem_of_nil in Hin.
  - assert ((c, n) ∈ peak_hours hour) as Hin by (rewrite Hpeak; by left).
    apply elem_of_peak_hours, elem_of_value_counts in Hin as (Hna & Hc & _).
    destruct (Hcells c Hc) as [Hcna|[h ->]]; [congruence|]. done.
Qed.

(** X19. On a WinEvent batch that is not empty and has the column [_time],
    when the file is written and the hours are extracted without error,
    [print_summary] writes a column [hour] into the stored batch, and
    changes nothing else of the state; when every hour is an integer it
    returns the total and the rows of the report. *)
Theorem print_summary_adds_hour_column
    (self : Analyzer) (df : DataFrame) (times hours : list cell) :
  winevent_df self = Some df →
  nrows df ≠ 0 →
  columns df !! "_time" = Some times →
  hours_of times = Ok hours →
  (summarize (suspicious_events self)).2 = []
  ∨ to_csv (summarize (suspicious_events self)).2 = Ok () →
  let printed := print_summary hours_of to_csv self in
  (∃ df',
     winevent_df printed.2 = Some df'
     ∧ nrows df' = nrows df
     ∧ columns df' !! "hour" = Some hours
     ∧ ∀ name, name ≠ "hour" → columns df' !! name = columns df !! name)
  ∧ dns_df printed.2 = dns_df self
  ∧ suspicious_events printed.2 = suspicious_events self
  ∧ ((∀ c, c ∈ hours → ∃ h, c = CInt h) →
     printed.1 = Ok (summarize (suspicious_events self))).
Proof.
  intros Hdf Hn Htime Hhours Hcsv. cbv zeta.
  pose proof (print_summary_cases self) as Hcases. cbv zeta in Hcases.
  assert (match (summarize (suspicious_events self)).2 with
          | [] => Ok ()
          | _ :: _ => to_csv (summarize (suspicious_events self)).2
          end = Ok ()) as Hwritten.
  { destruct Hcsv as [->|Hcsv]; [done|]. rewrite Hcsv.
    by destruct (summarize (suspicious_events self)).2. }
  rewrite Hwritten, Hdf, Htime, Hhours in Hcases.
  rewrite decide_True in Hcases by lia. rewrite Hcases. cbn [fst snd].
  split; [|split; [done|split; [done|]]].
  - exists (set_column "hour" hours df). unfold set_column. cbn [nrows columns].
    split; [done|]. split; [done|]. split; [apply lookup_insert_eq|].
    intros name Hname. by rewrite lookup_insert_ne.
  - intros Hint. by rewrite hours_error_none.
Qed.

(** X20. When some record of the batch has no hour (its timestamp is
    missing) and some other has one, [print_summary] raises [ValueError] at
    the line that prints the peak hours ([f"{hour:02d}"] on a float), after
    it has written the column [hour] into the stored batch. *)
Theorem print_summary_missing_timestamp
    (self : Analyzer) (df : DataFrame) (times hours : list cell) (missing present : cell) :
  winevent_df self = Some df →
  nrows df ≠ 0 →
  columns df !! "_time" = Some times →
  hours_of times = Ok hours →
  (summarize (suspicious_events self)).2 = []
  ∨ to_csv (summarize (suspicious_events self)).2 = Ok () →
  (∀ c, c ∈ hours → isna c = true ∨ ∃ h, c = CInt h) →
  missing ∈ hours → isna missing = true →
  present ∈ hours → isna present = false →
  print_summary hours_of to_csv self
  = (Raise (ValueError "Unknown format code 'd' for object of type 'float'"),
     with_winevent_df (set_column "hour" hours df) self).
Proof.
  intros Hdf Hn Htime Hhours Hcsv Hcells Hm Hmna Hp Hpna.
  pose proof (print_summary_cases self) as Hcases. cbv zeta in Hcases.
  assert (match (summarize (suspicious_events self)).2 with
          | [] => Ok ()
          | _ :: _ => to_csv (summarize (suspicious_events self)).2
          end = Ok ()) as Hwritten.
  { destruct Hcsv as [->|Hcsv]; [done|]. rewrite Hcsv.
    by destruct (summarize (suspicious_events self)).2. }
  rewrite Hwritten, Hdf, Htime, Hhours in Hcases.
  rewrite decide_True in Hcases by lia.
  by rewrite (hours_error_float hours missing present) in Hcases.
Qed.

(** ** The whole run *)

Lemma stable_ret {A B} (part : Analyzer → B) (a : A) : stable part (mret a).
Proof. by intros self. Qed.

Lemma stable_bind {A A' B} (part : Analyzer → B) (m : M A) (k : A → M A') :
  stable part m → (∀ a, stable part (k a)) → stable part (m ≫= k).
Proof.
  intros Hm Hk self. run. specialize (Hm self).
  destruct (m self) as [[a|e] self'] eqn:Hrun; cbn [snd] in *; [|done].
  by rewrite (Hk a self').
Qed.

Lemma stable_load_winevent_data (json_file_path : string) :
  stable dns_side (load_winevent_data read_events to_numeric to_datetime json_file_path).
Proof.
  intros self. unfold dns_side.
  destruct (load_winevent_data_effects json_file_path self) as (_ & -> & -> & _). done.
Qed.

Lemma stable_analyze_winevent_logs : stable dns_side analyze_winevent_logs.
Proof.
  intros self. unfold dns_side.
  destruct (analyze_winevent_logs_effects self) as (_ & -> & Hother & _).
  by rewrite Hother.
Qed.

Lemma visualize_results_state (self : Analyzer) : (visualize_results render self).2 = self.
Proof.
  unfold visualize_results. run.
  destruct (all_events (suspicious_events self)) as [|f rows]; [done|].
  by destruct (render (suspicious_events self) (nlargest 10 (f :: rows))) as [[]|e].
Qed.

Lemma stable_visualize_results : stable dns_side (visualize_results render).
Proof. intros self. by rewrite visualize_results_state. Qed.

Lemma stable_print_summary : stable dns_side (print_summary hours_of to_csv).
Proof.
  intros self. pose proof (print_summary_cases self) as Hcases. cbv zeta in Hcases.
  rewrite Hcases. clear Hcases.
  repeat match goal with
         | |- context [match ?x with _ => _ end] => destruct x
         end; done.
Qed.

(** X21. Without a DNS file ([None], or the empty string), the run leaves
    the DNS side of the state as it finds it: the DNS batch and the findings
    stored under "DNS" are those of before, whatever else happens. *)
Theorem run_full_analysis_without_dns
    (winevent_file : string) (dns_file : option string) (self : Analyzer) :
  dns_file = None ∨ dns_file = Some "" →
  let final :=
    (run_full_analysis rng seed draw_choice draw_randint path_exists read_json read_csv
       read_events to_numeric to_datetime hours_of render to_csv
       winevent_file dns_file self).2 in
  dns_df final = dns_df self
  ∧ suspicious_events final !! "DNS" = suspicious_events self !! "DNS".
Proof.
  intros Hdns. cbv zeta.
  enough (stable dns_side
            (run_full_analysis rng seed draw_choice draw_randint path_exists read_json
               read_csv read_events to_numeric to_datetime hours_of render to_csv
               winevent_file dns_file)) as Hstable.
  { specialize (Hstable self). unfold dns_side in Hstable. by simplify_eq. }
  unfold run_full_analysis.
  apply stable_bind; [apply stable_load_winevent_data|]. intros loaded.
  apply stable_bind.
  { destruct loaded; [|apply stable_ret].
    apply stable_bind; [apply stable_analyze_winevent_logs | intros; apply stable_ret]. }
  intros _. apply stable_bind.
  { destruct Hdns as [->| ->]; [apply stable_ret|].
    rewrite decide_True by done. apply stable_ret. }
  intros _. apply stable_bind; [apply stable_visualize_results|].
  intros _. apply stable_bind; [apply stable_print_summary|].
  intros _. apply stable_ret.
Qed.

(** X22. With a DNS file that does not exist, the run never completes: it
    raises the [ValueError] of the generator (or, before that, a [KeyError]
    of the WinEvent analysis); the figure and the report are not reached. *)
Theorem run_full_analysis_missing_dns_file
    (winevent_file file : string) (self : Analyzer) :
  file ≠ "" →
  path_exists file = false →
  ∃ e,
    (run_full_analysis rng seed draw_choice draw_randint path_exists read_json read_csv
       read_events to_numeric to_datetime hours_of render to_csv
       winevent_file (Some file) self).1 = Raise e
    ∧ (e = ValueError "probabilities do not sum to 1" ∨ ∃ key, e = KeyError key).
Proof.
  intros Hfile Hexists. unfold run_full_analysis. run.
  destruct (load_winevent_data_effects winevent_file self) as ([loaded Hload] & _).
  destruct (load_winevent_data read_events to_numeric to_datetime winevent_file self)
    as [[loaded'|e] self1]; cbn [fst] in Hload; [|done].
  rewrite decide_False by done.
  assert (∀ self0 : Analyzer,
            load_dns_data rng seed draw_choice draw_randint path_exists read_json
              read_csv file self0
            = (Raise (ValueError "probabilities do not sum to 1"), self0)) as Hdns.
  { intros self0. unfold load_dns_data. run. rewrite Hexists. cbn [negb].
    by rewrite !create_sample_raises. }
  destruct loaded'; run.
  - pose proof (analyze_winevent_logs_effects self1) as (_ & _ & _ & Hout).
    destruct (analyze_winevent_logs self1) as [[result|e] self2]; cbn [fst snd] in *; run.
    + rewrite Hdns. eauto.
    + destruct Hout as [_ [key ->]]. eauto.
  - rewrite Hdns. eauto.
Qed.

Lemma all_events_nil (found : gmap string (gmap string nat)) :
  (∀ source events, found !! source = Some events → events = ∅) →
  all_events found = [].
Proof.
  intros Hempty. unfold all_events.
  assert (∀ p, p ∈ map_to_list found → p.2 = ∅) as Hall
    by (intros [s e] Hp; apply elem_of_map_to_list in Hp; by apply (Hempty s)).
  induction (map_to_list found) as [|p l IH]; [done|].
  rewrite bind_cons, (Hall p) by (by left). rewrite map_to_list_empty. cbn [fmap list_fmap app].
  apply IH. intros q Hq. apply Hall. by right.
Qed.

(** X23. When the WinEvent file cannot be read and no DNS file is given,
    a run that starts without a WinEvent batch and without findings
    completes and leaves the state as it is: nothing is drawn and nothing is
    written, whatever the drawing and the writer would do. *)
Theorem run_full_analysis_nothing_loaded
    (winevent_file : string) (dns_file : option string) (self : Analyzer) (e : exn) :
  read_events winevent_file = Raise e →
  dns_file = None ∨ dns_file = Some "" →
  winevent_df self = None →
  (∀ source events, suspicious_events self !! source = Some events → events = ∅) →
  run_full_analysis rng seed draw_choice draw_randint path_exists read_json read_csv
    read_events to_numeric to_datetime hours_of render to_csv
    winevent_file dns_file self
  = (Ok (), self).
Proof.
  intros Hread Hdns Hnone Hempty.
  destruct (load_winevent_data_effects winevent_file self) as (_ & _ & _ & Hfail).
  assert (visualize_results render self = (Ok [], self)) as Hshown.
  { unfold visualize_results. run. by rewrite all_events_nil. }
  pose proof (print_summary_cases self) as Hcases. cbv zeta in Hcases.
  apply summarize_nil in Hempty. rewrite Hempty, Hnone in Hcases.
  unfold run_full_analysis.
  destruct Hdns as [->| ->]; [|rewrite decide_True by done];
    run; rewrite (Hfail e Hread); run; rewrite Hshown, Hcases; done.
Qed.
(** X24. When the records read from the WinEvent file have no key
    [ComputerName], the run stops in the WinEvent analysis with a
    [KeyError], whatever DNS file is given: the DNS log is not loaded, nothing
    is drawn or written, and the state is left with the loaded batch and the
    findings of before. *)
Theorem run_full_analysis_records_without_host
    (winevent_file : string) (dns_file : option string) (self : Analyzer)
    (data : list (gmap string (gmap string cell))) :
  read_events winevent_file = Ok data →
  results_of data ≠ [] →
  (∀ r, r ∈ results_of data → r !! "ComputerName" = None) →
  (∀ col, ∃ col', to_numeric col = Ok col') →
  (∀ col, ∃ col', to_datetime col = Ok col') →
  ∃ key df,
    key ∈ ["EventCode"; "ComputerName"]
    ∧ nrows df = length (results_of data)
    ∧ run_full_analysis rng seed draw_choice draw_randint path_exists read_json read_csv
        read_events to_numeric to_datetime hours_of render to_csv
        winevent_file dns_file self
      = (Raise (KeyError key), with_winevent_df df self).
Proof.
  intros Hread Hsome Hhost Hnum Htime.
  assert (columns (frame_of_records (results_of data)) !! "ComputerName" = None) as Hnone.
  { destruct (columns (frame_of_records (results_of data)) !! "ComputerName") as [col|]
      eqn:Hcol; [|done].
    apply frame_of_records_lookup in Hcol as [Hkey _].
    apply elem_of_record_keys in Hkey as (r & Hr & [v Hv]).
    by rewrite (Hhost r Hr) in Hv. }
  assert (length (results_of data) ≠ 0) as Hlen by (by destruct (results_of data)).
  assert (∃ df, load_winevent_data read_events to_numeric to_datetime winevent_file self
                = (Ok true, with_winevent_df df self)
                ∧ nrows df = length (results_of data)
                ∧ columns df !! "ComputerName" = None) as (df & Hload & Hrows & Hcol).
  { pose proof (load_winevent_data_cases winevent_file self) as Hcases.
    cbv zeta in Hcases. rewrite Hread in Hcases.
    destruct (columns (frame_of_records (results_of data)) !! "EventCode") as [codes|].
    - destruct (Hnum codes) as [codes' Hcodes]. rewrite Hcodes in Hcases.
      destruct (columns (frame_of_records (results_of data)) !! "_time") as [times|].
      + destruct (Htime times) as [times' Htimes]. rewrite Htimes in Hcases.
        eexists. split; [exact Hcases|]. split; [done|].
        cbn [columns set_column]. by rewrite !lookup_insert_ne.
      + eexists. split; [exact Hcases|]. split; [done|].
        cbn [columns set_column]. by rewrite lookup_insert_ne.
    - destruct (columns (frame_of_records (results_of data)) !! "_time") as [times|].
      + destruct (Htime times) as [times' Htimes]. rewrite Htimes in Hcases.
        eexists. split; [exact Hcases|]. split; [done|].
        cbn [columns set_column]. by rewrite lookup_insert_ne.
      + eexists. split; [exact Hcases|]. done. }
  assert (∃ key, key ∈ ["EventCode"; "ComputerName"]
                 ∧ analyze_winevent_logs (with_winevent_df df self)
                   = (Raise (KeyError key), with_winevent_df df self)) as (key & Hkey & Hraise).
  { destruct (columns df !! "EventCode") as [codes|] eqn:Hcodes.
    - exists "ComputerName". split; [rewrite !elem_of_cons; tauto|].
      apply (analyze_winevent_logs_no_hosts _ df codes); [done|lia|done|done].
    - exists "EventCode". split; [rewrite !elem_of_cons; tauto|].
      apply (analyze_winevent_logs_no_codes _ df); [done|lia|done]. }
  exists key, df. split; [done|]. split; [done|].
  unfold run_full_analysis. run. rewrite Hload. run. rewrite Hraise. done.
Qed.
Lemma print_summary_findings (self : Analyzer) :
  suspicious_events (print_summary hours_of to_csv self).2 = suspicious_events self.
Proof.
  pose proof (print_summary_cases self) as Hcases. cbv zeta in Hcases.
  rewrite Hcases. clear Hcases.
  repeat match goal with
         | |- context [match ?x with _ => _ end] => destruct x
         end; done.
Qed.

(** X25. When the WinEvent file is read, its records have the keys
    [EventCode] and [ComputerName], the conversions succeed and no DNS file
    is given, the findings after the run are those of before with the entry
    "WinEvent" replaced by the counts of the converted identifiers; this
    holds whether the figure and the report succeed or raise. *)
Theorem run_full_analysis_stores_winevent_findings
    (winevent_file : string) (dns_file : option string) (self : Analyzer)
    (data : list (gmap string (gmap string cell))) (codes : list cell) :
  read_events winevent_file = Ok data →
  (∃ r, r ∈ results_of data ∧ is_Some (r !! "EventCode")) →
  (∃ r, r ∈ results_of data ∧ is_Some (r !! "ComputerName")) →
  to_numeric (column_of (results_of data) "EventCode") = Ok codes →
  (∀ col, ∃ col', to_datetime col = Ok col') →
  dns_file = None ∨ dns_file = Some "" →
  let final :=
    (run_full_analysis rng seed draw_choice draw_randint path_exists read_json read_csv
       read_events to_numeric to_datetime hours_of render to_csv
       winevent_file dns_file self).2 in
  ∃ result,
    suspicious_events final = <["WinEvent" := result]> (suspicious_events self)
    ∧ ∀ label n,
        result !! label = Some n ↔
        ∃ z info, (z, info) ∈ catalog_entries
                  ∧ label = event_name (float_dtype codes) (CInt z) info
                  ∧ n = occurrences (CInt z) codes ∧ 0 < n.
Proof.
  intros Hread Hcode Hhost Hnum Htime Hdns. cbv zeta.
  assert (columns (frame_of_records (results_of data)) !! "EventCode"
          = Some (column_of (results_of data) "EventCode")) as Hcodes
    by (apply frame_of_records_lookup; split; [by apply elem_of_record_keys | done]).
  assert (columns (frame_of_records (results_of data)) !! "ComputerName"
          = Some (column_of (results_of data) "ComputerName")) as Hhosts
    by (apply frame_of_records_lookup; split; [by apply elem_of_record_keys | done]).
  assert (length (results_of data) ≠ 0) as Hlen.
  { destruct Hcode as (r & Hr & _). destruct (results_of data); [|done]. by apply elem_of_nil in Hr. }
  assert (∃ df, load_winevent_data read_events to_numeric to_datetime winevent_file self
                = (Ok true, with_winevent_df df self)
                ∧ nrows df = length (results_of data)
                ∧ columns df !! "EventCode" = Some codes
                ∧ columns df !! "ComputerName" = Some (column_of (results_of data) "ComputerName"))
    as (df & Hload & Hrows & Hcodes' & Hhosts').
  { pose proof (load_winevent_data_cases winevent_file self) as Hcases.
    cbv zeta in Hcases. rewrite Hread in Hcases. cbv beta iota in Hcases.
    rewrite Hcodes, Hnum in Hcases.
    destruct (columns (frame_of_records (results_of data)) !! "_time") as [times|].
    - destruct (Htime times) as [times' Htimes]. rewrite Htimes in Hcases.
      eexists. split; [exact Hcases|]. split; [done|]. cbn [columns set_column].
      rewrite !lookup_insert_ne, lookup_insert by done.
      by rewrite lookup_insert_ne, lookup_insert_ne by done.
    - eexists. split; [exact Hcases|]. split; [done|]. cbn [columns set_column].
      by rewrite lookup_insert, lookup_insert_ne by done. }
  exists (winevent_result (float_dtype codes) (value_counts (suspicious_codes codes))).
  split; [|intros label n; apply winevent_result_counts].
  pose proof (analyze_winevent_logs_run (with_winevent_df df self) df codes
                (column_of (results_of data) "ComputerName") eq_refl) as Hanalyze.
  cbv zeta in Hanalyze. specialize (Hanalyze ltac:(lia) Hcodes' Hhosts').
  unfold run_full_analysis.
  destruct Hdns as [->| ->]; [|rewrite decide_True by done];
    run; rewrite Hload; run; rewrite Hanalyze; run.
  all: match goal with
       | |- context [visualize_results render ?s] =>
           pose proof (visualize_results_state s) as Hshown;
           destruct (visualize_results render s) as [[top10|e] self3];
           cbn [fst snd] in *; subst self3; [|done];
           pose proof (print_summary_findings s) as Hprinted;
           destruct (print_summary hours_of to_csv s) as [[report|e] self4];
           cbn [fst snd] in *; by rewrite Hprinted
       end.
Qed.
End PipelineFacts.

Lemma load_winevent_data_builds_the_batch_witness :
  ∃ df,
    load_winevent_data (λ _, Ok sample_events) as_it_is as_it_is "botsv1.json" init
    = (Ok true, with_winevent_df df init)
    ∧ nrows df = 2.
Proof.
  destruct (load_winevent_data_builds_the_batch (λ _, Ok sample_events) as_it_is as_it_is
              "botsv1.json" init sample_events)
    as (df & Hload & Hrows & _).
  - reflexivity.
  - intros col. by exists col.
  - intros col. by exists col.
  - exists df. split; [exact Hload | exact Hrows].
Defined.

Lemma load_winevent_data_failed_conversion_witness :
  load_winevent_data (λ _, Ok sample_events) rejecting as_it_is "botsv1.json" init
  = (Ok false, with_winevent_df (frame_of_records (results_of sample_events)) init).
Proof.
  apply (load_winevent_data_failed_conversion (λ _, Ok sample_events) rejecting as_it_is
           "botsv1.json" init sample_events [CStr "4625"; CStr "n/a"]
           (OtherError "Invalid object type")).
  - reflexivity.
  - vm_compute. reflexivity.
  - reflexivity.
Defined.

Lemma print_summary_adds_hour_column_witness :
  let printed := print_summary (λ _, Ok [CInt 9; CInt 13]) saved
                   (with_winevent timed_batch) in
  (∃ df',
     winevent_df printed.2 = Some df'
     ∧ nrows df' = 2
     ∧ columns df' !! "hour" = Some [CInt 9; CInt 13]
     ∧ ∀ name, name ≠ "hour" → columns df' !! name = columns timed_batch !! name)
  ∧ dns_df printed.2 = None
  ∧ suspicious_events printed.2 = ∅
  ∧ ((∀ c, c ∈ [CInt 9; CInt 13] → ∃ h, c = CInt h) → printed.1 = Ok (0, [])).
Proof.
  apply (print_summary_adds_hour_column (λ _, Ok [CInt 9; CInt 13]) saved
           (with_winevent timed_batch) timed_batch
           [CStr "2016-08-24 09:12:00"; CNaN] [CInt 9; CInt 13]).
  - reflexivity.
  - discriminate.
  - reflexivity.
  - reflexivity.
  - left. reflexivity.
Defined.

Lemma print_summary_missing_timestamp_witness :
  print_summary (λ _, Ok [CInt 9; CNaN]) saved (with_winevent timed_batch)
  = (Raise (ValueError "Unknown format code 'd' for object of type 'float'"),
     with_winevent_df (set_column "hour" [CInt 9; CNaN] timed_batch)
       (with_winevent timed_batch)).
Proof.
  apply (print_summary_missing_timestamp (λ _, Ok [CInt 9; CNaN]) saved
           (with_winevent timed_batch) timed_batch
           [CStr "2016-08-24 09:12:00"; CNaN] [CInt 9; CNaN] CNaN (CInt 9)).
  - reflexivity.
  - discriminate.
  - reflexivity.
  - reflexivity.
  - left. reflexivity.
  - intros c Hc. rewrite !elem_of_cons, elem_of_nil in Hc.
    destruct Hc as [->|[->|[]]]; [right; by exists 9%Z | by left].
  - apply elem_of_cons. right. apply elem_of_cons. by left.
  - reflexivity.
  - apply elem_of_cons. by left.
  - reflexivity.
Defined.

Lemma run_full_analysis_without_dns_witness :
  let final :=
    (run_full_analysis unit (λ _, ()) fixed_choice lowest_randint no_file unreadable
       unreadable (λ _, Ok sample_events) as_it_is as_it_is as_it_is drawn saved
       "botsv1.json" None init).2 in
  dns_df final = None ∧ suspicious_events final !! "DNS" = None.
Proof.
  apply (run_full_analysis_without_dns unit (λ _, ()) fixed_choice lowest_randint no_file
           unreadable unreadable (λ _, Ok sample_events) as_it_is as_it_is as_it_is drawn
           saved "botsv1.json" None init).
  left. reflexivity.
Defined.

Lemma run_full_analysis_missing_dns_file_witness :
  ∃ e,
    (run_full_analysis unit (λ _, ()) fixed_choice lowest_randint no_file unreadable
       unreadable unreadable as_it_is as_it_is as_it_is drawn saved
       "botsv1.json" (Some "dns.json") init).1 = Raise e
    ∧ (e = ValueError "probabilities do not sum to 1" ∨ ∃ key, e = KeyError key).
Proof.
  apply (run_full_analysis_missing_dns_file unit (λ _, ()) fixed_choice lowest_randint
           no_file unreadable unreadable unreadable as_it_is as_it_is as_it_is drawn saved
           "botsv1.json" "dns.json" init).
  - discriminate.
  - reflexivity.
Defined.

Lemma run_full_analysis_nothing_loaded_witness :
  main unit (λ _, ()) fixed_choice lowest_randint no_file unreadable unreadable
    unreadable as_it_is as_it_is as_it_is drawn saved
  = (Ok (), init).
Proof.
  apply (run_full_analysis_nothing_loaded unit (λ _, ()) fixed_choice lowest_randint
           no_file unreadable unreadable unreadable as_it_is as_it_is as_it_is drawn saved
           "botsv1.json" None init (OtherError "No such file or directory")).
  - reflexivity.
  - left. reflexivity.
  - reflexivity.
  - intros source events Hlook. unfold init in Hlook.
    cbn [suspicious_events] in Hlook. by rewrite lookup_empty in Hlook.
Defined.

Lemma run_full_analysis_records_without_host_witness :
  ∃ key df,
    key ∈ ["EventCode"; "ComputerName"]
    ∧ nrows df = 2
    ∧ run_full_analysis unit (λ _, ()) fixed_choice lowest_randint no_file unreadable
        unreadable (λ _, Ok hostless_events) as_it_is as_it_is as_it_is drawn saved
        "botsv1.json" (Some "dns.json") init
      = (Raise (KeyError key), with_winevent_df df init).
Proof.
  apply (run_full_analysis_records_without_host unit (λ _, ()) fixed_choice lowest_randint
           no_file unreadable unreadable (λ _, Ok hostless_events) as_it_is as_it_is
           as_it_is drawn saved "botsv1.json" (Some "dns.json") init hostless_events).
  - reflexivity.
  - discriminate.
  - intros r Hr.
    assert (results_of hostless_events
            = [ {[ "EventCode" := CStr "4625" ]};
                {[ "EventCode" := CStr "4624"; "_time" := CStr "2016-08-24T11:37:10" ]} ])
      as Heq by (vm_compute; reflexivity).
    rewrite Heq, !elem_of_cons, elem_of_nil in Hr.
    destruct Hr as [->|[->|[]]]; reflexivity.
  - intros col. by exists col.
  - intros col. by exists col.
Defined.

Lemma run_full_analysis_stores_winevent_findings_witness :
  let final :=
    (run_full_analysis unit (λ _, ()) fixed_choice lowest_randint no_file unreadable
       unreadable (λ _, Ok sample_events) (λ _, Ok [CInt 4625; CNaN]) as_it_is as_it_is
       drawn saved "botsv1.json" None init).2 in
  ∃ result,
    suspicious_events final = <["WinEvent" := result]> ∅
    ∧ ∀ label n,
        result !! label = Some n ↔
        ∃ z info, (z, info) ∈ catalog_entries
                  ∧ label = event_name true (CInt z) info
                  ∧ n = occurrences (CInt z) [CInt 4625; CNaN] ∧ 0 < n.
Proof.
  apply (run_full_analysis_stores_winevent_findings unit (λ _, ()) fixed_choice
           lowest_randint no_file unreadable unreadable (λ _, Ok sample_events)
           (λ _, Ok [CInt 4625; CNaN]) as_it_is as_it_is drawn saved
           "botsv1.json" None init sample_events [CInt 4625; CNaN]).
  - reflexivity.
  - exists {[ "EventCode" := CStr "4625"; "ComputerName" := CStr "we8105desk" ]}.
    split; [|by eexists].
    apply elem_of_results_of. eexists. split; [apply elem_of_cons; by left|]. reflexivity.
  - exists {[ "EventCode" := CStr "4625"; "ComputerName" := CStr "we8105desk" ]}.
    split; [|by eexists].
    apply elem_of_results_of. eexists. split; [apply elem_of_cons; by left|]. reflexivity.
  - reflexivity.
  - intros col. by exists col.
  - left. reflexivity.
Defined.
